(** * paymentService: the subscription lifecycle orchestrator and its
      transport adapter

    A shallow embedding of [internal/services/payment/payment.go] (the
    orchestrator) and [internal/grpc/payment/server.go] (the gRPC adapter).

    The payment processor is reached through the [stripe-go] packages
    [customer], [paymentmethod] and [subscription]; each of their functions
    is a blocking network call returning a value or an error.  They are
    modelled as an interface ([Env]) over an abstract world [W]: a call
    maps the world to a response and a new world.  The orchestrator runs in
    a state monad that threads the world, the list of processor requests it
    has issued so far, and the entries it has handed to the logger.

    The webhook entry point and the payment-intent helper of the
    orchestrator are embedded the same way, over a verifier of webhook
    signatures and a gateway to payment intents.  The logger of
    [internal/jsonlog] is embedded a second time with its files: writing,
    rotation and the clean-up of old files, over an interface to the
    operating system ([logfiles.OS]).  The mutex of the logger is left
    out, and the goroutine that runs the clean-up is a flag that says
    whether it was started. *)

From Stdlib Require Import ZArith Lia Ascii String.
From stdpp Require Import base strings gmap list pretty sorting.

Local Open Scope Z_scope.

(* ===================================================================== *)
(** ** Go's [strconv], as far as the two packages use it *)
(* ===================================================================== *)

Module strconv.

(** The two causes a [*NumError] can carry. *)
Inductive NumErr := ErrSyntax | ErrRange.

#[global] Instance NumErr_eq_dec : EqDecision NumErr.
Proof. solve_decision. Defined.

Definition maxUint64 : Z := 2 ^ 64 - 1.

Definition byte (c : ascii) : Z := Z.of_N (N_of_ascii c).

(** [lower(c) = c | ('x' - 'X')]. *)
Definition lower (c : Z) : Z := Z.lor c 32.

(** The body of the [for _, c := range []byte(s)] loop of [ParseUint],
    for a base between 2 and 36 (no underscores, no prefix): [n] is the
    value read so far.  A range error returns at once, before the bytes
    that follow are looked at. *)
Fixpoint ParseUint_loop (base cutoff maxVal : Z) (s : string) (n : Z)
  : Z * option NumErr :=
  match s with
  | EmptyString => (n, None)
  | String ch rest =>
      let c := byte ch in
      let digit :=
        if (48 <=? c) && (c <=? 57) then Some (c - 48)
        else if (97 <=? lower c) && (lower c <=? 122)
             then Some (lower c - 97 + 10)
             else None in
      match digit with
      | None => (0, Some ErrSyntax)
      | Some d =>
          if base <=? d then (0, Some ErrSyntax)
          else if cutoff <=? n then (maxVal, Some ErrRange)
          else
            let n' := n * base in
            let n1 := (n' + d) mod 2 ^ 64 in
            if (n1 <? n') || (maxVal <? n1) then (maxVal, Some ErrRange)
            else ParseUint_loop base cutoff maxVal rest n1
      end
  end.

(** [ParseUint(s, base, bitSize)] for [2 <= base <= 36] and
    [1 <= bitSize <= 64]. *)
Definition ParseUint (s : string) (base bitSize : Z) : Z * option NumErr :=
  if decide (s = "") then (0, Some ErrSyntax)
  else
    let cutoff := maxUint64 / base + 1 in
    let maxVal := 2 ^ bitSize - 1 in
    ParseUint_loop base cutoff maxVal s 0.

(** [ParseInt(s, base, bitSize)]: the value and the cause of the error,
    if any.  On a syntax error the value is 0; on a range error it is
    the bound of the [bitSize]-bit integers on the side of the sign. *)
Definition ParseInt (s : string) (base bitSize : Z) : Z * option NumErr :=
  match s with
  | EmptyString => (0, Some ErrSyntax)
  | String c0 rest =>
      let neg := bool_decide (c0 = "-"%char) in
      let s' := if decide (c0 = "+"%char) then rest
                else if decide (c0 = "-"%char) then rest else s in
      let '(un, err) := ParseUint s' base bitSize in
      match err with
      | Some ErrSyntax => (0, Some ErrSyntax)
      | _ =>
          let cutoff := 2 ^ (bitSize - 1) in
          if negb neg && (cutoff <=? un) then (cutoff - 1, Some ErrRange)
          else if neg && (cutoff <? un) then (- cutoff, Some ErrRange)
          else (if neg then - un else un, None)
      end
  end.

(** [FormatInt(i, 10)] and [Itoa(i)]: the decimal numeral, with a minus
    sign for a negative number. *)
Definition FormatInt (i : Z) : string := pretty i.
Definition Itoa (i : Z) : string := pretty i.

End strconv.

(** Conversion to [int32]: the low 32 bits, read as a signed number. *)
Definition int32 (z : Z) : Z := (z + 2 ^ 31) mod 2 ^ 32 - 2 ^ 31.

(* ===================================================================== *)
(** ** The protocol's enumerations and messages (package [paymentProto]) *)
(* ===================================================================== *)

Module pb.

(** [payment.Status]: the outcome of a lifecycle operation. *)
Inductive Status :=
| Status_STATUS_OK
| Status_STATUS_INVALID_USER
| Status_STATUS_INVALID_PLAN
| Status_STATUS_INVALID_PAYMENT_METHOD
| Status_STATUS_INTERNAL_ERROR.

(** [payment.SubscriptionStatus]: the lifecycle status.  [UNSPECIFIED]
    is the enumeration's zero value. *)
Inductive SubscriptionStatus :=
| SubscriptionStatus_SUBSCRIPTION_STATUS_UNSPECIFIED
| SubscriptionStatus_SUBSCRIPTION_STATUS_ACTIVE
| SubscriptionStatus_SUBSCRIPTION_STATUS_CANCELED
| SubscriptionStatus_SUBSCRIPTION_STATUS_INCOMPLETE_EXPIRED
| SubscriptionStatus_SUBSCRIPTION_STATUS_UNPAID
| SubscriptionStatus_SUBSCRIPTION_STATUS_TRIALING.

#[global] Instance Status_eq_dec : EqDecision Status.
Proof. solve_decision. Defined.
#[global] Instance SubscriptionStatus_eq_dec : EqDecision SubscriptionStatus.
Proof. solve_decision. Defined.

Record CreateSubscriptionRequest := {
  CreateReq_PlanId : Z;
  CreateReq_PaymentMethodId : string }.

Record CreateSubscriptionResponse := {
  CreateResp_SubStripeId : string;
  CreateResp_Status : Status }.

Record CancelSubscriptionRequest := { CancelReq_SubStripeId : string }.

Record CancelSubscriptionResponse := { CancelResp_Status : Status }.

Record GetSubscriptionRequest := { GetReq_SubStripeId : string }.

Record Subscription := {
  Id : Z;
  PlanId : Z;
  StripeSubscriptionId : string;
  Status_ : SubscriptionStatus;
  CurrentPeriodEnd : Z }.

Record GetSubscriptionResponse := { GetResp_Subscription : Subscription }.

End pb.

(* ===================================================================== *)
(** ** Errors *)
(* ===================================================================== *)

Inductive Code := Unauthenticated | InvalidArgument | Internal.

(** The values of Go's [error] that the two packages meet: a gRPC status
    ([status.Error]), a formatted message ([fmt.Errorf]), an error answered
    by the processor, and [strconv]'s [*NumError]. *)
Inductive error :=
| status_Error (c : Code) (msg : string)
| fmt_Errorf (msg : string)
| stripe_Error (msg : string)
| NumError (Func Num : string) (Err : strconv.NumErr).

Definition Code_String (c : Code) : string :=
  match c with
  | Unauthenticated => "Unauthenticated"
  | InvalidArgument => "InvalidArgument"
  | Internal => "Internal"
  end.

(** [err.Error()].  A [*NumError] quotes the numeral with [strconv.Quote];
    its escapes are left out here (the packages never render one). *)
Definition Error (e : error) : string :=
  match e with
  | status_Error c msg =>
      "rpc error: code = " +:+ Code_String c +:+ " desc = " +:+ msg
  | fmt_Errorf msg => msg
  | stripe_Error msg => msg
  | NumError f num strconv.ErrSyntax =>
      "strconv." +:+ f +:+ ": parsing " +:+ num +:+ ": invalid syntax"
  | NumError f num strconv.ErrRange =>
      "strconv." +:+ f +:+ ": parsing " +:+ num +:+ ": value out of range"
  end.

(** A Go result pair [(value, err)] with exactly one side set. *)
Inductive result (A : Type) :=
| Ok (a : A)
| Err (e : error).
Arguments Ok {A} a.
Arguments Err {A} e.

(** [strconv.ParseInt] as the adapter calls it: the value with the
    [*NumError], if any. *)
Definition ParseInt (s : string) (base bitSize : Z) : Z * option error :=
  let '(v, e) := strconv.ParseInt s base bitSize in
  (v, NumError "ParseInt" s <$> e).

(* ===================================================================== *)
(** ** The processor's objects and parameters (package [stripe]) *)
(* ===================================================================== *)

Module stripe.

(** [type SubscriptionStatus string], with the library's constants. *)
Definition SubscriptionStatus := string.
Definition SubscriptionStatusActive : SubscriptionStatus := "active".
Definition SubscriptionStatusCanceled : SubscriptionStatus := "canceled".
Definition SubscriptionStatusIncomplete : SubscriptionStatus := "incomplete".
Definition SubscriptionStatusIncompleteExpired : SubscriptionStatus := "incomplete_expired".
Definition SubscriptionStatusPastDue : SubscriptionStatus := "past_due".
Definition SubscriptionStatusPaused : SubscriptionStatus := "paused".
Definition SubscriptionStatusTrialing : SubscriptionStatus := "trialing".
Definition SubscriptionStatusUnpaid : SubscriptionStatus := "unpaid".

Record Price := { Price_ID : string }.

Record SubscriptionItem := { Item_Price : Price }.

(** The fields of [stripe.Subscription] the orchestrator reads;
    [Items_Data] is [Items.Data]. *)
Record Subscription := {
  Sub_ID : string;
  Sub_Status : SubscriptionStatus;
  Sub_CanceledAt : Z;
  Items_Data : list SubscriptionItem }.

Record Customer := {
  Customer_ID : string;
  Customer_Description : string;
  Customer_Metadata : gmap string string }.

Record PaymentMethod := { PaymentMethod_ID : string }.

(** Parameters; a field left unset is [None] (a nil pointer) or an empty
    map or list. *)
Record CustomerParams := {
  Description : option string;
  Metadata : gmap string string;
  InvoiceSettings_DefaultPaymentMethod : option string }.

Definition CustomerParams_zero : CustomerParams :=
  {| Description := None; Metadata := ∅;
     InvoiceSettings_DefaultPaymentMethod := None |}.

Record PaymentMethodAttachParams := { Attach_Customer : option string }.

Record SubscriptionItemsParams := { Item_Price_param : option string }.

Record SubscriptionParams := {
  Customer_param : option string;
  Items : list SubscriptionItemsParams;
  PaymentBehavior : option string;
  PaymentSettings_SaveDefaultPaymentMethod : option string;
  Expand : list string }.

Definition SubscriptionParams_zero : SubscriptionParams :=
  {| Customer_param := None; Items := []; PaymentBehavior := None;
     PaymentSettings_SaveDefaultPaymentMethod := None; Expand := [] |}.

(** [params.AddExpand(f)]. *)
Definition AddExpand (params : SubscriptionParams) (f : string) : SubscriptionParams :=
  {| Customer_param := Customer_param params;
     Items := Items params;
     PaymentBehavior := PaymentBehavior params;
     PaymentSettings_SaveDefaultPaymentMethod :=
       PaymentSettings_SaveDefaultPaymentMethod params;
     Expand := Expand params ++ [f] |}.

(** [stripe.SubscriptionCancelParams{}]: both options are commented out
    in the source. *)
Record SubscriptionCancelParams := { }.

(** A request sent to the processor, as the orchestrator issues it. *)
Inductive Request :=
| Req_customer_Get (id : string) (params : CustomerParams)
| Req_customer_New (params : CustomerParams)
| Req_customer_Update (id : string) (params : CustomerParams)
| Req_paymentmethod_Attach (id : string) (params : PaymentMethodAttachParams)
| Req_subscription_New (params : SubscriptionParams)
| Req_subscription_Get (id : string) (params : option SubscriptionParams)
| Req_subscription_Cancel (id : string) (params : SubscriptionCancelParams).

Definition is_cancel (r : Request) : bool :=
  match r with Req_subscription_Cancel _ _ => true | _ => false end.

Definition is_customer_or_attach (r : Request) : bool :=
  match r with
  | Req_customer_Get _ _ | Req_customer_New _ | Req_customer_Update _ _
  | Req_paymentmethod_Attach _ _ => true
  | _ => false
  end.

End stripe.

(* ===================================================================== *)
(** ** [internal/data] *)
(* ===================================================================== *)

Module data.

Record Subscription := {
  ID : string;
  PlanID : string;
  StripeSubID : string;
  Status : pb.SubscriptionStatus;
  CurrentPeriodEnd : Z }.

(** [data.Subscription{}], the zero value. *)
Definition Subscription_zero : Subscription :=
  {| ID := ""; PlanID := ""; StripeSubID := "";
     Status := pb.SubscriptionStatus_SUBSCRIPTION_STATUS_UNSPECIFIED;
     CurrentPeriodEnd := 0 |}.

End data.

(* ===================================================================== *)
(** ** The call context *)
(* ===================================================================== *)

(** What [ctx.Value(key)] can hold, as far as the type assertions of the
    two packages tell values apart. *)
Inductive any :=
| any_nil
| any_int64 (n : Z)
| any_string (s : string)
| any_other.

Record Context := {
  Value_UserIDKey : any;
  Value_RequestIDKey : any }.

(* ===================================================================== *)
(** ** [internal/jsonlog], reduced to the entries it is handed *)
(* ===================================================================== *)

Module jsonlog.

Definition Level := Z.
Definition LevelDebug : Level := -1.
Definition LevelInfo : Level := 0.
Definition LevelWarn : Level := 1.
Definition LevelError : Level := 2.
Definition LevelFatal : Level := 3.
Definition LevelOff : Level := 4.

Record Logger := { minLevel : Level }.

(** An entry as [print] assembles it, without the time stamp and the
    stack trace. *)
Record Entry := {
  Entry_Level : Level;
  Entry_Message : string;
  Entry_Properties : gmap string string }.

(** [printWithContext]: the entries written, given those written so
    far.  Writing, rotation and their errors are outside the model; no
    caller reads the result. *)
Definition printWithContext (l : Logger) (ctx : Context) (level : Level)
    (message : string) (properties : gmap string string)
    (out : list Entry) : list Entry :=
  if level <? minLevel l then out
  else
    let properties :=
      match Value_RequestIDKey ctx with
      | any_string requestID => <["request_id" := requestID]> properties
      | _ => properties
      end in
    out ++ [ {| Entry_Level := level; Entry_Message := message;
                Entry_Properties := properties |} ].

End jsonlog.

(* ===================================================================== *)
(** ** The environment: processor gateway and clock *)
(* ===================================================================== *)

(** The functions of [stripe-go] that the orchestrator calls, and the
    clock.  [W] is everything outside the process; each call answers and
    moves the world on.  A function of [stripe-go] that returns no error
    returns an object, so a response is [Ok] or [Err].  [AddDate_0_1_0 t]
    is [t.AddDate(0, 1, 0).Unix()] and [Format_RFC3339 t] is
    [time.Unix(t, 0).Format(time.RFC3339)], for [t] in Unix seconds. *)
Class Env (W : Type) := {
  customer_Get : string → stripe.CustomerParams → W → result stripe.Customer * W;
  customer_New : stripe.CustomerParams → W → result stripe.Customer * W;
  customer_Update : string → stripe.CustomerParams → W → result stripe.Customer * W;
  paymentmethod_Attach :
    string → stripe.PaymentMethodAttachParams → W → result stripe.PaymentMethod * W;
  subscription_New : stripe.SubscriptionParams → W → result stripe.Subscription * W;
  subscription_Get :
    string → option stripe.SubscriptionParams → W → result stripe.Subscription * W;
  subscription_Cancel :
    string → stripe.SubscriptionCancelParams → W → result stripe.Subscription * W;
  time_Now : W → Z * W;
  AddDate_0_1_0 : Z → Z;
  Format_RFC3339 : Z → string }.

(** The state an operation runs in: the world, the requests sent to the
    processor so far (oldest first) and the log entries written so far. *)
Record State (W : Type) := mkState {
  world : W;
  requests : list stripe.Request;
  entries : list jsonlog.Entry }.
Arguments mkState {W} _ _ _.
Arguments world {W} _.
Arguments requests {W} _.
Arguments entries {W} _.

Definition M (W A : Type) : Type := State W → A * State W.

Definition ret {W A} (a : A) : M W A := fun st => (a, st).

Definition bind {W A B} (m : M W A) (k : A → M W B) : M W B :=
  fun st => let '(a, st') := m st in k a st'.

Declare Scope orch_scope.
Delimit Scope orch_scope with orch.
Notation "x <- m ;; k" := (bind m (fun x => k))
  (at level 100, m at next level, right associativity) : orch_scope.
Notation "m ;; k" := (bind m (fun _ => k))
  (at level 100, right associativity) : orch_scope.

(** Send a request through the gateway function [f] and record it. *)
Definition call {W A} (rq : stripe.Request) (f : W → result A * W) : M W (result A) :=
  fun st =>
    let '(r, w) := f (world st) in
    (r, mkState w (requests st ++ [rq]) (entries st)).

(** [time.Now().Unix()]. *)
Definition Now {W} `{Env W} : M W Z :=
  fun st =>
    let '(t, w) := time_Now (world st) in
    (t, mkState w (requests st) (entries st)).

(** Start an operation in world [w] with nothing sent and nothing logged. *)
Definition start {W} (w : W) : State W := mkState w [] [].

(** What an operation answers in world [w], and the world it leaves. *)
Definition outcome {W A} (m : M W A) (w : W) : A * W :=
  let '(a, st) := m (start w) in (a, world st).

(* ===================================================================== *)
(** ** [internal/services/payment]: the orchestrator *)
(* ===================================================================== *)

Module services.
Section Orchestrator.
Context {W : Type} `{Env W}.
Local Open Scope orch_scope.

Record Payment := {
  log : jsonlog.Logger;
  tokenTTL : Z }.

Definition PrintInfoWithContext (p : Payment) (ctx : Context)
    (message : string) (properties : gmap string string) : M W unit :=
  fun st =>
    (tt, mkState (world st) (requests st)
           (jsonlog.printWithContext (log p) ctx jsonlog.LevelInfo
              message properties (entries st))).

Definition PrintErrorWithContext (p : Payment) (ctx : Context)
    (err : error) (properties : gmap string string) : M W unit :=
  fun st =>
    (tt, mkState (world st) (requests st)
           (jsonlog.printWithContext (log p) ctx jsonlog.LevelError
              (Error err) properties (entries st))).

(** [getUserFromContext]: the user id carried by the context. *)
Definition getUserFromContext (ctx : Context) : result Z :=
  match Value_UserIDKey ctx with
  | any_nil =>
      Err (status_Error Unauthenticated "user id is missing in context")
  | any_int64 userID => Ok userID
  | _ => Err (status_Error Unauthenticated "user id is invalid in context")
  end.

Definition getPaymentStatusFromStripe (subscriptionStatus : stripe.SubscriptionStatus)
  : pb.SubscriptionStatus :=
  if decide (subscriptionStatus = stripe.SubscriptionStatusActive)
  then pb.SubscriptionStatus_SUBSCRIPTION_STATUS_ACTIVE
  else if decide (subscriptionStatus = stripe.SubscriptionStatusCanceled)
  then pb.SubscriptionStatus_SUBSCRIPTION_STATUS_CANCELED
  else if decide (subscriptionStatus = stripe.SubscriptionStatusIncompleteExpired)
  then pb.SubscriptionStatus_SUBSCRIPTION_STATUS_INCOMPLETE_EXPIRED
  else if decide (subscriptionStatus = stripe.SubscriptionStatusUnpaid)
  then pb.SubscriptionStatus_SUBSCRIPTION_STATUS_UNPAID
  else if decide (subscriptionStatus = stripe.SubscriptionStatusTrialing)
  then pb.SubscriptionStatus_SUBSCRIPTION_STATUS_TRIALING
  else pb.SubscriptionStatus_SUBSCRIPTION_STATUS_UNSPECIFIED.

(** [mapPlanIDToStripePrice] maps internal plan IDs to price IDs. *)
Definition mapPlanIDToStripePrice (planID : Z) : string :=
  match planID with
  | 1 => "price_basic_123"
  | 2 => "price_pro_456"
  | _ => ""
  end.

(** The [createParams] of [getOrCreateCustomer]: a description and the
    user id as metadata; no identifier. *)
Definition createParams (userID : string) : stripe.CustomerParams :=
  {| stripe.Description := Some ("Customer for user " +:+ userID);
     stripe.Metadata := {[ "user_id" := userID ]};
     stripe.InvoiceSettings_DefaultPaymentMethod := None |}.

(** [getOrCreateCustomer]: look the customer up under [userID]; when the
    lookup gives no customer, create one described by [userID]. *)
Definition getOrCreateCustomer (p : Payment) (ctx : Context) (userID : string)
  : M W (result string) :=
  PrintInfoWithContext p ctx "Getting or creating Stripe customer"
    {[ "operation" := "getOrCreateCustomer"; "userID" := userID ]} ;;
  let customerParams := stripe.CustomerParams_zero in
  r <- call (stripe.Req_customer_Get userID customerParams)
            (customer_Get userID customerParams) ;;
  match r with
  | Ok stripeCustomer =>
      PrintInfoWithContext p ctx "Retrieved existing Stripe customer"
        {[ "operation" := "getOrCreateCustomer"; "userID" := userID;
           "customerID" := stripe.Customer_ID stripeCustomer ]} ;;
      ret (Ok (stripe.Customer_ID stripeCustomer))
  | Err _ =>
      let createParams := createParams userID in
      r <- call (stripe.Req_customer_New createParams)
                (customer_New createParams) ;;
      match r with
      | Err err =>
          PrintErrorWithContext p ctx err
            {[ "operation" := "getOrCreateCustomer"; "userID" := userID;
               "error" := Error err ]} ;;
          ret (Err err)
      | Ok newCustomer =>
          PrintInfoWithContext p ctx "Created new Stripe customer"
            {[ "operation" := "getOrCreateCustomer"; "userID" := userID;
               "customerID" := stripe.Customer_ID newCustomer ]} ;;
          ret (Ok (stripe.Customer_ID newCustomer))
      end
  end.

(** The [params] of [attachPaymentMethod]. *)
Definition attachParams (customerID : string) : stripe.PaymentMethodAttachParams :=
  {| stripe.Attach_Customer := Some customerID |}.

(** [attachPaymentMethod]: [None] is a nil error. *)
Definition attachPaymentMethod (p : Payment) (ctx : Context)
    (customerID paymentMethodID : string) : M W (option error) :=
  PrintInfoWithContext p ctx "Attaching payment method to customer"
    {[ "operation" := "attachPaymentMethod"; "customerID" := customerID;
       "paymentMethodID" := paymentMethodID ]} ;;
  let params := attachParams customerID in
  r <- call (stripe.Req_paymentmethod_Attach paymentMethodID params)
            (paymentmethod_Attach paymentMethodID params) ;;
  match r with
  | Err err =>
      PrintErrorWithContext p ctx err
        {[ "operation" := "attachPaymentMethod"; "customerID" := customerID;
           "paymentMethodID" := paymentMethodID; "error" := Error err ]} ;;
      ret (Some err)
  | Ok _ =>
      PrintInfoWithContext p ctx "Payment method attached to customer successfully"
        {[ "operation" := "attachPaymentMethod"; "customerID" := customerID;
           "paymentMethodID" := paymentMethodID ]} ;;
      ret None
  end.

(** The [params] of [setDefaultPaymentMethod]. *)
Definition defaultMethodParams (paymentMethodID : string) : stripe.CustomerParams :=
  {| stripe.Description := None; stripe.Metadata := ∅;
     stripe.InvoiceSettings_DefaultPaymentMethod := Some paymentMethodID |}.

(** [setDefaultPaymentMethod]: [None] is a nil error. *)
Definition setDefaultPaymentMethod (p : Payment) (ctx : Context)
    (customerID paymentMethodID : string) : M W (option error) :=
  PrintInfoWithContext p ctx "Setting default payment method for customer"
    {[ "operation" := "setDefaultPaymentMethod"; "customerID" := customerID;
       "paymentMethodID" := paymentMethodID ]} ;;
  let params := defaultMethodParams paymentMethodID in
  r <- call (stripe.Req_customer_Update customerID params)
            (customer_Update customerID params) ;;
  match r with
  | Err err =>
      PrintErrorWithContext p ctx err
        {[ "operation" := "setDefaultPaymentMethod"; "customerID" := customerID;
           "paymentMethodID" := paymentMethodID; "error" := Error err ]} ;;
      ret (Some err)
  | Ok _ =>
      PrintInfoWithContext p ctx "Default payment method set successfully"
        {[ "operation" := "setDefaultPaymentMethod"; "customerID" := customerID;
           "paymentMethodID" := paymentMethodID ]} ;;
      ret None
  end.

(** The [params] of [CreateSubscription], step 7, after [AddExpand]. *)
Definition subscriptionParams (customerID stripePrice : string)
  : stripe.SubscriptionParams :=
  stripe.AddExpand
    {| stripe.Customer_param := Some customerID;
       stripe.Items := [ {| stripe.Item_Price_param := Some stripePrice |} ];
       stripe.PaymentBehavior := Some "default_incomplete";
       stripe.PaymentSettings_SaveDefaultPaymentMethod := Some "on_subscription";
       stripe.Expand := [] |}
    "latest_invoice.payment_intent".

(** [CreateSubscription]: validate, resolve the customer, attach the
    payment method, make it the default, create the subscription. *)
Definition CreateSubscription (p : Payment) (ctx : Context)
    (planID : Z) (paymentMethodID : string) : M W (string * pb.Status) :=
  match getUserFromContext ctx with
  | Err err =>
      PrintErrorWithContext p ctx err
        {[ "operation" := "CreateSubscription";
           "planID" := strconv.Itoa planID ]} ;;
      ret ("", pb.Status_STATUS_INVALID_USER)
  | Ok userID =>
      let userIDStr := strconv.FormatInt userID in
      let stripePrice := mapPlanIDToStripePrice planID in
      if decide (stripePrice = "") then
        let err := fmt_Errorf ("invalid plan ID: " +:+ strconv.Itoa planID) in
        PrintErrorWithContext p ctx err
          {[ "operation" := "CreateSubscription";
             "planID" := strconv.Itoa planID; "userID" := userIDStr ]} ;;
        ret ("", pb.Status_STATUS_INVALID_PLAN)
      else if decide (paymentMethodID = "") then
        let err := fmt_Errorf "payment method ID is required" in
        PrintErrorWithContext p ctx err
          {[ "operation" := "CreateSubscription";
             "planID" := strconv.Itoa planID; "userID" := userIDStr ]} ;;
        ret ("", pb.Status_STATUS_INVALID_PAYMENT_METHOD)
      else
        PrintInfoWithContext p ctx "Starting subscription creation process"
          {[ "operation" := "CreateSubscription";
             "planID" := strconv.Itoa planID; "userID" := userIDStr;
             "paymentMethod" := paymentMethodID ]} ;;
        r <- getOrCreateCustomer p ctx userIDStr ;;
        match r with
        | Err err =>
            PrintErrorWithContext p ctx err
              {[ "operation" := "CreateSubscription";
                 "planID" := strconv.Itoa planID; "userID" := userIDStr;
                 "paymentMethod" := paymentMethodID;
                 "error" := "Failed to get or create customer: " +:+ Error err ]} ;;
            ret ("", pb.Status_STATUS_INTERNAL_ERROR)
        | Ok customerID =>
            e <- attachPaymentMethod p ctx customerID paymentMethodID ;;
            match e with
            | Some err =>
                PrintErrorWithContext p ctx err
                  {[ "operation" := "CreateSubscription";
                     "planID" := strconv.Itoa planID; "userID" := userIDStr;
                     "customerID" := customerID;
                     "paymentMethod" := paymentMethodID;
                     "error" := "Failed to attach payment method: " +:+ Error err ]} ;;
                ret ("", pb.Status_STATUS_INVALID_PAYMENT_METHOD)
            | None =>
                e <- setDefaultPaymentMethod p ctx customerID paymentMethodID ;;
                match e with
                | Some err =>
                    PrintErrorWithContext p ctx err
                      {[ "operation" := "CreateSubscription";
                         "planID" := strconv.Itoa planID; "userID" := userIDStr;
                         "customerID" := customerID;
                         "paymentMethod" := paymentMethodID;
                         "error" := "Failed to set default payment method: "
                                    +:+ Error err ]}
                    (* continue anyway, as this is not critical *)
                | None => ret tt
                end ;;
                let params := subscriptionParams customerID stripePrice in
                r <- call (stripe.Req_subscription_New params)
                          (subscription_New params) ;;
                match r with
                | Err err =>
                    PrintErrorWithContext p ctx err
                      {[ "operation" := "CreateSubscription";
                         "planID" := strconv.Itoa planID; "userID" := userIDStr;
                         "customerID" := customerID;
                         "paymentMethod" := paymentMethodID;
                         "stripeError" := Error err ]} ;;
                    ret ("", pb.Status_STATUS_INTERNAL_ERROR)
                | Ok subscription =>
                    PrintInfoWithContext p ctx "Subscription created successfully"
                      {[ "operation" := "CreateSubscription";
                         "planID" := strconv.Itoa planID; "userID" := userIDStr;
                         "customerID" := customerID;
                         "subscriptionID" := stripe.Sub_ID subscription;
                         "subscriptionStatus" := stripe.Sub_Status subscription ]} ;;
                    ret (stripe.Sub_ID subscription, pb.Status_STATUS_OK)
                end
            end
        end
  end.

(** [CancelSubscription]: fetch, stop if already canceled, else cancel
    and check the status that comes back. *)
Definition CancelSubscription (p : Payment) (ctx : Context)
    (stripeSubID : string) : M W pb.Status :=
  if decide (stripeSubID = "") then
    let err := fmt_Errorf "subscription ID is required" in
    PrintErrorWithContext p ctx err {[ "operation" := "CancelSubscription" ]} ;;
    ret pb.Status_STATUS_INTERNAL_ERROR
  else
    PrintInfoWithContext p ctx "Starting subscription cancellation process"
      {[ "operation" := "CancelSubscription"; "subscriptionID" := stripeSubID ]} ;;
    let subParams := stripe.SubscriptionParams_zero in
    r <- call (stripe.Req_subscription_Get stripeSubID (Some subParams))
              (subscription_Get stripeSubID (Some subParams)) ;;
    match r with
    | Err err =>
        PrintErrorWithContext p ctx err
          {[ "operation" := "CancelSubscription";
             "subscriptionID" := stripeSubID;
             "error" := "Failed to retrieve subscription: " +:+ Error err ]} ;;
        ret pb.Status_STATUS_INTERNAL_ERROR
    | Ok existingSub =>
        if decide (stripe.Sub_Status existingSub = stripe.SubscriptionStatusCanceled)
        then
          PrintInfoWithContext p ctx "Subscription is already cancelled"
            {[ "operation" := "CancelSubscription";
               "subscriptionID" := stripeSubID;
               "status" := stripe.Sub_Status existingSub ]} ;;
          ret pb.Status_STATUS_OK
        else
          let cancelParams := stripe.Build_SubscriptionCancelParams in
          r <- call (stripe.Req_subscription_Cancel stripeSubID cancelParams)
                    (subscription_Cancel stripeSubID cancelParams) ;;
          match r with
          | Err err =>
              PrintErrorWithContext p ctx err
                {[ "operation" := "CancelSubscription";
                   "subscriptionID" := stripeSubID;
                   "error" := "Failed to cancel subscription: " +:+ Error err ]} ;;
              ret pb.Status_STATUS_INTERNAL_ERROR
          | Ok subscription =>
              if decide (stripe.Sub_Status subscription
                         = stripe.SubscriptionStatusCanceled)
              then
                PrintInfoWithContext p ctx "Subscription cancelled successfully"
                  {[ "operation" := "CancelSubscription";
                     "subscriptionID" := stripeSubID;
                     "status" := stripe.Sub_Status subscription;
                     "canceledAt" :=
                       Format_RFC3339 (stripe.Sub_CanceledAt subscription) ]} ;;
                ret pb.Status_STATUS_OK
              else
                let err :=
                  fmt_Errorf ("subscription not cancelled, current status: "
                              +:+ stripe.Sub_Status subscription) in
                PrintErrorWithContext p ctx err
                  {[ "operation" := "CancelSubscription";
                     "subscriptionID" := stripeSubID;
                     "status" := stripe.Sub_Status subscription ]} ;;
                ret pb.Status_STATUS_INTERNAL_ERROR
          end
    end.

(** [GetSubscription]: fetch and reshape; the zero record stands for
    every failure. *)
Definition GetSubscription (p : Payment) (ctx : Context)
    (stripeSubID : string) : M W data.Subscription :=
  if decide (stripeSubID = "") then
    let err := fmt_Errorf "subscription ID is required" in
    PrintErrorWithContext p ctx err {[ "operation" := "GetSubscription" ]} ;;
    ret data.Subscription_zero
  else
    PrintInfoWithContext p ctx "Retrieving subscription details"
      {[ "operation" := "GetSubscription"; "subscriptionID" := stripeSubID ]} ;;
    r <- call (stripe.Req_subscription_Get stripeSubID None)
              (subscription_Get stripeSubID None) ;;
    match r with
    | Err err =>
        PrintErrorWithContext p ctx err
          {[ "operation" := "GetSubscription";
             "subscriptionID" := stripeSubID;
             "error" := "Failed to retrieve subscription: " +:+ Error err ]} ;;
        ret data.Subscription_zero
    | Ok subscription =>
        match stripe.Items_Data subscription with
        | [] =>
            let err := fmt_Errorf "subscription has no items" in
            PrintErrorWithContext p ctx err
              {[ "operation" := "GetSubscription";
                 "subscriptionID" := stripeSubID ]} ;;
            ret data.Subscription_zero
        | item0 :: _ =>
            let priceID := stripe.Price_ID (stripe.Item_Price item0) in
            now <- Now ;;
            let endDate := AddDate_0_1_0 now in
            let result :=
              {| data.ID := stripe.Sub_ID subscription;
                 data.PlanID := priceID;
                 data.StripeSubID := stripeSubID;
                 data.Status :=
                   getPaymentStatusFromStripe (stripe.Sub_Status subscription);
                 data.CurrentPeriodEnd := endDate |} in
            PrintInfoWithContext p ctx "Subscription details retrieved successfully"
              {[ "operation" := "GetSubscription";
                 "subscriptionID" := stripeSubID;
                 "status" := stripe.Sub_Status subscription;
                 "planID" := priceID;
                 "periodEnd" := Format_RFC3339 endDate ]} ;;
            ret result
        end
    end.

End Orchestrator.
End services.

(* ===================================================================== *)
(** ** [internal/grpc/payment]: the transport adapter *)
(* ===================================================================== *)

Module grpc.

(** The [Payment] interface the server is registered with.  [S] is the
    state its implementation runs in. *)
Class Payment (S : Type) := {
  pay_CreateSubscription : Context → Z → string → S → (string * pb.Status) * S;
  pay_CancelSubscription : Context → string → S → pb.Status * S;
  pay_GetSubscription : Context → string → S → data.Subscription * S }.

Definition mapStatusToError (opstatus : pb.Status) : error :=
  match opstatus with
  | pb.Status_STATUS_INVALID_USER => status_Error InvalidArgument "Invalid user"
  | pb.Status_STATUS_INVALID_PLAN => status_Error InvalidArgument "invalid plan"
  | pb.Status_STATUS_INVALID_PAYMENT_METHOD =>
      status_Error InvalidArgument "invalid paying method"
  | _ => status_Error Internal "internal error!"
  end.

Section Server.
Context {S : Type} `{Payment S}.

(** A handler answers a response or nil, and an error or nil. *)
Definition CreateSubscription (ctx : Context) (r : pb.CreateSubscriptionRequest)
  : S → (option pb.CreateSubscriptionResponse * option error) * S :=
  fun st =>
    let planID := pb.CreateReq_PlanId r in
    let paymentMethod := pb.CreateReq_PaymentMethodId r in
    let '((stripeSubId, opStatus), st) :=
      pay_CreateSubscription ctx planID paymentMethod st in
    if decide (opStatus ≠ pb.Status_STATUS_OK) then
      ((None, Some (mapStatusToError opStatus)), st)
    else
      ((Some {| pb.CreateResp_SubStripeId := stripeSubId;
                pb.CreateResp_Status := opStatus |}, None), st).

Definition CancelSubscription (ctx : Context) (r : pb.CancelSubscriptionRequest)
  : S → (option pb.CancelSubscriptionResponse * option error) * S :=
  fun st =>
    let stripeSubID := pb.CancelReq_SubStripeId r in
    let '(opStatus, st) := pay_CancelSubscription ctx stripeSubID st in
    if decide (opStatus ≠ pb.Status_STATUS_OK) then
      ((None, Some (mapStatusToError opStatus)), st)
    else
      ((Some {| pb.CancelResp_Status := opStatus |}, None), st).

Definition GetSubscription (ctx : Context) (r : pb.GetSubscriptionRequest)
  : S → (option pb.GetSubscriptionResponse * option error) * S :=
  fun st =>
    let stripeSubID := pb.GetReq_SubStripeId r in
    let '(subscription, st) := pay_GetSubscription ctx stripeSubID st in
    let '(subId, err) := ParseInt (data.ID subscription) 10 64 in
    match err with
    | Some err => ((None, Some err), st)
    | None =>
        let '(planID, err) := ParseInt (data.PlanID subscription) 10 32 in
        ((Some {| pb.GetResp_Subscription :=
                    {| pb.Id := subId;
                       pb.PlanId := int32 planID;
                       pb.StripeSubscriptionId := stripeSubID;
                       pb.Status_ := data.Status subscription;
                       pb.CurrentPeriodEnd := data.CurrentPeriodEnd subscription |} |},
          None), st)
    end.

End Server.

(** The orchestrator as an implementation of [Payment]: the one the
    server is given at start-up. *)
Definition orchestrator {W} `{Env W} (p : services.Payment)
  : Payment (State W) := {|
  pay_CreateSubscription := services.CreateSubscription p;
  pay_CancelSubscription := services.CancelSubscription p;
  pay_GetSubscription := services.GetSubscription p |}.

End grpc.

(* ===================================================================== *)
(** ** The rest of [internal/services/payment]: the webhook entry point
       and the payment-intent helper *)
(* ===================================================================== *)

(** Run a function of the world that is no request to the processor:
    nothing is recorded. *)
Definition local {W A} (f : W → A * W) : M W A :=
  fun st =>
    let '(a, w) := f (world st) in
    (a, mkState w (requests st) (entries st)).

Module webhook.

(** The fields of [stripe.Event] the dispatcher reads. *)
Record Event := {
  Event_ID : string;
  Event_Type : string }.

(** [stripe.ConstructEvent(payload, signature, secret)]: the check of the
    signature and the decoding of the payload.  It reads the clock (the
    signature carries a time stamp), hence the world. *)
Class Verifier (W : Type) := {
  ConstructEvent : string → string → string → W → result Event * W }.

End webhook.

Module intents.

(** [type PaymentIntentStatus string], with the one constant the helper
    compares against. *)
Definition PaymentIntentStatus := string.
Definition PaymentIntentStatusRequiresConfirmation : PaymentIntentStatus :=
  "requires_confirmation".

Record PaymentIntent := {
  PI_ID : string;
  PI_Status : PaymentIntentStatus }.

(** [paymentintent.Get(id, nil)] and [paymentintent.Confirm(id, nil)]. *)
Class Gateway (W : Type) := {
  paymentintent_Get : string → W → result PaymentIntent * W;
  paymentintent_Confirm : string → W → result PaymentIntent * W }.

(** A request about a payment intent, as the helper issues it. *)
Inductive Request :=
| Req_paymentintent_Get (id : string)
| Req_paymentintent_Confirm (id : string).

(** The state the helper runs in: the orchestrator's, and the requests
    about payment intents sent so far (oldest first). *)
Record IntentState (W : Type) := mkIntentState {
  orch : State W;
  intent_requests : list Request }.
Arguments mkIntentState {W} _ _.
Arguments orch {W} _.
Arguments intent_requests {W} _.

End intents.

Module services_rest.
Section Rest.
Context {W : Type} `{Env W} `{webhook.Verifier W} `{intents.Gateway W}.
Local Open Scope orch_scope.

Definition PrintWarnWithContext (p : services.Payment) (ctx : Context)
    (message : string) (properties : gmap string string) : M W unit :=
  fun st =>
    (tt, mkState (world st) (requests st)
           (jsonlog.printWithContext (services.log p) ctx jsonlog.LevelWarn
              message properties (entries st))).

(** [HandleStripeWebhook]: check the signature, then log the event by its
    type.  [None] is a nil error. *)
Definition HandleStripeWebhook (p : services.Payment) (ctx : Context)
    (payload signature webhookSecret : string) : M W (option error) :=
  services.PrintInfoWithContext p ctx "Processing Stripe webhook event"
    {[ "operation" := "HandleStripeWebhook" ]} ;;
  r <- local (webhook.ConstructEvent payload signature webhookSecret) ;;
  match r with
  | Err err =>
      services.PrintErrorWithContext p ctx err
        {[ "operation" := "HandleStripeWebhook";
           "error" := "Failed to verify webhook signature: " +:+ Error err ]} ;;
      ret (Some err)
  | Ok event =>
      let eventType := webhook.Event_Type event in
      (if decide (eventType = "payment_intent.succeeded") then
         services.PrintInfoWithContext p ctx "Payment succeeded"
           {[ "operation" := "HandleStripeWebhook"; "eventType" := eventType;
              "eventID" := webhook.Event_ID event ]}
       else if decide (eventType = "payment_intent.payment_failed") then
         PrintWarnWithContext p ctx "Payment failed"
           {[ "operation" := "HandleStripeWebhook"; "eventType" := eventType;
              "eventID" := webhook.Event_ID event ]}
       else if decide (eventType = "customer.subscription.created") then
         services.PrintInfoWithContext p ctx "Subscription created"
           {[ "operation" := "HandleStripeWebhook"; "eventType" := eventType;
              "eventID" := webhook.Event_ID event ]}
       else if decide (eventType = "customer.subscription.updated") then
         services.PrintInfoWithContext p ctx "Subscription updated"
           {[ "operation" := "HandleStripeWebhook"; "eventType" := eventType;
              "eventID" := webhook.Event_ID event ]}
       else if decide (eventType = "customer.subscription.deleted") then
         services.PrintInfoWithContext p ctx "Subscription deleted"
           {[ "operation" := "HandleStripeWebhook"; "eventType" := eventType;
              "eventID" := webhook.Event_ID event ]}
       else
         services.PrintInfoWithContext p ctx "Received unhandled Stripe event"
           {[ "operation" := "HandleStripeWebhook"; "eventType" := eventType;
              "eventID" := webhook.Event_ID event ]}) ;;
      ret None
  end.

(** A log call of the helper, made on the orchestrator's part of the
    state. *)
Definition logging (m : M W unit) (st : intents.IntentState W) : intents.IntentState W :=
  intents.mkIntentState (snd (m (intents.orch st))) (intents.intent_requests st).

(** Send a request about a payment intent through [f] and record it. *)
Definition intent_call (rq : intents.Request)
    (f : W → result intents.PaymentIntent * W) (st : intents.IntentState W)
  : result intents.PaymentIntent * intents.IntentState W :=
  let o := intents.orch st in
  let '(r, w) := f (world o) in
  (r, intents.mkIntentState (mkState w (requests o) (entries o))
        (intents.intent_requests st ++ [rq])).

(** [handlePaymentIntent]: fetch the payment intent and confirm it when
    its status asks for confirmation.  [None] is a nil error. *)
Definition handlePaymentIntent (p : services.Payment) (ctx : Context)
    (paymentIntentID : string) (st : intents.IntentState W)
  : option error * intents.IntentState W :=
  let st :=
    logging (services.PrintInfoWithContext p ctx "Processing payment intent"
               {[ "operation" := "handlePaymentIntent";
                  "paymentIntentID" := paymentIntentID ]}) st in
  let '(r, st) :=
    intent_call (intents.Req_paymentintent_Get paymentIntentID)
      (intents.paymentintent_Get paymentIntentID) st in
  match r with
  | Err err =>
      let st :=
        logging (services.PrintErrorWithContext p ctx err
                   {[ "operation" := "handlePaymentIntent";
                      "paymentIntentID" := paymentIntentID;
                      "error" := "Failed to retrieve payment intent: "
                                 +:+ Error err ]}) st in
      (Some err, st)
  | Ok pi =>
      let st :=
        logging (services.PrintInfoWithContext p ctx "Payment intent status"
                   {[ "operation" := "handlePaymentIntent";
                      "paymentIntentID" := paymentIntentID;
                      "status" := intents.PI_Status pi ]}) st in
      if decide (intents.PI_Status pi
                 = intents.PaymentIntentStatusRequiresConfirmation) then
        let st :=
          logging (services.PrintInfoWithContext p ctx "Confirming payment intent"
                     {[ "operation" := "handlePaymentIntent";
                        "paymentIntentID" := paymentIntentID ]}) st in
        let '(r, st) :=
          intent_call (intents.Req_paymentintent_Confirm paymentIntentID)
            (intents.paymentintent_Confirm paymentIntentID) st in
        match r with
        | Err err =>
            let st :=
              logging (services.PrintErrorWithContext p ctx err
                         {[ "operation" := "handlePaymentIntent";
                            "paymentIntentID" := paymentIntentID;
                            "error" := "Failed to confirm payment intent: "
                                       +:+ Error err ]}) st in
            (Some err, st)
        | Ok _ => (None, st)
        end
      else (None, st)
  end.

End Rest.
End services_rest.

(* ===================================================================== *)
(** ** The rest of [internal/jsonlog]: writing, rotation and clean-up *)
(* ===================================================================== *)

(** A 64-bit signed integer operation wraps around. *)
Definition wrap64 (z : Z) : Z := (z + 2 ^ 63) mod 2 ^ 64 - 2 ^ 63.

Module logfiles.

(** [func (l Level) String() string]. *)
Definition Level_String (l : jsonlog.Level) : string :=
  if decide (l = jsonlog.LevelDebug) then "DEBUG"
  else if decide (l = jsonlog.LevelInfo) then "INFO"
  else if decide (l = jsonlog.LevelWarn) then "WARN"
  else if decide (l = jsonlog.LevelError) then "ERROR"
  else if decide (l = jsonlog.LevelFatal) then "FATAL"
  else "".

Record LogConfig := {
  LogPath : string;
  MaxSize : Z;
  MaxBackups : Z;
  MaxAge : Z;
  Compress : bool }.

(** An open [*os.File], and an [io.Writer]: a file or something else
    (standard output, say). *)
Inductive File := Handle (fd : Z).
Inductive Writer :=
| Writer_file (f : File)
| Writer_other (name : string).

#[global] Instance File_eq_dec : EqDecision File.
Proof. solve_decision. Defined.
#[global] Instance Writer_eq_dec : EqDecision Writer.
Proof. solve_decision. Defined.

(** The fields of [Logger] but the mutex.  A nil [config] or
    [currentFile] is [None]. *)
Record Logger := {
  out : Writer;
  minLevel : jsonlog.Level;
  config : option LogConfig;
  currentFile : option File;
  fileSize : Z }.

(** The anonymous struct [print] marshals. *)
Record aux := {
  aux_Level : string;
  aux_Time : string;
  aux_Message : string;
  aux_Properties : gmap string string;
  aux_Trace : string }.

(** [fileInfo] of [cleanupOldLogFiles]; a time is a count of nanoseconds. *)
Record fileInfo := {
  path : string;
  modTime : Z }.

(** The operating system and the libraries the logger calls, over a
    world [F].  [time_Format utc layout t] is [t.Format(layout)], after
    [t.UTC()] when [utc] is set. *)
Class OS (F : Type) := {
  os_MkdirAll : string → F → option error * F;
  os_OpenFile : string → F → result File * F;
  File_Stat_Size : File → F → result Z * F;
  File_Close : File → F → option error * F;
  Writer_Write : Writer → string → F → (Z * option error) * F;
  stderr_Fprintf : string → F → F;
  filepath_Glob : string → F → result (list string) * F;
  os_Stat_ModTime : string → F → result Z * F;
  os_Remove : string → F → option error * F;
  time_Now : F → Z * F;
  debug_Stack : F → string * F;
  time_Format : bool → string → Z → string;
  filepath_Join : string → string → string;
  json_Marshal : aux → result string }.

Definition time_Hour : Z := 3600000000000.

Definition newline : string := String (ascii_of_nat 10) "".

Section Files.
Context {F : Type} `{OS F}.

(** [New(out, minLevel)]. *)
Definition New (out : Writer) (minLevel : jsonlog.Level) : Logger :=
  {| out := out; minLevel := minLevel; config := None;
     currentFile := None; fileSize := 0 |}.

(** [NewFileLogger(config, minLevel)]. *)
Definition NewFileLogger (config : LogConfig) (minLevel : jsonlog.Level) (fs : F)
  : result Logger * F :=
  let '(e, fs) := os_MkdirAll (LogPath config) fs in
  match e with
  | Some err =>
      (Err (fmt_Errorf ("failed to create log directory: " +:+ Error err)), fs)
  | None =>
      let '(now, fs) := time_Now fs in
      let logFilePath :=
        filepath_Join (LogPath config)
          ("app-" +:+ time_Format false "2006-01-02" now +:+ ".log") in
      let '(r, fs) := os_OpenFile logFilePath fs in
      match r with
      | Err err => (Err (fmt_Errorf ("failed to open log file: " +:+ Error err)), fs)
      | Ok file =>
          let '(r, fs) := File_Stat_Size file fs in
          match r with
          | Err err =>
              let '(_, fs) := File_Close file fs in
              (Err (fmt_Errorf ("failed to get file info: " +:+ Error err)), fs)
          | Ok size =>
              (Ok {| out := Writer_file file; minLevel := minLevel;
                     config := Some config; currentFile := Some file;
                     fileSize := size |}, fs)
          end
      end
  end.

(** [rotateLogFileIfNeeded(bytesWritten)]: the error, the logger after
    the call, and whether the clean-up was started ([go
    l.cleanupOldLogFiles()]). *)
Definition rotateLogFileIfNeeded (l : Logger) (bytesWritten : Z) (fs : F)
  : (option error * Logger * bool) * F :=
  match config l, currentFile l with
  | Some cfg, Some current =>
      let l := {| out := out l; minLevel := minLevel l; config := config l;
                  currentFile := currentFile l;
                  fileSize := wrap64 (fileSize l + bytesWritten) |} in
      if wrap64 (wrap64 (MaxSize cfg * 1024) * 1024) <? fileSize l then
        let '(e, fs) := File_Close current fs in
        match e with
        | Some err =>
            ((Some (fmt_Errorf ("failed to close log file: " +:+ Error err)),
              l, false), fs)
        | None =>
            let '(now, fs) := time_Now fs in
            let logFilePath :=
              filepath_Join (LogPath cfg)
                ("app-" +:+ time_Format false "2006-01-02-15-04-05" now +:+ ".log") in
            let '(r, fs) := os_OpenFile logFilePath fs in
            match r with
            | Err err =>
                ((Some (fmt_Errorf ("failed to open new log file: " +:+ Error err)),
                  l, false), fs)
            | Ok file =>
                let l := {| out := Writer_file file; minLevel := minLevel l;
                            config := config l; currentFile := Some file;
                            fileSize := 0 |} in
                ((None, l, (0 <? MaxBackups cfg) || (0 <? MaxAge cfg)), fs)
            end
        end
      else ((None, l, false), fs)
  | _, _ => ((None, l, false), fs)
  end.

(** [print(level, message, properties)]: what it returns, the logger
    after the call, and whether a clean-up was started. *)
Definition print (l : Logger) (level : jsonlog.Level) (message : string)
    (properties : gmap string string) (fs : F)
  : ((Z * option error) * Logger * bool) * F :=
  if level <? minLevel l then (((0, None), l, false), fs)
  else
    let '(now, fs) := time_Now fs in
    let '(trace, fs) :=
      if jsonlog.LevelError <=? level then debug_Stack fs else ("", fs) in
    let a := {| aux_Level := Level_String level;
                aux_Time := time_Format true "2006-01-02T15:04:05Z07:00" now;
                aux_Message := message;
                aux_Properties := properties;
                aux_Trace := trace |} in
    let line :=
      match json_Marshal a with
      | Ok line => line
      | Err err =>
          Level_String jsonlog.LevelError
          +:+ ": unable to marshal log message: " +:+ Error err
      end in
    let '((n, err), fs) := Writer_Write (out l) (line +:+ newline) fs in
    match err with
    | None =>
        if 0 <? n then
          let '((rotateErr, l, started), fs) := rotateLogFileIfNeeded l n fs in
          match rotateErr with
          | Some rotateErr =>
              (((n, err), l, started),
               stderr_Fprintf ("Log rotation error: " +:+ Error rotateErr +:+ newline) fs)
          | None => (((n, err), l, started), fs)
          end
        else (((n, err), l, false), fs)
    | Some _ => (((n, err), l, false), fs)
    end.

(** [printWithContext(ctx, level, message, properties)]. *)
Definition printWithContext (l : Logger) (ctx : Context) (level : jsonlog.Level)
    (message : string) (properties : gmap string string) (fs : F)
  : ((Z * option error) * Logger * bool) * F :=
  if level <? minLevel l then (((0, None), l, false), fs)
  else
    let properties :=
      match Value_RequestIDKey ctx with
      | any_string requestID => <["request_id" := requestID]> properties
      | _ => properties
      end in
    print l level message properties fs.

(** [Write(message)]: the logger as an [io.Writer]. *)
Definition Write (l : Logger) (message : string) (fs : F)
  : ((Z * option error) * Logger * bool) * F :=
  print l jsonlog.LevelError message ∅ fs.

(** The loop over [matches]: the files that can be statted, in order. *)
Fixpoint stat_files (matches : list string) (fs : F) : list fileInfo * F :=
  match matches with
  | [] => ([], fs)
  | m :: rest =>
      let '(r, fs) := os_Stat_ModTime m fs in
      let '(files, fs) := stat_files rest fs in
      (match r with
       | Ok t => {| path := m; modTime := t |} :: files
       | Err _ => files
       end, fs)
  end.

(** [os.Remove] on each path in turn; the errors are dropped. *)
Fixpoint remove_files (paths : list string) (fs : F) : F :=
  match paths with
  | [] => fs
  | p :: rest => remove_files rest (snd (os_Remove p fs))
  end.

(** The paths the first loop removes: the files in excess of
    [MaxBackups], from the front of the sorted list. *)
Definition excess_files (cfg : LogConfig) (files : list fileInfo) : list string :=
  if (0 <? MaxBackups cfg) && (MaxBackups cfg <? Z.of_nat (length files)) then
    path <$> take (Z.to_nat (Z.of_nat (length files) - MaxBackups cfg)) files
  else [].

(** [time.Now().Add(-time.Duration(MaxAge) * 24 * time.Hour)]. *)
Definition age_cutoff (cfg : LogConfig) (now : Z) : Z :=
  now + wrap64 (wrap64 (wrap64 (- MaxAge cfg) * 24) * time_Hour).

(** The paths the second loop removes: every file of the list older than
    the cutoff. *)
Definition aged_files (cfg : LogConfig) (now : Z) (files : list fileInfo)
  : list string :=
  path <$> filter (λ f, modTime f < age_cutoff cfg now) files.

(** [cleanupOldLogFiles()]: the paths handed to [os.Remove], in order.
    [sort_Slice] is [sort.Slice] with the comparison by modification
    time. *)
Definition cleanupOldLogFiles (sort_Slice : list fileInfo → list fileInfo)
    (l : Logger) (fs : F) : list string * F :=
  match config l with
  | None => ([], fs)
  | Some cfg =>
      let pattern := filepath_Join (LogPath cfg) "app-*.log" in
      let '(r, fs) := filepath_Glob pattern fs in
      match r with
      | Err _ => ([], fs)
      | Ok matches =>
          let '(files, fs) := stat_files matches fs in
          let files := sort_Slice files in
          let excess := excess_files cfg files in
          let fs := remove_files excess fs in
          if 0 <? MaxAge cfg then
            let '(now, fs) := time_Now fs in
            let aged := aged_files cfg now files in
            (excess ++ aged, remove_files aged fs)
          else (excess, fs)
      end
  end.

End Files.
End logfiles.

(* ===================================================================== *)
(** ** Vocabulary of the properties *)
(* ===================================================================== *)

(** The fetch that opens [CancelSubscription]. *)
Definition fetch_request (stripeSubID : string) : stripe.Request :=
  stripe.Req_subscription_Get stripeSubID (Some stripe.SubscriptionParams_zero).

(** Once the processor has answered CANCELED for a subscription, to a
    fetch or to a cancel request, the next fetch of it answers CANCELED
    too. *)
Definition cancel_is_final {W} `{Env W} (stripeSubID : string) : Prop :=
  ∀ (w : W) sub w',
    (subscription_Get stripeSubID (Some stripe.SubscriptionParams_zero) w = (Ok sub, w')
     ∨ subscription_Cancel stripeSubID stripe.Build_SubscriptionCancelParams w
       = (Ok sub, w')) →
    stripe.Sub_Status sub = stripe.SubscriptionStatusCanceled →
    ∃ sub' w'',
      subscription_Get stripeSubID (Some stripe.SubscriptionParams_zero) w'
        = (Ok sub', w'')
      ∧ stripe.Sub_Status sub' = stripe.SubscriptionStatusCanceled.

(** A decimal digit, ['0'] to ['9']. *)
Definition is_digit (c : ascii) : bool :=
  (48 <=? strconv.byte c) && (strconv.byte c <=? 57).

Definition is_sign (c : ascii) : bool :=
  bool_decide (c = "+"%char) || bool_decide (c = "-"%char).

Fixpoint all_digits (s : string) : bool :=
  match s with
  | EmptyString => true
  | String c rest => is_digit c && all_digits rest
  end.

(** A decimal-numeric string: one or more decimal digits, with or without
    a sign in front. *)
Definition decimal_numeric (s : string) : bool :=
  match s with
  | EmptyString => false
  | String c rest =>
      if is_sign c then negb (bool_decide (rest = "")) && all_digits rest
      else all_digits s
  end.

(** A string whose first byte is neither a sign nor a digit. *)
Definition starts_with_other (s : string) : bool :=
  match s with
  | EmptyString => false
  | String c _ => negb (is_sign c) && negb (is_digit c)
  end.

(** The requests an operation sends when started in world [w]. *)
Definition sent {W A} (m : M W A) (w : W) : list stripe.Request :=
  requests (snd (m (start w))).

(** An operation is framed when its answer, the world it leaves and the
    requests it sends are read off the world alone: what was sent or
    logged before is left as it was, the new requests come after. *)
Definition framed {W A} (m : M W A) : Prop :=
  ∀ st : State W,
    fst (m st) = fst (outcome m (world st))
    ∧ world (snd (m st)) = snd (outcome m (world st))
    ∧ requests (snd (m st)) = requests st ++ sent m (world st).

(** The gRPC code of an error made by [status.Error]. *)
Definition status_Code (e : error) : option Code :=
  match e with
  | status_Error c _ => Some c
  | _ => None
  end.

(** An entry as the orchestrator's operations write them under logger [l]
    and context [ctx]: at level INFO or ERROR and not below the logger's
    minimum, naming its operation, and carrying the request identifier of
    the context when there is one. *)
Definition well_logged (l : jsonlog.Logger) (ctx : Context) (e : jsonlog.Entry) : Prop :=
  jsonlog.minLevel l ≤ jsonlog.Entry_Level e
  ∧ (jsonlog.Entry_Level e = jsonlog.LevelInfo
     ∨ jsonlog.Entry_Level e = jsonlog.LevelError)
  ∧ is_Some (jsonlog.Entry_Properties e !! "operation")
  ∧ ∀ requestID, Value_RequestIDKey ctx = any_string requestID →
                 jsonlog.Entry_Properties e !! "request_id" = Some requestID.

(** The log [new] is the log [old] with well-logged entries added at its
    end. *)
Definition log_extends (l : jsonlog.Logger) (ctx : Context)
    (old new : list jsonlog.Entry) : Prop :=
  ∃ ext, new = old ++ ext ∧ Forall (well_logged l ctx) ext.

(** An operation that only adds well-logged entries to the log. *)
Definition logs_well {W A} (l : jsonlog.Logger) (ctx : Context) (m : M W A) : Prop :=
  ∀ st, log_extends l ctx (entries st) (entries (snd (m st))).

(** A file logger: the writer is the current file and there is a
    configuration. *)
Definition file_logger (l : logfiles.Logger) : Prop :=
  ∃ f cfg, logfiles.out l = logfiles.Writer_file f
           ∧ logfiles.currentFile l = Some f
           ∧ logfiles.config l = Some cfg.

(** The files of a list are in the order of their modification times,
    oldest first. *)
Definition oldest_first (files : list logfiles.fileInfo) : Prop :=
  StronglySorted (λ a b, logfiles.modTime a ≤ logfiles.modTime b) files.

(* ===================================================================== *)
(** ** Two processors to run the code against *)
(* ===================================================================== *)

(** A processor that answers from a script: each call takes the next
    answer, whatever the request.  An answer of the wrong kind, or no
    answer left, is an error. *)
Module Scripted.

Inductive Answer :=
| A_customer (r : result stripe.Customer)
| A_method (r : result stripe.PaymentMethod)
| A_subscription (r : result stripe.Subscription).

Definition World := list Answer.

Definition off_script {A} : result A := Err (stripe_Error "off script").

Definition next_customer (w : World) : result stripe.Customer * World :=
  match w with
  | A_customer r :: w' => (r, w')
  | _ :: w' => (off_script, w')
  | [] => (off_script, [])
  end.

Definition next_method (w : World) : result stripe.PaymentMethod * World :=
  match w with
  | A_method r :: w' => (r, w')
  | _ :: w' => (off_script, w')
  | [] => (off_script, [])
  end.

Definition next_subscription (w : World) : result stripe.Subscription * World :=
  match w with
  | A_subscription r :: w' => (r, w')
  | _ :: w' => (off_script, w')
  | [] => (off_script, [])
  end.

#[global] Instance env : Env World := {|
  customer_Get _ _ := next_customer;
  customer_New _ := next_customer;
  customer_Update _ _ := next_customer;
  paymentmethod_Attach _ _ := next_method;
  subscription_New _ := next_subscription;
  subscription_Get _ _ := next_subscription;
  subscription_Cancel _ _ := next_subscription;
  time_Now w := (1700000000, w);
  AddDate_0_1_0 t := t + 2592000;
  Format_RFC3339 t := pretty t |}.

End Scripted.

(** An in-memory processor.  Like the real one it files every object it
    creates under an identifier of its own making ([cus_1], [sub_2], ...):
    the parameters of [customer.New] and [subscription.New] carry none. *)
Module Ledger.

Record World := {
  customers : gmap string stripe.Customer;
  subscriptions : gmap string stripe.Subscription;
  serial : Z;
  clock : Z }.

Definition no_such (kind id : string) : error :=
  stripe_Error ("No such " +:+ kind +:+ ": " +:+ id).

Definition get_customer (id : string) (w : World) : result stripe.Customer * World :=
  match customers w !! id with
  | Some c => (Ok c, w)
  | None => (Err (no_such "customer" id), w)
  end.

Definition new_customer (params : stripe.CustomerParams) (w : World)
  : result stripe.Customer * World :=
  let id := "cus_" +:+ pretty (serial w + 1) in
  let c := {| stripe.Customer_ID := id;
              stripe.Customer_Description := default "" (stripe.Description params);
              stripe.Customer_Metadata := stripe.Metadata params |} in
  (Ok c, {| customers := <[id := c]> (customers w);
            subscriptions := subscriptions w;
            serial := serial w + 1; clock := clock w |}).

Definition new_subscription (params : stripe.SubscriptionParams) (w : World)
  : result stripe.Subscription * World :=
  let id := "sub_" +:+ pretty (serial w + 1) in
  let item (i : stripe.SubscriptionItemsParams) :=
    {| stripe.Item_Price :=
         {| stripe.Price_ID := default "" (stripe.Item_Price_param i) |} |} in
  let sub := {| stripe.Sub_ID := id;
                stripe.Sub_Status := stripe.SubscriptionStatusIncomplete;
                stripe.Sub_CanceledAt := 0;
                stripe.Items_Data := item <$> stripe.Items params |} in
  (Ok sub, {| customers := customers w;
              subscriptions := <[id := sub]> (subscriptions w);
              serial := serial w + 1; clock := clock w |}).

Definition get_subscription (id : string) (w : World)
  : result stripe.Subscription * World :=
  match subscriptions w !! id with
  | Some sub => (Ok sub, w)
  | None => (Err (no_such "subscription" id), w)
  end.

Definition cancel_subscription (id : string) (w : World)
  : result stripe.Subscription * World :=
  match subscriptions w !! id with
  | Some sub =>
      let sub' := {| stripe.Sub_ID := stripe.Sub_ID sub;
                     stripe.Sub_Status := stripe.SubscriptionStatusCanceled;
                     stripe.Sub_CanceledAt := clock w;
                     stripe.Items_Data := stripe.Items_Data sub |} in
      (Ok sub', {| customers := customers w;
                   subscriptions := <[id := sub']> (subscriptions w);
                   serial := serial w; clock := clock w |})
  | None => (Err (no_such "subscription" id), w)
  end.

#[global] Instance env : Env World := {|
  customer_Get id _ := get_customer id;
  customer_New := new_customer;
  customer_Update id _ := get_customer id;
  paymentmethod_Attach id _ w := (Ok {| stripe.PaymentMethod_ID := id |}, w);
  subscription_New := new_subscription;
  subscription_Get id _ := get_subscription id;
  subscription_Cancel id _ := cancel_subscription id;
  time_Now w := (clock w, w);
  AddDate_0_1_0 t := t + 2592000;
  Format_RFC3339 t := pretty t |}.

(** A processor with no customer and no subscription yet. *)
Definition empty : World :=
  {| customers := ∅; subscriptions := ∅; serial := 0; clock := 1700000000 |}.

End Ledger.

(** A context carrying user 42, and a logger at level INFO. *)
Definition ctx42 : Context :=
  {| Value_UserIDKey := any_int64 42; Value_RequestIDKey := any_string "req-1" |}.

Definition pay0 : services.Payment :=
  {| services.log := {| jsonlog.minLevel := jsonlog.LevelInfo |};
     services.tokenTTL := 3600 |}.

(** A subscription whose identifier is numeric and whose price identifier
    is ten nines and a letter. *)
Definition sub_nines : stripe.Subscription :=
  {| stripe.Sub_ID := "1";
     stripe.Sub_Status := stripe.SubscriptionStatusActive;
     stripe.Sub_CanceledAt := 0;
     stripe.Items_Data :=
       [ {| stripe.Item_Price := {| stripe.Price_ID := "9999999999x" |} |} ] |}.

(** A subscription on the basic plan, as the processor names things. *)
Definition sub_basic : stripe.Subscription :=
  {| stripe.Sub_ID := "sub_1";
     stripe.Sub_Status := stripe.SubscriptionStatusActive;
     stripe.Sub_CanceledAt := 0;
     stripe.Items_Data :=
       [ {| stripe.Item_Price := {| stripe.Price_ID := "price_basic_123" |} |} ] |}.

(** The same with a numeric identifier. *)
Definition sub_numbered : stripe.Subscription :=
  {| stripe.Sub_ID := "17";
     stripe.Sub_Status := stripe.SubscriptionStatusActive;
     stripe.Sub_CanceledAt := 0;
     stripe.Items_Data :=
       [ {| stripe.Item_Price := {| stripe.Price_ID := "price_basic_123" |} |} ] |}.

(** A ledger holding one active subscription, [sub_1]. *)
Definition ledger_with_sub : Ledger.World :=
  {| Ledger.customers := ∅;
     Ledger.subscriptions := {[ "sub_1" := sub_basic ]};
     Ledger.serial := 1;
     Ledger.clock := 1700000000 |}.

(** The processor accepts a cancel request and leaves the subscription
    active. *)
Definition script_ineffective_cancel : Scripted.World :=
  [ Scripted.A_subscription (Ok sub_basic);
    Scripted.A_subscription (Ok sub_basic) ].

(** No customer under 42; a customer is created; the method is attached;
    making it the default is refused; the subscription is created. *)
Definition script_default_refused : Scripted.World :=
  [ Scripted.A_customer (Err (stripe_Error "No such customer: 42"));
    Scripted.A_customer
      (Ok {| stripe.Customer_ID := "cus_9";
             stripe.Customer_Description := "Customer for user 42";
             stripe.Customer_Metadata := {[ "user_id" := "42" ]} |});
    Scripted.A_method (Ok {| stripe.PaymentMethod_ID := "pm_test" |});
    Scripted.A_customer (Err (stripe_Error "update refused"));
    Scripted.A_subscription (Ok sub_basic) ].

Definition script_numbered : Scripted.World :=
  [ Scripted.A_subscription (Ok sub_numbered) ].

Definition script_nines : Scripted.World :=
  [ Scripted.A_subscription (Ok sub_nines) ].

Definition get_request (id : string) : pb.GetSubscriptionRequest :=
  {| pb.GetReq_SubStripeId := id |}.

(** The ledger as a verifier of webhooks and a gateway to payment
    intents: a signature is the secret behind [v1=], the payload is the
    event's type, and there is one payment intent, [pi_1], waiting for
    confirmation. *)
Module Hooks.

Definition construct (payload signature secret : string) (w : Ledger.World)
  : result webhook.Event * Ledger.World :=
  if decide (signature = "v1=" +:+ secret) then
    (Ok {| webhook.Event_ID := "evt_" +:+ pretty (Ledger.serial w);
           webhook.Event_Type := payload |}, w)
  else
    (Err (stripe_Error "webhook had no valid signature"), w).

#[global] Instance verifier : webhook.Verifier Ledger.World := {|
  webhook.ConstructEvent := construct |}.

Definition get_intent (id : string) (w : Ledger.World)
  : result intents.PaymentIntent * Ledger.World :=
  if decide (id = "pi_1") then
    (Ok {| intents.PI_ID := id;
           intents.PI_Status := intents.PaymentIntentStatusRequiresConfirmation |}, w)
  else (Err (Ledger.no_such "payment_intent" id), w).

Definition confirm_intent (id : string) (w : Ledger.World)
  : result intents.PaymentIntent * Ledger.World :=
  if decide (id = "pi_1") then
    (Ok {| intents.PI_ID := id; intents.PI_Status := "succeeded" |}, w)
  else (Err (Ledger.no_such "payment_intent" id), w).

#[global] Instance gateway : intents.Gateway Ledger.World := {|
  intents.paymentintent_Get := get_intent;
  intents.paymentintent_Confirm := confirm_intent |}.

End Hooks.

(** An operating system in memory: the log directory as a list of paths
    with their modification times, a clock, and a record of what was
    written and removed.  On a read-only file system no file opens. *)
Module MemOS.

Record World := {
  clock : Z;
  directory : list (string * Z);
  read_only : bool;
  written : list (logfiles.Writer * string);
  removed : list string;
  handles : Z }.

Definition open (p : string) (w : World) : result logfiles.File * World :=
  if read_only w then
    (Err (fmt_Errorf ("open " +:+ p +:+ ": read-only file system")), w)
  else
    (Ok (logfiles.Handle (handles w + 1)),
     {| clock := clock w; directory := directory w ++ [(p, clock w)];
        read_only := read_only w; written := written w; removed := removed w;
        handles := handles w + 1 |}).

Definition write (o : logfiles.Writer) (s : string) (w : World)
  : (Z * option error) * World :=
  ((Z.of_nat (String.length s), None),
   {| clock := clock w; directory := directory w; read_only := read_only w;
      written := written w ++ [(o, s)]; removed := removed w;
      handles := handles w |}).

Definition stat (p : string) (w : World) : result Z * World :=
  match list_find (λ entry, entry.1 = p) (directory w) with
  | Some (_, (_, t)) => (Ok t, w)
  | None => (Err (fmt_Errorf ("stat " +:+ p +:+ ": no such file or directory")), w)
  end.

Definition remove (p : string) (w : World) : option error * World :=
  (None,
   {| clock := clock w;
      directory := filter (λ entry, entry.1 ≠ p) (directory w);
      read_only := read_only w; written := written w;
      removed := removed w ++ [p]; handles := handles w |}).

#[global] Instance os : logfiles.OS World := {|
  logfiles.os_MkdirAll _ w := (None, w);
  logfiles.os_OpenFile := open;
  logfiles.File_Stat_Size _ w := (Ok 0, w);
  logfiles.File_Close _ w := (None, w);
  logfiles.Writer_Write := write;
  logfiles.stderr_Fprintf s w := snd (write (logfiles.Writer_other "stderr") s w);
  logfiles.filepath_Glob _ w := (Ok ((directory w).*1), w);
  logfiles.os_Stat_ModTime := stat;
  logfiles.os_Remove := remove;
  logfiles.time_Now w := (clock w, w);
  logfiles.debug_Stack w := ("goroutine 1 [running]:", w);
  logfiles.time_Format _ _ t := pretty t;
  logfiles.filepath_Join dir name := dir +:+ "/" +:+ name;
  logfiles.json_Marshal a :=
    Ok (logfiles.aux_Level a +:+ " " +:+ logfiles.aux_Message a) |}.

(** [sort.Slice] by modification time. *)
Definition sort_Slice : list logfiles.fileInfo → list logfiles.fileInfo :=
  @merge_sort _ (λ a b, logfiles.modTime a ≤ logfiles.modTime b)
    (λ a b, decide (logfiles.modTime a ≤ logfiles.modTime b)).

End MemOS.

(** Keep at most two files, for at most seven days, of one megabyte
    each. *)
Definition cfg_small : logfiles.LogConfig :=
  {| logfiles.LogPath := "logs"; logfiles.MaxSize := 1;
     logfiles.MaxBackups := 2; logfiles.MaxAge := 7;
     logfiles.Compress := false |}.

(** A file logger on its first file, one byte short of the limit. *)
Definition logger_full : logfiles.Logger :=
  {| logfiles.out := logfiles.Writer_file (logfiles.Handle 1);
     logfiles.minLevel := jsonlog.LevelInfo;
     logfiles.config := Some cfg_small;
     logfiles.currentFile := Some (logfiles.Handle 1);
     logfiles.fileSize := 1048576 |}.

(** Three log files, written one day apart, the newest nine days before
    the clock's time. *)
Definition os_three_files (read_only : bool) : MemOS.World :=
  {| MemOS.clock := 1000000000000000000;
     MemOS.directory :=
       [ ("logs/app-b.log", 1000000000000000000 - 10 * 24 * logfiles.time_Hour);
         ("logs/app-a.log", 1000000000000000000 - 11 * 24 * logfiles.time_Hour);
         ("logs/app-c.log", 1000000000000000000 - 9 * 24 * logfiles.time_Hour) ];
     MemOS.read_only := read_only;
     MemOS.written := [];
     MemOS.removed := [];
     MemOS.handles := 1 |}.

(** The three files as the clean-up lists them, oldest first. *)
Definition files_by_age : list logfiles.fileInfo :=
  [ {| logfiles.path := "logs/app-a.log";
       logfiles.modTime := 1000000000000000000 - 11 * 24 * logfiles.time_Hour |};
    {| logfiles.path := "logs/app-b.log";
       logfiles.modTime := 1000000000000000000 - 10 * 24 * logfiles.time_Hour |};
    {| logfiles.path := "logs/app-c.log";
       logfiles.modTime := 1000000000000000000 - 9 * 24 * logfiles.time_Hour |} ].

(** A customer on file, then a card that is declined. *)
Definition script_card_declined : Scripted.World :=
  [ Scripted.A_customer
      (Ok {| stripe.Customer_ID := "cus_9";
             stripe.Customer_Description := "Customer for user 42";
             stripe.Customer_Metadata := {[ "user_id" := "42" ]} |});
    Scripted.A_method (Err (stripe_Error "Your card was declined.")) ].

(** No customer on file, and none can be created. *)
Definition script_no_customer : Scripted.World :=
  [ Scripted.A_customer (Err (stripe_Error "No such customer: 42"));
    Scripted.A_customer (Err (stripe_Error "rate limited")) ].

(** A subscription whose identifier and price identifier are numerals. *)
Definition script_all_numeric : Scripted.World :=
  [ Scripted.A_subscription
      (Ok {| stripe.Sub_ID := "17";
             stripe.Sub_Status := stripe.SubscriptionStatusActive;
             stripe.Sub_CanceledAt := 0;
             stripe.Items_Data :=
               [ {| stripe.Item_Price := {| stripe.Price_ID := "2" |} |} ] |}) ].

(* ===================================================================== *)
(** * Properties *)
(* ===================================================================== *)

(** Unfold the monad and the logging wrappers; what remains is a chain of
    matches on the answers of the environment. *)
Ltac orch_unfold :=
  unfold services.CreateSubscription, services.CancelSubscription,
    services.GetSubscription, services.getOrCreateCustomer,
    services.attachPaymentMethod, services.setDefaultPaymentMethod,
    services.PrintInfoWithContext, services.PrintErrorWithContext,
    bind, ret, call, Now, start in *;
  cbn [world requests entries fst snd] in *.

(** Case on the next answer of the environment met in the goal. *)
Ltac orch_answer :=
  match goal with
  | |- context [customer_Get ?a ?b ?w] =>
      destruct (customer_Get a b w) as [[?|?] ?] eqn:?
  | |- context [customer_New ?a ?w] =>
      destruct (customer_New a w) as [[?|?] ?] eqn:?
  | |- context [paymentmethod_Attach ?a ?b ?w] =>
      destruct (paymentmethod_Attach a b w) as [[?|?] ?] eqn:?
  | |- context [customer_Update ?a ?b ?w] =>
      destruct (customer_Update a b w) as [[?|?] ?] eqn:?
  | |- context [subscription_New ?a ?w] =>
      destruct (subscription_New a w) as [[?|?] ?] eqn:?
  | |- context [subscription_Get ?a ?b ?w] =>
      destruct (subscription_Get a b w) as [[?|?] ?] eqn:?
  | |- context [subscription_Cancel ?a ?b ?w] =>
      destruct (subscription_Cancel a b w) as [[?|?] ?] eqn:?
  | |- context [time_Now ?w] =>
      destruct (time_Now w) as [? ?] eqn:?
  end; cbn [world requests entries fst snd] in *.

Section StatusMapping.
Context {W : Type} `{Env W}.

Lemma getPaymentStatusFromStripe_default (s : stripe.SubscriptionStatus) :
  s ≠ stripe.SubscriptionStatusActive →
  s ≠ stripe.SubscriptionStatusCanceled →
  s ≠ stripe.SubscriptionStatusIncompleteExpired →
  s ≠ stripe.SubscriptionStatusUnpaid →
  s ≠ stripe.SubscriptionStatusTrialing →
  services.getPaymentStatusFromStripe s
  = pb.SubscriptionStatus_SUBSCRIPTION_STATUS_UNSPECIFIED.
Proof.
  intros. unfold services.getPaymentStatusFromStripe.
  repeat case_decide; congruence.
Qed.

(** What [GetSubscription] answers when the fetch gives a subscription
    with at least one item. *)
Lemma GetSubscription_found p ctx stripeSubID (st : State W) sub w1 item items :
  stripeSubID ≠ "" →
  subscription_Get stripeSubID None (world st) = (Ok sub, w1) →
  stripe.Items_Data sub = item :: items →
  fst (services.GetSubscription p ctx stripeSubID st)
  = {| data.ID := stripe.Sub_ID sub;
       data.PlanID := stripe.Price_ID (stripe.Item_Price item);
       data.StripeSubID := stripeSubID;
       data.Status := services.getPaymentStatusFromStripe (stripe.Sub_Status sub);
       data.CurrentPeriodEnd := AddDate_0_1_0 (fst (time_Now w1)) |}.
Proof.
  intros Hid Hget Hitems. orch_unfold.
  case_decide; [done|]. rewrite Hget, Hitems. cbn.
  destruct (time_Now w1); reflexivity.
Qed.

(** C4. The status mapping is total: each of the five recognised
    processor statuses (active, canceled, incomplete_expired, unpaid,
    trialing) maps to the lifecycle status of the same name, every other
    processor status maps to UNSPECIFIED, and this mapping is the one
    [GetSubscription] fills the record's status with. *)
Theorem C4_status_mapping_total :
  services.getPaymentStatusFromStripe stripe.SubscriptionStatusActive
    = pb.SubscriptionStatus_SUBSCRIPTION_STATUS_ACTIVE
  ∧ services.getPaymentStatusFromStripe stripe.SubscriptionStatusCanceled
    = pb.SubscriptionStatus_SUBSCRIPTION_STATUS_CANCELED
  ∧ services.getPaymentStatusFromStripe stripe.SubscriptionStatusIncompleteExpired
    = pb.SubscriptionStatus_SUBSCRIPTION_STATUS_INCOMPLETE_EXPIRED
  ∧ services.getPaymentStatusFromStripe stripe.SubscriptionStatusUnpaid
    = pb.SubscriptionStatus_SUBSCRIPTION_STATUS_UNPAID
  ∧ services.getPaymentStatusFromStripe stripe.SubscriptionStatusTrialing
    = pb.SubscriptionStatus_SUBSCRIPTION_STATUS_TRIALING
  ∧ (∀ s : stripe.SubscriptionStatus,
       s ∉ [ stripe.SubscriptionStatusActive; stripe.SubscriptionStatusCanceled;
             stripe.SubscriptionStatusIncompleteExpired;
             stripe.SubscriptionStatusUnpaid; stripe.SubscriptionStatusTrialing ] →
       services.getPaymentStatusFromStripe s
       = pb.SubscriptionStatus_SUBSCRIPTION_STATUS_UNSPECIFIED)
  ∧ (∀ p ctx stripeSubID (st : State W) sub w1,
       stripeSubID ≠ "" →
       subscription_Get stripeSubID None (world st) = (Ok sub, w1) →
       stripe.Items_Data sub ≠ [] →
       data.Status (fst (services.GetSubscription p ctx stripeSubID st))
       = services.getPaymentStatusFromStripe (stripe.Sub_Status sub)).
Proof.
  repeat split; try reflexivity.
  - intros s Hs. apply getPaymentStatusFromStripe_default;
      intros ->; apply Hs; set_solver.
  - intros p ctx id st sub w1 Hid Hget Hitems.
    destruct (stripe.Items_Data sub) as [|item items] eqn:E; [done|].
    by rewrite (GetSubscription_found p ctx id st sub w1 item items).
Qed.

End StatusMapping.

Section CreateSubscription.
Context {W : Type} `{Env W}.

Lemma mapPlanIDToStripePrice_catalog (planID : Z) :
  services.mapPlanIDToStripePrice planID ≠ "" ↔ planID = 1 ∨ planID = 2.
Proof.
  unfold services.mapPlanIDToStripePrice. split.
  - destruct planID as [|q|q]; try done.
    destruct q as [q|q|]; try done; [|auto].
    destruct q; try done. auto.
  - intros [-> | ->]; done.
Qed.

(** Customer resolution reads nothing of the state but the world. *)
Lemma getOrCreateCustomer_outcome p ctx userID (st : State W) :
  outcome (services.getOrCreateCustomer p ctx userID) (world st)
  = (fst (services.getOrCreateCustomer p ctx userID st),
     world (snd (services.getOrCreateCustomer p ctx userID st))).
Proof.
  unfold outcome. orch_unfold. repeat orch_answer; reflexivity.
Qed.


(** C6. With a resolvable caller identity and a plan of the catalog, an
    empty payment-method token makes [CreateSubscription] return the
    empty identifier with INVALID_PAYMENT_METHOD; no request is sent to
    the processor (so none to its customer or attachment endpoints) and
    the world is left as it was. *)
Theorem C6_empty_token_rejected p ctx userID planID (st : State W) :
  services.getUserFromContext ctx = Ok userID →
  planID = 1 ∨ planID = 2 →
  fst (services.CreateSubscription p ctx planID "" st)
    = ("", pb.Status_STATUS_INVALID_PAYMENT_METHOD)
  ∧ requests (snd (services.CreateSubscription p ctx planID "" st)) = requests st
  ∧ world (snd (services.CreateSubscription p ctx planID "" st)) = world st
  ∧ filter (λ r, stripe.is_customer_or_attach r = true)
      (requests (snd (services.CreateSubscription p ctx planID "" st)))
    = filter (λ r, stripe.is_customer_or_attach r = true) (requests st).
Proof.
  intros Huser Hplan.
  assert (requests (snd (services.CreateSubscription p ctx planID "" st))
          = requests st) as Hreq.
  { unfold services.CreateSubscription. rewrite Huser.
    destruct Hplan as [-> | ->]; orch_unfold; done. }
  rewrite Hreq. repeat split; try done;
    unfold services.CreateSubscription; rewrite Huser;
    destruct Hplan as [-> | ->]; orch_unfold; done.
Qed.

(** C8. A failure to set the default payment method does not abort the
    flow or change the outcome: when the identity, the plan, the token,
    customer resolution, the attachment and the creation of the
    subscription all succeed, [CreateSubscription] returns the
    identifier the processor gave the subscription, with OK, whatever
    the processor answered to the request that sets the default payment
    method ([updated] may be an error). *)
Theorem C8_default_method_failure_tolerated
    p ctx userID planID paymentMethodID (st : State W)
    customerID w1 method w2 updated w3 subscription w4 :
  services.getUserFromContext ctx = Ok userID →
  planID = 1 ∨ planID = 2 →
  paymentMethodID ≠ "" →
  outcome (services.getOrCreateCustomer p ctx (strconv.FormatInt userID)) (world st)
    = (Ok customerID, w1) →
  paymentmethod_Attach paymentMethodID (services.attachParams customerID) w1
    = (Ok method, w2) →
  customer_Update customerID (services.defaultMethodParams paymentMethodID) w2
    = (updated, w3) →
  subscription_New
    (services.subscriptionParams customerID (services.mapPlanIDToStripePrice planID)) w3
    = (Ok subscription, w4) →
  fst (services.CreateSubscription p ctx planID paymentMethodID st)
    = (stripe.Sub_ID subscription, pb.Status_STATUS_OK)
  ∧ world (snd (services.CreateSubscription p ctx planID paymentMethodID st)) = w4.
Proof.
  intros Huser Hplan Htoken Hcust Hattach Hupdate Hnew.
  apply mapPlanIDToStripePrice_catalog in Hplan.
  enough (∃ st', services.CreateSubscription p ctx planID paymentMethodID st
                 = ((stripe.Sub_ID subscription, pb.Status_STATUS_OK), st')
                 ∧ world st' = w4) as (st' & -> & <-); [done|].
  unfold services.CreateSubscription. rewrite Huser.
  case_decide; [done|]. case_decide; [done|].
  unfold bind at 1. unfold services.PrintInfoWithContext at 1.
  unfold bind at 1.
  match goal with
  | |- context [services.getOrCreateCustomer p ctx ?u ?s] =>
      pose proof (getOrCreateCustomer_outcome p ctx u s) as Hframe;
      destruct (services.getOrCreateCustomer p ctx u s) as [r st1] eqn:Hrun
  end.
  cbn [world fst snd] in Hframe. rewrite Hcust in Hframe.
  injection Hframe as <- ->.
  clear Hcust Hrun. orch_unfold. rewrite Hattach. cbn. rewrite Hupdate.
  destruct updated; cbn; rewrite Hnew; eexists; split; reflexivity.
Qed.

End CreateSubscription.

Section CancelSubscription.
Context {W : Type} `{Env W}.

(** Already canceled: OK after the fetch alone. *)
Lemma CancelSubscription_already_canceled p ctx stripeSubID (st : State W) existingSub w1 :
  stripeSubID ≠ "" →
  subscription_Get stripeSubID (Some stripe.SubscriptionParams_zero) (world st)
    = (Ok existingSub, w1) →
  stripe.Sub_Status existingSub = stripe.SubscriptionStatusCanceled →
  ∃ st', services.CancelSubscription p ctx stripeSubID st = (pb.Status_STATUS_OK, st')
         ∧ requests st' = requests st ++ [fetch_request stripeSubID]
         ∧ world st' = w1.
Proof.
  intros Hid Hget Hstatus. orch_unfold.
  case_decide; [done|]. rewrite Hget. case_decide; [|done].
  eexists; repeat split; reflexivity.
Qed.

(** Not yet canceled: the answer to the cancel request decides. *)
Lemma CancelSubscription_cancels p ctx stripeSubID (st : State W)
    existingSub w1 subscription w2 :
  stripeSubID ≠ "" →
  subscription_Get stripeSubID (Some stripe.SubscriptionParams_zero) (world st)
    = (Ok existingSub, w1) →
  stripe.Sub_Status existingSub ≠ stripe.SubscriptionStatusCanceled →
  subscription_Cancel stripeSubID stripe.Build_SubscriptionCancelParams w1
    = (Ok subscription, w2) →
  ∃ st', services.CancelSubscription p ctx stripeSubID st
         = (if decide (stripe.Sub_Status subscription = stripe.SubscriptionStatusCanceled)
            then pb.Status_STATUS_OK else pb.Status_STATUS_INTERNAL_ERROR, st')
         ∧ world st' = w2.
Proof.
  intros Hid Hget Hstatus Hcancel. orch_unfold.
  case_decide; [done|]. rewrite Hget. case_decide; [done|].
  cbn [world requests entries]. rewrite Hcancel.
  case_decide; eexists; split; reflexivity.
Qed.

(** A call that returns OK ended on an answer of the processor that shows
    the subscription CANCELED. *)
Lemma CancelSubscription_OK_inv p ctx stripeSubID (st st1 : State W) :
  services.CancelSubscription p ctx stripeSubID st = (pb.Status_STATUS_OK, st1) →
  stripeSubID ≠ ""
  ∧ ∃ sub w,
      (subscription_Get stripeSubID (Some stripe.SubscriptionParams_zero) w
         = (Ok sub, world st1)
       ∨ subscription_Cancel stripeSubID stripe.Build_SubscriptionCancelParams w
         = (Ok sub, world st1))
      ∧ stripe.Sub_Status sub = stripe.SubscriptionStatusCanceled.
Proof.
  orch_unfold. case_decide as Hid; [intros [=]|].
  destruct (subscription_Get _ _ (world st)) as [[existingSub|e] w1] eqn:Hget;
    [|intros [=]].
  case_decide as Hstatus.
  - intros [= <-]. split; [done|]. exists existingSub, (world st). auto.
  - cbn [world requests entries].
    destruct (subscription_Cancel _ _ w1) as [[subscription|e] w2] eqn:Hcancel;
      [|intros [=]].
    case_decide as Hstatus'; intros [= <-].
    split; [done|]. exists subscription, w1. auto.
Qed.

(** After a call that returned OK, the next call on the same identifier
    returns OK and sends the fetch only. *)
Lemma CancelSubscription_again p ctx stripeSubID (st st1 : State W) :
  cancel_is_final stripeSubID →
  services.CancelSubscription p ctx stripeSubID st = (pb.Status_STATUS_OK, st1) →
  ∃ st2, services.CancelSubscription p ctx stripeSubID st1 = (pb.Status_STATUS_OK, st2)
         ∧ requests st2 = requests st1 ++ [fetch_request stripeSubID].
Proof.
  intros Hfinal Hfirst.
  apply CancelSubscription_OK_inv in Hfirst as (Hid & sub & w & Hlast & Hstatus).
  destruct (Hfinal w sub (world st1) Hlast Hstatus) as (sub' & w'' & Hget' & Hstatus').
  destruct (CancelSubscription_already_canceled p ctx _ st1 _ _ Hid Hget' Hstatus')
    as (st2 & Hrun & Hreq & _).
  eauto.
Qed.

(** C3. [CancelSubscription] is idempotent.  If the subscription it
    fetches is already CANCELED it returns OK and the fetch is the only
    request it sends: no cancel request.  So, a canceled subscription
    staying canceled at the processor, a call that follows a call that
    returned OK returns OK too and sends no cancel request; and for a
    subscription that can be fetched and that the processor cancels when
    asked, two calls in a row on the same identifier return OK both times,
    the second sending the fetch only. *)
Theorem C3_cancel_idempotent p ctx stripeSubID (st : State W) :
  (∀ existingSub w1,
     stripeSubID ≠ "" →
     subscription_Get stripeSubID (Some stripe.SubscriptionParams_zero) (world st)
       = (Ok existingSub, w1) →
     stripe.Sub_Status existingSub = stripe.SubscriptionStatusCanceled →
     fst (services.CancelSubscription p ctx stripeSubID st) = pb.Status_STATUS_OK
     ∧ requests (snd (services.CancelSubscription p ctx stripeSubID st))
       = requests st ++ [fetch_request stripeSubID])
  ∧ (cancel_is_final stripeSubID →
     ∀ st1,
       services.CancelSubscription p ctx stripeSubID st = (pb.Status_STATUS_OK, st1) →
       fst (services.CancelSubscription p ctx stripeSubID st1) = pb.Status_STATUS_OK
       ∧ requests (snd (services.CancelSubscription p ctx stripeSubID st1))
         = requests st1 ++ [fetch_request stripeSubID]
       ∧ filter (λ r, stripe.is_cancel r = true)
           (requests (snd (services.CancelSubscription p ctx stripeSubID st1)))
         = filter (λ r, stripe.is_cancel r = true) (requests st1))
  ∧ (cancel_is_final stripeSubID →
     ∀ existingSub w1,
       stripeSubID ≠ "" →
       subscription_Get stripeSubID (Some stripe.SubscriptionParams_zero) (world st)
         = (Ok existingSub, w1) →
       (stripe.Sub_Status existingSub ≠ stripe.SubscriptionStatusCanceled →
        ∃ subscription w2,
          subscription_Cancel stripeSubID stripe.Build_SubscriptionCancelParams w1
            = (Ok subscription, w2)
          ∧ stripe.Sub_Status subscription = stripe.SubscriptionStatusCanceled) →
       fst (services.CancelSubscription p ctx stripeSubID st) = pb.Status_STATUS_OK
       ∧ fst (services.CancelSubscription p ctx stripeSubID
                (snd (services.CancelSubscription p ctx stripeSubID st)))
         = pb.Status_STATUS_OK
       ∧ requests (snd (services.CancelSubscription p ctx stripeSubID
                          (snd (services.CancelSubscription p ctx stripeSubID st))))
         = requests (snd (services.CancelSubscription p ctx stripeSubID st))
           ++ [fetch_request stripeSubID]).
Proof.
  split; [|split].
  - intros existingSub w1 Hid Hget Hstatus.
    destruct (CancelSubscription_already_canceled p ctx _ st _ _ Hid Hget Hstatus)
      as (st' & -> & Hreq & _). done.
  - intros Hfinal st1 Hfirst.
    destruct (CancelSubscription_again p ctx _ st st1 Hfinal Hfirst)
      as (st2 & -> & Hreq).
    cbn [fst snd]. rewrite Hreq. repeat split.
    rewrite filter_app. cbn. by rewrite app_nil_r.
  - intros Hfinal existingSub w1 Hid Hget Heffective.
    assert (∃ st1, services.CancelSubscription p ctx stripeSubID st
                   = (pb.Status_STATUS_OK, st1)) as [st1 Hfirst].
    { destruct (decide (stripe.Sub_Status existingSub
                        = stripe.SubscriptionStatusCanceled)) as [Hc|Hc].
      - destruct (CancelSubscription_already_canceled p ctx _ st _ _ Hid Hget Hc)
          as (st' & Hrun & _). eauto.
      - destruct (Heffective Hc) as (sub & w2 & Hcancel & Hs).
        destruct (CancelSubscription_cancels p ctx _ st _ _ _ _ Hid Hget Hc Hcancel)
          as (st' & Hrun & _).
        rewrite decide_True in Hrun by done. eauto. }
    destruct (CancelSubscription_again p ctx _ st st1 Hfinal Hfirst)
      as (st2 & Hsecond & Hreq).
    rewrite Hfirst. cbn [fst snd]. rewrite Hsecond. done.
Qed.

(** C5. For a non-empty identifier whose subscription is not already
    canceled, when the cancel request itself succeeds: a returned status
    other than CANCELED makes [CancelSubscription] return INTERNAL_ERROR,
    and it returns OK only when the returned status is CANCELED. *)
Theorem C5_ineffective_cancel_is_error p ctx stripeSubID (st : State W)
    existingSub w1 subscription w2 :
  stripeSubID ≠ "" →
  subscription_Get stripeSubID (Some stripe.SubscriptionParams_zero) (world st)
    = (Ok existingSub, w1) →
  stripe.Sub_Status existingSub ≠ stripe.SubscriptionStatusCanceled →
  subscription_Cancel stripeSubID stripe.Build_SubscriptionCancelParams w1
    = (Ok subscription, w2) →
  (stripe.Sub_Status subscription ≠ stripe.SubscriptionStatusCanceled →
   fst (services.CancelSubscription p ctx stripeSubID st)
   = pb.Status_STATUS_INTERNAL_ERROR)
  ∧ (fst (services.CancelSubscription p ctx stripeSubID st) = pb.Status_STATUS_OK
     ↔ stripe.Sub_Status subscription = stripe.SubscriptionStatusCanceled).
Proof.
  intros Hid Hget Hstatus Hcancel.
  destruct (CancelSubscription_cancels p ctx _ st _ _ _ _ Hid Hget Hstatus Hcancel)
    as (st' & -> & _).
  cbn [fst]. case_decide; split; try done; split; done.
Qed.

End CancelSubscription.

Section GetSubscription.
Context {W : Type} `{Env W}.


End GetSubscription.

Section ParseInt.

Lemma ParseUint_loop_no_error cutoff maxVal s n v :
  strconv.ParseUint_loop 10 cutoff maxVal s n = (v, None) → all_digits s = true.
Proof.
  revert n. induction s as [|c rest IH]; intros n; [done|].
  cbn [strconv.ParseUint_loop all_digits]. unfold is_digit.
  destruct ((48 <=? strconv.byte c) && (strconv.byte c <=? 57)) eqn:Hdigit.
  - cbn [andb]. destruct (10 <=? strconv.byte c - 48); [done|].
    destruct (cutoff <=? n); [done|].
    match goal with |- context [if ?b then _ else _] => destruct b end; [done|].
    apply IH.
  - destruct ((97 <=? strconv.lower (strconv.byte c))
              && (strconv.lower (strconv.byte c) <=? 122)) eqn:Hletter; [|done].
    apply andb_prop in Hletter as [Hlo _]. apply Z.leb_le in Hlo.
    destruct (10 <=? strconv.lower (strconv.byte c) - 97 + 10) eqn:Hbase; [done|].
    apply Z.leb_gt in Hbase. lia.
Qed.

Lemma ParseUint_loop_other cutoff maxVal c rest n :
  is_digit c = false →
  strconv.ParseUint_loop 10 cutoff maxVal (String c rest) n
  = (0, Some strconv.ErrSyntax).
Proof.
  unfold is_digit. intros Hdigit. cbn [strconv.ParseUint_loop]. rewrite Hdigit.
  destruct ((97 <=? strconv.lower (strconv.byte c))
            && (strconv.lower (strconv.byte c) <=? 122)) eqn:Hletter; [|done].
  apply andb_prop in Hletter as [Hlo _]. apply Z.leb_le in Hlo.
  destruct (10 <=? strconv.lower (strconv.byte c) - 97 + 10) eqn:Hbase; [done|].
  apply Z.leb_gt in Hbase. lia.
Qed.

Lemma ParseUint_loop_range cutoff maxVal s n v :
  strconv.ParseUint_loop 10 cutoff maxVal s n = (v, Some strconv.ErrRange) →
  v = maxVal.
Proof.
  revert n. induction s as [|c rest IH]; intros n; [done|].
  cbn [strconv.ParseUint_loop].
  repeat match goal with
         | |- context [match ?b with _ => _ end] =>
             lazymatch b with
             | strconv.ParseUint_loop _ _ _ _ _ => fail
             | _ => destruct b
             end
         end; try done; try congruence.
  apply IH.
Qed.

Lemma ParseUint_no_error s bitSize v :
  strconv.ParseUint s 10 bitSize = (v, None) → s ≠ "" ∧ all_digits s = true.
Proof.
  unfold strconv.ParseUint. case_decide; [done|].
  intros Hloop. split; [done|]. by eapply ParseUint_loop_no_error.
Qed.

Lemma ParseUint_range s bitSize v :
  strconv.ParseUint s 10 bitSize = (v, Some strconv.ErrRange) →
  v = 2 ^ bitSize - 1.
Proof.
  unfold strconv.ParseUint. case_decide; [done|]. apply ParseUint_loop_range.
Qed.

(** A string that [ParseInt] accepts in base 10 is decimal-numeric. *)
Lemma ParseInt_no_error s bitSize v :
  2 ≤ bitSize →
  strconv.ParseInt s 10 bitSize = (v, None) → decimal_numeric s = true.
Proof.
  intros Hbits. destruct s as [|c rest]; [done|].
  assert (2 ^ bitSize = 2 * 2 ^ (bitSize - 1)) as Hpow.
  { rewrite <- Z.pow_succ_r by lia. f_equal. lia. }
  assert (2 ^ 1 ≤ 2 ^ (bitSize - 1)) as Hge by (apply Z.pow_le_mono_r; lia).
  unfold strconv.ParseInt.
  set (s' := if decide (c = "+"%char) then rest
             else if decide (c = "-"%char) then rest else String c rest).
  destruct (strconv.ParseUint s' 10 bitSize) as [un [[]|]] eqn:Hu; [done| |].
  - apply ParseUint_range in Hu. subst un.
    destruct (bool_decide (c = "-"%char)); cbn [negb andb].
    + destruct (2 ^ (bitSize - 1) <? 2 ^ bitSize - 1) eqn:E; [done|].
      apply Z.ltb_ge in E. lia.
    + destruct (2 ^ (bitSize - 1) <=? 2 ^ bitSize - 1) eqn:E; [done|].
      apply Z.leb_gt in E. lia.
  - intros _. apply ParseUint_no_error in Hu as [Hne Hall].
    unfold decimal_numeric, is_sign. subst s'.
    repeat case_decide; subst; cbn [orb];
      rewrite ?bool_decide_eq_true_2, ?bool_decide_eq_false_2 by done;
      cbn [orb negb andb]; done.
Qed.

(** On a syntax error [ParseInt] answers 0. *)
Lemma ParseInt_syntax_zero s bitSize v :
  strconv.ParseInt s 10 bitSize = (v, Some strconv.ErrSyntax) → v = 0.
Proof.
  unfold strconv.ParseInt. destruct s as [|c rest]; [congruence|].
  destruct (strconv.ParseUint _ 10 bitSize) as [un [[]|]];
    repeat match goal with
           | |- context [if ?b then _ else _] => destruct b
           end; congruence.
Qed.

(** A string that starts with a byte other than a sign or a digit is a
    syntax error. *)
Lemma ParseInt_starts_with_other s bitSize :
  starts_with_other s = true →
  strconv.ParseInt s 10 bitSize = (0, Some strconv.ErrSyntax).
Proof.
  destruct s as [|c rest]; [done|]. unfold starts_with_other, is_sign.
  intros [Hsign Hdigit]%andb_prop.
  apply negb_true_iff in Hsign, Hdigit.
  apply orb_false_elim in Hsign as [Hplus Hminus].
  apply bool_decide_eq_false in Hplus, Hminus.
  unfold strconv.ParseInt.
  rewrite !decide_False by done. unfold strconv.ParseUint.
  rewrite decide_False by done.
  by rewrite ParseUint_loop_other.
Qed.

End ParseInt.

Section Adapter.
Context {S : Type} `{grpc.Payment S}.

Lemma ParseInt_range_bound s v :
  strconv.ParseInt s 10 32 = (v, Some strconv.ErrRange) →
  v = 2147483647 ∨ v = -2147483648.
Proof.
  unfold strconv.ParseInt. destruct s as [|c rest]; [congruence|].
  destruct (strconv.ParseUint _ 10 32) as [un [[]|]];
    repeat match goal with
           | |- context [if ?b then _ else _] => destruct b
           end; intros [= <-]; auto.
Qed.

(** The handler with the orchestrator's record and the two parses laid
    open. *)
Lemma GetSubscription_handler ctx r (st : S) subscription st' :
  grpc.pay_GetSubscription ctx (pb.GetReq_SubStripeId r) st = (subscription, st') →
  grpc.GetSubscription ctx r st
  = match strconv.ParseInt (data.ID subscription) 10 64 with
    | (_, Some e) =>
        ((None, Some (NumError "ParseInt" (data.ID subscription) e)), st')
    | (subId, None) =>
        ((Some {| pb.GetResp_Subscription :=
                    {| pb.Id := subId;
                       pb.PlanId :=
                         int32 (fst (strconv.ParseInt (data.PlanID subscription) 10 32));
                       pb.StripeSubscriptionId := pb.GetReq_SubStripeId r;
                       pb.Status_ := data.Status subscription;
                       pb.CurrentPeriodEnd := data.CurrentPeriodEnd subscription |} |},
          None), st')
    end.
Proof.
  intros Hget. unfold grpc.GetSubscription, ParseInt. rewrite Hget.
  destruct (strconv.ParseInt (data.ID subscription) 10 64) as [subId [e|]];
    cbn; [done|].
  destruct (strconv.ParseInt (data.PlanID subscription) 10 32) as [planID e];
    done.
Qed.

(** C10 (amended). In the adapter's [GetSubscription] only the parse of
    the subscription identifier is checked.  For a record whose
    subscription identifier parses and whose plan identifier is not
    decimal-numeric, the parse of the plan identifier fails, the error is
    dropped, and the handler answers a response with a nil error.  The
    response's PlanId is the value that came with the dropped error: 0
    for a syntax error (in particular when the identifier starts with a
    byte that is neither a sign nor a digit), and 2147483647 or
    -2147483648 for a range error. *)
Theorem C10_plan_parse_error_dropped ctx r (st : S) subscription st' subId :
  grpc.pay_GetSubscription ctx (pb.GetReq_SubStripeId r) st = (subscription, st') →
  strconv.ParseInt (data.ID subscription) 10 64 = (subId, None) →
  decimal_numeric (data.PlanID subscription) = false →
  ∃ resp e,
    grpc.GetSubscription ctx r st = ((Some resp, None), st')
    ∧ snd (strconv.ParseInt (data.PlanID subscription) 10 32) = Some e
    ∧ pb.Id (pb.GetResp_Subscription resp) = subId
    ∧ (e = strconv.ErrSyntax → pb.PlanId (pb.GetResp_Subscription resp) = 0)
    ∧ (starts_with_other (data.PlanID subscription) = true →
       pb.PlanId (pb.GetResp_Subscription resp) = 0)
    ∧ (e = strconv.ErrRange →
       pb.PlanId (pb.GetResp_Subscription resp) = 2147483647
       ∨ pb.PlanId (pb.GetResp_Subscription resp) = -2147483648).
Proof.
  intros Hget Hid Hplan.
  rewrite (GetSubscription_handler _ _ _ _ _ Hget), Hid.
  destruct (strconv.ParseInt (data.PlanID subscription) 10 32) as [v [e|]] eqn:Hp.
  - eexists _, e. cbn [fst snd pb.GetResp_Subscription pb.PlanId pb.Id].
    repeat split; try done.
    + intros ->. apply ParseInt_syntax_zero in Hp. by subst.
    + intros Hother. rewrite (ParseInt_starts_with_other _ 32 Hother) in Hp.
      by injection Hp as <- _.
    + intros ->. apply ParseInt_range_bound in Hp as [-> | ->]; auto.
  - apply ParseInt_no_error in Hp; [congruence | lia].
Qed.

(** A record whose identifier is not decimal-numeric gets an error for
    an answer, whatever implements [Payment]. *)
Lemma GetSubscription_not_numeric ctx r (st : S) :
  decimal_numeric
    (data.ID (fst (grpc.pay_GetSubscription ctx (pb.GetReq_SubStripeId r) st)))
  = false →
  ∃ e, fst (grpc.GetSubscription ctx r st)
       = (None,
          Some (NumError "ParseInt"
                  (data.ID (fst (grpc.pay_GetSubscription ctx
                                   (pb.GetReq_SubStripeId r) st))) e)).
Proof.
  intros Hid.
  destruct (grpc.pay_GetSubscription ctx (pb.GetReq_SubStripeId r) st)
    as [subscription st'] eqn:Hget.
  rewrite (GetSubscription_handler _ _ _ _ _ Hget). cbn [fst] in *.
  destruct (strconv.ParseInt (data.ID subscription) 10 64) as [v [e|]] eqn:Hp.
  - eauto.
  - apply ParseInt_no_error in Hp; [|lia]. congruence.
Qed.

End Adapter.

Section ServerOverOrchestrator.
Context {W : Type} `{Env W}.

(** C9. The adapter's re-encoding can fail.  Whenever the record the
    orchestrator produced has an identifier that is not a decimal-numeric
    string, the [GetSubscription] handler answers no response but an
    error; the empty record is such a record, and the orchestrator
    produces it, for one, for the empty subscription identifier. *)
Theorem C9_get_reencoding_fails p ctx r (st : State W) :
  (decimal_numeric
     (data.ID (fst (services.GetSubscription p ctx (pb.GetReq_SubStripeId r) st)))
   = false →
   ∃ err, fst (@grpc.GetSubscription _ (grpc.orchestrator p) ctx r st)
          = (None, Some err))
  ∧ decimal_numeric (data.ID data.Subscription_zero) = false
  ∧ fst (services.GetSubscription p ctx "" st) = data.Subscription_zero
  ∧ fst (@grpc.GetSubscription _ (grpc.orchestrator p) ctx
           {| pb.GetReq_SubStripeId := "" |} st)
    = (None, Some (NumError "ParseInt" "" strconv.ErrSyntax)).
Proof.
  split; [|split; [done|split]].
  - intros Hid.
    destruct (@GetSubscription_not_numeric _ (grpc.orchestrator p) ctx r st Hid)
      as [e He].
    eauto.
  - orch_unfold. done.
  - unfold grpc.GetSubscription, ParseInt. cbn [grpc.pay_GetSubscription grpc.orchestrator].
    orch_unfold. done.
Qed.

End ServerOverOrchestrator.

Section CustomerResolution.
Context {W : Type} `{Env W}.

(** Customer resolution opens with a lookup under the stringified
    identity; a customer found is returned and none is created. *)
Lemma getOrCreateCustomer_found p ctx userID (st : State W) stripeCustomer w1 :
  customer_Get userID stripe.CustomerParams_zero (world st) = (Ok stripeCustomer, w1) →
  fst (services.getOrCreateCustomer p ctx userID st)
    = Ok (stripe.Customer_ID stripeCustomer)
  ∧ requests (snd (services.getOrCreateCustomer p ctx userID st))
    = requests st ++ [stripe.Req_customer_Get userID stripe.CustomerParams_zero].
Proof. intros Hget. orch_unfold. rewrite Hget. done. Qed.

(** When the lookup fails a customer is created, with the identity as
    the metadata [user_id] and no identifier asked for. *)
Lemma getOrCreateCustomer_missing p ctx userID (st : State W) err w1 :
  customer_Get userID stripe.CustomerParams_zero (world st) = (Err err, w1) →
  requests (snd (services.getOrCreateCustomer p ctx userID st))
    = requests st
      ++ [ stripe.Req_customer_Get userID stripe.CustomerParams_zero;
           stripe.Req_customer_New (services.createParams userID) ]
  ∧ stripe.Metadata (services.createParams userID) !! "user_id" = Some userID
  ∧ fst (services.getOrCreateCustomer p ctx userID st)
    = match fst (customer_New (services.createParams userID) w1) with
      | Ok newCustomer => Ok (stripe.Customer_ID newCustomer)
      | Err e => Err e
      end.
Proof.
  intros Hget. orch_unfold. rewrite Hget. cbn [world requests].
  destruct (customer_New _ w1) as [[c|e] w2]; cbn;
    rewrite <- app_assoc; done.
Qed.

End CustomerResolution.

(** C1 (the code departs from it). On a processor that files a new
    customer under an identifier of its own, resolving the customer of
    identity 42 twice looks up 42 both times, finds nothing both times and
    creates a customer each time: the second invocation does not reuse the
    customer the first one created (cus_1) but creates another (cus_2), and
    two customers carrying the metadata user_id = 42 exist afterwards.  The
    same happens when [CreateSubscription] is called twice with that
    identity. *)
Theorem C1_second_resolution_creates_again :
  fst (services.getOrCreateCustomer pay0 ctx42 (strconv.FormatInt 42)
         (start Ledger.empty)) = Ok "cus_1"
  ∧ fst (services.getOrCreateCustomer pay0 ctx42 (strconv.FormatInt 42)
           (snd (services.getOrCreateCustomer pay0 ctx42 (strconv.FormatInt 42)
                   (start Ledger.empty)))) = Ok "cus_2"
  ∧ requests
      (snd (services.getOrCreateCustomer pay0 ctx42 (strconv.FormatInt 42)
              (snd (services.getOrCreateCustomer pay0 ctx42 (strconv.FormatInt 42)
                      (start Ledger.empty)))))
    = [ stripe.Req_customer_Get "42" stripe.CustomerParams_zero;
        stripe.Req_customer_New (services.createParams "42");
        stripe.Req_customer_Get "42" stripe.CustomerParams_zero;
        stripe.Req_customer_New (services.createParams "42") ]
  ∧ stripe.Customer_Metadata
      <$> Ledger.customers
            (world
               (snd (services.getOrCreateCustomer pay0 ctx42 (strconv.FormatInt 42)
                       (snd (services.getOrCreateCustomer pay0 ctx42
                               (strconv.FormatInt 42) (start Ledger.empty))))))
    = {[ "cus_1" := {[ "user_id" := "42" ]}; "cus_2" := {[ "user_id" := "42" ]} ]}
  ∧ dom (Ledger.customers
           (world
              (snd (services.CreateSubscription pay0 ctx42 1 "pm_test"
                      (snd (services.CreateSubscription pay0 ctx42 1 "pm_test"
                              (start Ledger.empty)))))))
    = {[ "cus_1"; "cus_3" ]}.
Proof. repeat split; vm_compute; reflexivity. Qed.

(* ===================================================================== *)
(** * The properties at work on concrete runs *)
(* ===================================================================== *)

(** On the ledger a canceled subscription stays canceled. *)
Lemma Ledger_cancel_is_final (stripeSubID : string) :
  @cancel_is_final Ledger.World _ stripeSubID.
Proof.
  intros w sub w' [Hget | Hcancel] Hstatus; cbn in *.
  - unfold Ledger.get_subscription in *.
    destruct (Ledger.subscriptions w !! stripeSubID) as [sub0|] eqn:Hl; [|done].
    injection Hget as <- <-. rewrite Hl. eauto.
  - unfold Ledger.cancel_subscription, Ledger.get_subscription in *.
    destruct (Ledger.subscriptions w !! stripeSubID) as [sub0|] eqn:Hl; [|done].
    injection Hcancel as <- <-. cbn. rewrite lookup_insert_eq. eauto.
Qed.

Lemma C4_status_mapping_total_witness :
  services.getPaymentStatusFromStripe stripe.SubscriptionStatusPastDue
  = pb.SubscriptionStatus_SUBSCRIPTION_STATUS_UNSPECIFIED.
Proof.
  destruct (@C4_status_mapping_total Ledger.World _) as (_ & _ & _ & _ & _ & Hother & _).
  apply Hother. intros Hin.
  repeat (apply elem_of_cons in Hin as [Hin|Hin]; [discriminate|]).
  by apply elem_of_nil in Hin.
Defined.


Lemma C6_empty_token_rejected_witness :
  fst (services.CreateSubscription pay0 ctx42 1 "" (start Ledger.empty))
    = ("", pb.Status_STATUS_INVALID_PAYMENT_METHOD)
  ∧ requests (snd (services.CreateSubscription pay0 ctx42 1 "" (start Ledger.empty)))
    = [].
Proof.
  destruct (C6_empty_token_rejected pay0 ctx42 42 1 (start Ledger.empty) eq_refl
              (or_introl eq_refl)) as (Hres & Hreq & _).
  split; [exact Hres | exact Hreq].
Defined.

Lemma C8_default_method_failure_tolerated_witness :
  fst (services.CreateSubscription pay0 ctx42 1 "pm_test" (start script_default_refused))
  = ("sub_1", pb.Status_STATUS_OK).
Proof.
  refine (proj1 (C8_default_method_failure_tolerated pay0 ctx42 42 1 "pm_test"
                   (start script_default_refused) "cus_9"
                   [ Scripted.A_method (Ok {| stripe.PaymentMethod_ID := "pm_test" |});
                     Scripted.A_customer (Err (stripe_Error "update refused"));
                     Scripted.A_subscription (Ok sub_basic) ]
                   {| stripe.PaymentMethod_ID := "pm_test" |}
                   [ Scripted.A_customer (Err (stripe_Error "update refused"));
                     Scripted.A_subscription (Ok sub_basic) ]
                   (Err (stripe_Error "update refused"))
                   [ Scripted.A_subscription (Ok sub_basic) ]
                   sub_basic [] eq_refl (or_introl eq_refl) _ _ _ _ _));
    [discriminate | vm_compute; reflexivity | reflexivity | reflexivity | reflexivity].
Defined.

Lemma C3_cancel_idempotent_witness :
  fst (services.CancelSubscription pay0 ctx42 "sub_1" (start ledger_with_sub))
    = pb.Status_STATUS_OK
  ∧ fst (services.CancelSubscription pay0 ctx42 "sub_1"
           (snd (services.CancelSubscription pay0 ctx42 "sub_1" (start ledger_with_sub))))
    = pb.Status_STATUS_OK
  ∧ requests
      (snd (services.CancelSubscription pay0 ctx42 "sub_1"
              (snd (services.CancelSubscription pay0 ctx42 "sub_1"
                      (start ledger_with_sub)))))
    = [ fetch_request "sub_1";
        stripe.Req_subscription_Cancel "sub_1" stripe.Build_SubscriptionCancelParams;
        fetch_request "sub_1" ].
Proof.
  destruct (C3_cancel_idempotent pay0 ctx42 "sub_1" (start ledger_with_sub))
    as (_ & _ & Htwice).
  destruct (Htwice (Ledger_cancel_is_final "sub_1") sub_basic ledger_with_sub)
    as (Hfirst & Hsecond & Hreq).
  - discriminate.
  - vm_compute. reflexivity.
  - intros _. eexists _, _. split; vm_compute; reflexivity.
  - split; [exact Hfirst | split; [exact Hsecond |]].
    rewrite Hreq. vm_compute. reflexivity.
Defined.

Lemma C5_ineffective_cancel_is_error_witness :
  fst (services.CancelSubscription pay0 ctx42 "sub_1" (start script_ineffective_cancel))
  = pb.Status_STATUS_INTERNAL_ERROR.
Proof.
  refine (proj1 (C5_ineffective_cancel_is_error pay0 ctx42 "sub_1"
                   (start script_ineffective_cancel) sub_basic
                   [ Scripted.A_subscription (Ok sub_basic) ] sub_basic []
                   _ eq_refl _ eq_refl) _); discriminate.
Defined.


Lemma C9_get_reencoding_fails_witness :
  ∃ err,
    fst (@grpc.GetSubscription _ (grpc.orchestrator pay0) ctx42 (get_request "sub_1")
           (start ledger_with_sub))
    = (None, Some err).
Proof.
  apply (proj1 (C9_get_reencoding_fails pay0 ctx42 (get_request "sub_1")
                  (start ledger_with_sub))).
  vm_compute. reflexivity.
Defined.

Lemma C10_plan_parse_error_dropped_witness :
  ∃ resp,
    fst (@grpc.GetSubscription _ (grpc.orchestrator pay0) ctx42 (get_request "sub_x")
           (start script_numbered))
    = (Some resp, None)
    ∧ pb.Id (pb.GetResp_Subscription resp) = 17
    ∧ pb.PlanId (pb.GetResp_Subscription resp) = 0.
Proof.
  destruct (@C10_plan_parse_error_dropped _ (grpc.orchestrator pay0) ctx42
              (get_request "sub_x") (start script_numbered) _ _ 17
              (surjective_pairing _))
    as (resp & e & Hrun & _ & Hid & _ & Hzero & _);
    [vm_compute; reflexivity | vm_compute; reflexivity |].
  exists resp. rewrite Hrun. split; [reflexivity | split; [exact Hid|]].
  apply Hzero. vm_compute. reflexivity.
Defined.

(** C10 as stated fails.  The record has the numeric identifier 1 and the
    plan identifier 9999999999x, which is not decimal-numeric; the handler
    answers a response and a nil error, but its PlanId is 2147483647, not
    0: the parser stops on the range error at the tenth nine and never
    reaches the letter. *)
Lemma C10_counterexample :
  fst (services.GetSubscription pay0 ctx42 "sub_x" (start script_nines))
  = {| data.ID := "1"; data.PlanID := "9999999999x"; data.StripeSubID := "sub_x";
       data.Status := pb.SubscriptionStatus_SUBSCRIPTION_STATUS_ACTIVE;
       data.CurrentPeriodEnd := 1702592000 |}
  ∧ strconv.ParseInt "1" 10 64 = (1, None)
  ∧ decimal_numeric "9999999999x" = false
  ∧ strconv.ParseInt "9999999999x" 10 32 = (2147483647, Some strconv.ErrRange)
  ∧ fst (@grpc.GetSubscription _ (grpc.orchestrator pay0) ctx42 (get_request "sub_x")
           (start script_nines))
    = (Some {| pb.GetResp_Subscription :=
                 {| pb.Id := 1;
                    pb.PlanId := 2147483647;
                    pb.StripeSubscriptionId := "sub_x";
                    pb.Status_ := pb.SubscriptionStatus_SUBSCRIPTION_STATUS_ACTIVE;
                    pb.CurrentPeriodEnd := 1702592000 |} |},
       None)
  ∧ (2147483647 : Z) ≠ 0.
Proof. repeat split; try (vm_compute; reflexivity). lia. Qed.

(* ===================================================================== *)
(** * The scenarios of the specification, run *)
(* ===================================================================== *)

(** Plan 1 with the token pm_test: the catalog gives price_basic_123 and
    the orchestration returns the new subscription's identifier with OK. *)
Example scenario_plan_1 :
  services.mapPlanIDToStripePrice 1 = "price_basic_123"
  ∧ fst (services.CreateSubscription pay0 ctx42 1 "pm_test" (start Ledger.empty))
    = ("sub_2", pb.Status_STATUS_OK).
Proof. split; vm_compute; reflexivity. Qed.

(** Plan 99: INVALID_PLAN at once, no request sent. *)
Example scenario_plan_99 :
  outcome (services.CreateSubscription pay0 ctx42 99 "pm_test") Ledger.empty
    = (("", pb.Status_STATUS_INVALID_PLAN), Ledger.empty)
  ∧ requests (snd (services.CreateSubscription pay0 ctx42 99 "pm_test"
                     (start Ledger.empty))) = [].
Proof. split; vm_compute; reflexivity. Qed.

(** The empty subscription identifier: INTERNAL_ERROR, no request sent. *)
Example scenario_cancel_empty :
  fst (services.CancelSubscription pay0 ctx42 "" (start ledger_with_sub))
    = pb.Status_STATUS_INTERNAL_ERROR
  ∧ requests (snd (services.CancelSubscription pay0 ctx42 "" (start ledger_with_sub)))
    = [].
Proof. split; vm_compute; reflexivity. Qed.

(** A context without a user: INVALID_USER, and the adapter turns it into
    an invalid-argument error. *)
Example scenario_no_user :
  fst (@grpc.CreateSubscription _ (grpc.orchestrator pay0)
         {| Value_UserIDKey := any_nil; Value_RequestIDKey := any_nil |}
         {| pb.CreateReq_PlanId := 1; pb.CreateReq_PaymentMethodId := "pm_test" |}
         (start Ledger.empty))
  = (None, Some (status_Error InvalidArgument "Invalid user")).
Proof. vm_compute. reflexivity. Qed.

(** [ParseInt] on a few strings. *)
Example ParseInt_samples :
  strconv.ParseInt "42" 10 64 = (42, None)
  ∧ strconv.ParseInt "-7" 10 32 = (-7, None)
  ∧ strconv.ParseInt "+5" 10 32 = (5, None)
  ∧ strconv.ParseInt "" 10 64 = (0, Some strconv.ErrSyntax)
  ∧ strconv.ParseInt "sub_1" 10 64 = (0, Some strconv.ErrSyntax)
  ∧ strconv.ParseInt "12x" 10 32 = (0, Some strconv.ErrSyntax)
  ∧ strconv.ParseInt "2147483648" 10 32 = (2147483647, Some strconv.ErrRange)
  ∧ strconv.ParseInt "-2147483648" 10 32 = (-2147483648, None)
  ∧ strconv.ParseInt "-2147483649" 10 32 = (-2147483648, Some strconv.ErrRange)
  ∧ strconv.ParseInt "9223372036854775808" 10 64
    = (9223372036854775807, Some strconv.ErrRange).
Proof. repeat split; vm_compute; reflexivity. Qed.

(* ===================================================================== *)
(** * Further properties of the orchestrator *)
(* ===================================================================== *)

Section Frames.
Context {W : Type} `{Env W}.

Ltac frame_tac :=
  intros [w rq en]; unfold outcome, sent; orch_unfold;
  repeat (first [ case_decide | orch_answer | case_match ]; simplify_eq;
          cbn [world requests entries fst snd] in * );
  rewrite ?app_nil_r, <- ?app_assoc; done.

Lemma getOrCreateCustomer_framed p ctx userID :
  framed (services.getOrCreateCustomer (W:=W) p ctx userID).
Proof. frame_tac. Qed.

Lemma CreateSubscription_framed p ctx planID paymentMethodID :
  framed (services.CreateSubscription (W:=W) p ctx planID paymentMethodID).
Proof. frame_tac. Qed.

Lemma CancelSubscription_framed p ctx stripeSubID :
  framed (services.CancelSubscription (W:=W) p ctx stripeSubID).
Proof. frame_tac. Qed.

Lemma GetSubscription_framed p ctx stripeSubID :
  framed (services.GetSubscription (W:=W) p ctx stripeSubID).
Proof. frame_tac. Qed.

End Frames.

Section CreateSubscriptionMore.
Context {W : Type} `{Env W}.

(** The run of [CreateSubscription] up to the end of customer resolution:
    with the three checks passed, what follows starts in the world
    customer resolution left, after the requests it sent. *)
Ltac enter_resolution Huser Hplan Htoken Hcust :=
  apply mapPlanIDToStripePrice_catalog in Hplan;
  unfold services.CreateSubscription; rewrite Huser;
  rewrite (decide_False (P := services.mapPlanIDToStripePrice _ = "")) by done;
  rewrite (decide_False (P := _ = "")) by done;
  unfold bind at 1; unfold services.PrintInfoWithContext at 1;
  unfold bind at 1;
  match goal with
  | |- context [services.getOrCreateCustomer ?p ?ctx ?u ?s] =>
      let Hf := fresh "Hframe" in
      destruct (getOrCreateCustomer_framed p ctx u s) as (Hf & Hfw & Hfr);
      destruct (services.getOrCreateCustomer p ctx u s) as [r st1];
      cbn [world requests fst snd] in Hf, Hfw, Hfr;
      rewrite Hcust in Hf, Hfw; cbn [fst snd] in Hf, Hfw; subst r
  end.

(** X1. The caller identity is checked first.  [CreateSubscription]
    returns INVALID_USER exactly when the context carries no 64-bit
    integer under the user key (nothing, or a value of another type), and
    then, whatever the plan and the token, the identifier is empty, no
    request is sent and the world is left as it was. *)
Theorem X1_identity_checked_first p ctx planID paymentMethodID (st : State W) :
  (snd (fst (services.CreateSubscription p ctx planID paymentMethodID st))
     = pb.Status_STATUS_INVALID_USER
   ↔ ∀ n, Value_UserIDKey ctx ≠ any_int64 n)
  ∧ ((∀ n, Value_UserIDKey ctx ≠ any_int64 n) →
     fst (services.CreateSubscription p ctx planID paymentMethodID st)
       = ("", pb.Status_STATUS_INVALID_USER)
     ∧ requests (snd (services.CreateSubscription p ctx planID paymentMethodID st))
       = requests st
     ∧ world (snd (services.CreateSubscription p ctx planID paymentMethodID st))
       = world st).
Proof.
  assert ((∀ n, Value_UserIDKey ctx ≠ any_int64 n) →
          fst (services.CreateSubscription p ctx planID paymentMethodID st)
            = ("", pb.Status_STATUS_INVALID_USER)
          ∧ requests (snd (services.CreateSubscription p ctx planID paymentMethodID st))
            = requests st
          ∧ world (snd (services.CreateSubscription p ctx planID paymentMethodID st))
            = world st) as Hnone.
  { intros Hno. unfold services.CreateSubscription, services.getUserFromContext.
    destruct (Value_UserIDKey ctx) as [|n| |] eqn:Hv; try done.
    by destruct (Hno n). }
  split; [|exact Hnone]. split.
  - intros Hstatus n Hv. revert Hstatus.
    unfold services.CreateSubscription, services.getUserFromContext. rewrite Hv.
    orch_unfold.
    repeat (first [ case_decide | orch_answer ]; cbn [world requests entries fst snd]);
      done.
  - intros Hno. by destruct (Hnone Hno) as (-> & _).
Qed.

(** X2. The plan is checked second, before the token.  With a resolvable
    identity [CreateSubscription] returns INVALID_PLAN exactly when the
    plan is neither 1 nor 2, whatever the token: a bad plan with an empty
    token is INVALID_PLAN, not INVALID_PAYMENT_METHOD. *)
Theorem X2_plan_checked_before_token p ctx userID planID paymentMethodID (st : State W) :
  services.getUserFromContext ctx = Ok userID →
  snd (fst (services.CreateSubscription p ctx planID paymentMethodID st))
    = pb.Status_STATUS_INVALID_PLAN
  ↔ planID ≠ 1 ∧ planID ≠ 2.
Proof.
  intros Huser. unfold services.CreateSubscription. rewrite Huser.
  destruct (decide (services.mapPlanIDToStripePrice planID = "")) as [E|E].
  - orch_unfold. split; [|done]. intros _.
    split; intros ->; done.
  - pose proof (proj1 (mapPlanIDToStripePrice_catalog planID) E) as Hcat.
    split; [|intros [? ?]; destruct Hcat; done].
    orch_unfold.
    repeat (first [ case_decide | orch_answer ]; cbn [world requests entries fst snd]);
      done.
Qed.

(** X3. A payment method the processor will not attach is reported as
    INVALID_PAYMENT_METHOD with the empty identifier, and the attachment
    is the last request sent: the customer resolved (or created) just
    before stays at the processor, no default is set and no subscription
    is created. *)
Theorem X3_attach_failure_stops p ctx userID planID paymentMethodID (w : W)
    customerID w1 err w2 :
  services.getUserFromContext ctx = Ok userID →
  planID = 1 ∨ planID = 2 →
  paymentMethodID ≠ "" →
  outcome (services.getOrCreateCustomer p ctx (strconv.FormatInt userID)) w
    = (Ok customerID, w1) →
  paymentmethod_Attach paymentMethodID (services.attachParams customerID) w1
    = (Err err, w2) →
  outcome (services.CreateSubscription p ctx planID paymentMethodID) w
    = (("", pb.Status_STATUS_INVALID_PAYMENT_METHOD), w2)
  ∧ sent (services.CreateSubscription p ctx planID paymentMethodID) w
    = sent (services.getOrCreateCustomer p ctx (strconv.FormatInt userID)) w
      ++ [ stripe.Req_paymentmethod_Attach paymentMethodID
             (services.attachParams customerID) ].
Proof.
  intros Huser Hplan Htoken Hcust Hattach.
  unfold outcome, sent, start.
  enough (∃ st', services.CreateSubscription p ctx planID paymentMethodID
                   (mkState w [] [])
                 = (("", pb.Status_STATUS_INVALID_PAYMENT_METHOD), st')
                 ∧ world st' = w2
                 ∧ requests st'
                   = requests (snd (services.getOrCreateCustomer p ctx
                                      (strconv.FormatInt userID) (mkState w [] [])))
                     ++ [ stripe.Req_paymentmethod_Attach paymentMethodID
                            (services.attachParams customerID) ])
    as (st' & Hrun & Hw & Hreq);
    [rewrite Hrun; cbn [fst snd]; by rewrite Hw, Hreq|].
  enter_resolution Huser Hplan Htoken Hcust.
  orch_unfold. rewrite Hfw, Hattach. cbn [world requests entries].
  eexists; repeat split. by rewrite Hfr.
Qed.

(** X4. When the customer can neither be found nor created the result is
    the empty identifier with INTERNAL_ERROR, after exactly two requests:
    the lookup and the creation.  No payment method is attached. *)
Theorem X4_customer_failure_is_internal p ctx userID planID paymentMethodID (w : W)
    e1 w1 e2 w2 :
  services.getUserFromContext ctx = Ok userID →
  planID = 1 ∨ planID = 2 →
  paymentMethodID ≠ "" →
  customer_Get (strconv.FormatInt userID) stripe.CustomerParams_zero w = (Err e1, w1) →
  customer_New (services.createParams (strconv.FormatInt userID)) w1 = (Err e2, w2) →
  outcome (services.CreateSubscription p ctx planID paymentMethodID) w
    = (("", pb.Status_STATUS_INTERNAL_ERROR), w2)
  ∧ sent (services.CreateSubscription p ctx planID paymentMethodID) w
    = [ stripe.Req_customer_Get (strconv.FormatInt userID) stripe.CustomerParams_zero;
        stripe.Req_customer_New (services.createParams (strconv.FormatInt userID)) ].
Proof.
  intros Huser Hplan Htoken Hget Hnew.
  apply mapPlanIDToStripePrice_catalog in Hplan.
  unfold outcome, sent, services.CreateSubscription. rewrite Huser.
  rewrite !decide_False by done.
  orch_unfold. rewrite Hget. cbn [world requests entries]. rewrite Hnew. done.
Qed.

(** X5. Once the payment method is attached, [CreateSubscription] always
    goes on to send two more requests, in this order and for the customer
    that was resolved: the update that makes the method the default, and
    the creation of the subscription at the catalog price.  The answer to
    the creation alone decides the result: the new subscription's
    identifier with OK, or the empty identifier with INTERNAL_ERROR. *)
Theorem X5_after_attachment p ctx userID planID paymentMethodID (w : W)
    customerID w1 method w2 updated w3 created w4 :
  services.getUserFromContext ctx = Ok userID →
  planID = 1 ∨ planID = 2 →
  paymentMethodID ≠ "" →
  outcome (services.getOrCreateCustomer p ctx (strconv.FormatInt userID)) w
    = (Ok customerID, w1) →
  paymentmethod_Attach paymentMethodID (services.attachParams customerID) w1
    = (Ok method, w2) →
  customer_Update customerID (services.defaultMethodParams paymentMethodID) w2
    = (updated, w3) →
  subscription_New
    (services.subscriptionParams customerID (services.mapPlanIDToStripePrice planID)) w3
    = (created, w4) →
  outcome (services.CreateSubscription p ctx planID paymentMethodID) w
    = (match created with
       | Ok subscription => (stripe.Sub_ID subscription, pb.Status_STATUS_OK)
       | Err _ => ("", pb.Status_STATUS_INTERNAL_ERROR)
       end, w4)
  ∧ sent (services.CreateSubscription p ctx planID paymentMethodID) w
    = sent (services.getOrCreateCustomer p ctx (strconv.FormatInt userID)) w
      ++ [ stripe.Req_paymentmethod_Attach paymentMethodID
             (services.attachParams customerID);
           stripe.Req_customer_Update customerID
             (services.defaultMethodParams paymentMethodID);
           stripe.Req_subscription_New
             (services.subscriptionParams customerID
                (services.mapPlanIDToStripePrice planID)) ].
Proof.
  intros Huser Hplan Htoken Hcust Hattach Hupdate Hnew.
  unfold outcome, sent, start.
  enough (∃ st', services.CreateSubscription p ctx planID paymentMethodID
                   (mkState w [] [])
                 = (match created with
                    | Ok subscription => (stripe.Sub_ID subscription, pb.Status_STATUS_OK)
                    | Err _ => ("", pb.Status_STATUS_INTERNAL_ERROR)
                    end, st')
                 ∧ world st' = w4
                 ∧ requests st'
                   = requests (snd (services.getOrCreateCustomer p ctx
                                      (strconv.FormatInt userID) (mkState w [] [])))
                     ++ [ stripe.Req_paymentmethod_Attach paymentMethodID
                            (services.attachParams customerID);
                          stripe.Req_customer_Update customerID
                            (services.defaultMethodParams paymentMethodID);
                          stripe.Req_subscription_New
                            (services.subscriptionParams customerID
                               (services.mapPlanIDToStripePrice planID)) ])
    as (st' & Hrun & Hw & Hreq);
    [rewrite Hrun; cbn [fst snd]; by rewrite Hw, Hreq|].
  enter_resolution Huser Hplan Htoken Hcust.
  orch_unfold. rewrite Hfw, Hattach. cbn [world requests entries].
  rewrite Hupdate. destruct updated; cbn [world requests entries];
    rewrite Hnew; destruct created; cbn [world requests entries];
    eexists; repeat split; rewrite Hfr, <- ?app_assoc; done.
Qed.

(** X6. [CreateSubscription] never returns an identifier with a failure:
    unless the status is OK the identifier is empty.  And when the status
    is OK the last request sent was the creation of a subscription. *)
Theorem X6_identifier_only_with_OK p ctx planID paymentMethodID (st : State W) :
  (snd (fst (services.CreateSubscription p ctx planID paymentMethodID st))
     ≠ pb.Status_STATUS_OK →
   fst (fst (services.CreateSubscription p ctx planID paymentMethodID st)) = "")
  ∧ (snd (fst (services.CreateSubscription p ctx planID paymentMethodID st))
       = pb.Status_STATUS_OK →
     ∃ params,
       last (requests (snd (services.CreateSubscription p ctx planID paymentMethodID st)))
       = Some (stripe.Req_subscription_New params)).
Proof.
  unfold services.CreateSubscription.
  destruct (services.getUserFromContext ctx) as [userID|err]; orch_unfold;
    repeat (first [ case_decide | orch_answer ]; cbn [world requests entries fst snd]);
    split; try done; intros _; eexists; apply last_snoc.
Qed.

End CreateSubscriptionMore.

Section CancelAndGetMore.
Context {W : Type} `{Env W}.

(** X7. [CancelSubscription] returns OK or INTERNAL_ERROR, never one of
    the INVALID statuses.  For the empty identifier it sends nothing and
    leaves the world as it was; otherwise it sends the fetch, followed by
    at most one cancel request; and the cancel request is sent exactly
    when the fetch answered a subscription that is not yet CANCELED. *)
Theorem X7_cancel_requests p ctx stripeSubID (w : W) :
  (fst (outcome (services.CancelSubscription p ctx stripeSubID) w) = pb.Status_STATUS_OK
   ∨ fst (outcome (services.CancelSubscription p ctx stripeSubID) w)
     = pb.Status_STATUS_INTERNAL_ERROR)
  ∧ (stripeSubID = "" →
     outcome (services.CancelSubscription p ctx stripeSubID) w
       = (pb.Status_STATUS_INTERNAL_ERROR, w)
     ∧ sent (services.CancelSubscription p ctx stripeSubID) w = [])
  ∧ (stripeSubID ≠ "" →
     sent (services.CancelSubscription p ctx stripeSubID) w
       = [fetch_request stripeSubID]
     ∨ sent (services.CancelSubscription p ctx stripeSubID) w
       = [ fetch_request stripeSubID;
           stripe.Req_subscription_Cancel stripeSubID
             stripe.Build_SubscriptionCancelParams ])
  ∧ (stripe.Req_subscription_Cancel stripeSubID stripe.Build_SubscriptionCancelParams
       ∈ sent (services.CancelSubscription p ctx stripeSubID) w
     ↔ stripeSubID ≠ ""
       ∧ ∃ existingSub,
           fst (subscription_Get stripeSubID (Some stripe.SubscriptionParams_zero) w)
             = Ok existingSub
           ∧ stripe.Sub_Status existingSub ≠ stripe.SubscriptionStatusCanceled).
Proof.
  unfold outcome, sent, fetch_request. orch_unfold.
  destruct (decide (stripeSubID = "")) as [Hid|Hid]; cbn [fst snd world requests];
    [cbn [app]; rewrite ?elem_of_cons, ?elem_of_nil;
     repeat split; auto; try done; intros (? & _); done|].
  destruct (subscription_Get _ _ w) as [[existingSub|e] w1] eqn:Hget;
    cbn [fst snd world requests entries];
    [destruct (decide (stripe.Sub_Status existingSub = _)) as [Hc|Hc];
     cbn [fst snd world requests entries];
     [|destruct (subscription_Cancel _ _ w1) as [[subscription|e] w2];
       cbn [fst snd world requests entries];
       try case_decide; cbn [fst snd world requests entries]]|];
    cbn [app]; rewrite ?elem_of_cons, ?elem_of_nil;
    repeat split; auto; try done;
    try (intros; exfalso; intuition congruence);
    try (intros; eexists; split; [reflexivity|done]);
    try (intros (_ & ? & [= <-] & ?); done);
    try (intros (_ & ? & [=] & ?)).
Qed.

(** X8. What decides [CancelSubscription] for a non-empty identifier: it
    returns OK exactly when the fetch succeeds and either shows the
    subscription CANCELED already or is followed by a cancel request that
    succeeds and shows it CANCELED.  A fetch that fails gives
    INTERNAL_ERROR with no cancel request sent; a cancel request that
    fails gives INTERNAL_ERROR too. *)
Theorem X8_cancel_outcome p ctx stripeSubID (w : W) fetched w1 :
  stripeSubID ≠ "" →
  subscription_Get stripeSubID (Some stripe.SubscriptionParams_zero) w = (fetched, w1) →
  (fst (outcome (services.CancelSubscription p ctx stripeSubID) w) = pb.Status_STATUS_OK
   ↔ ∃ existingSub,
       fetched = Ok existingSub
       ∧ (stripe.Sub_Status existingSub = stripe.SubscriptionStatusCanceled
          ∨ ∃ subscription,
              fst (subscription_Cancel stripeSubID
                     stripe.Build_SubscriptionCancelParams w1) = Ok subscription
              ∧ stripe.Sub_Status subscription = stripe.SubscriptionStatusCanceled))
  ∧ (∀ err, fetched = Err err →
       outcome (services.CancelSubscription p ctx stripeSubID) w
         = (pb.Status_STATUS_INTERNAL_ERROR, w1)
       ∧ sent (services.CancelSubscription p ctx stripeSubID) w
         = [fetch_request stripeSubID])
  ∧ (∀ existingSub err w2,
       fetched = Ok existingSub →
       stripe.Sub_Status existingSub ≠ stripe.SubscriptionStatusCanceled →
       subscription_Cancel stripeSubID stripe.Build_SubscriptionCancelParams w1
         = (Err err, w2) →
       outcome (services.CancelSubscription p ctx stripeSubID) w
         = (pb.Status_STATUS_INTERNAL_ERROR, w2)).
Proof.
  intros Hid Hget. unfold outcome, sent, fetch_request. orch_unfold.
  rewrite decide_False by done. cbn [fst snd world requests entries].
  rewrite Hget. cbn [fst snd world requests entries].
  split; [|split].
  - destruct fetched as [existingSub|e]; cbn [fst snd world requests entries].
    + destruct (decide (stripe.Sub_Status existingSub = _)) as [Hc|Hc];
        cbn [fst snd world requests entries].
      * split; [eauto|done].
      * destruct (subscription_Cancel _ _ w1) as [[subscription|e] w2];
          cbn [fst snd world requests entries].
        -- case_decide; cbn [fst].
           ++ split; [eauto 10|done].
           ++ split; [done|].
              intros (? & [= <-] & [?|(? & [= <-] & ?)]); done.
        -- split; [done|].
           intros (? & [= <-] & [?|(? & [=] & ?)]); done.
    + split; [done|]. intros (? & [=] & _).
  - intros err ->. done.
  - intros existingSub err w2 -> Hc Hcancel.
    rewrite decide_False by done. cbn [fst snd world requests entries].
    rewrite Hcancel. done.
Qed.


(** X10. Nothing an operation answers or sends depends on the logger, on
    the token lifetime or on the request identifier of the context: two
    services that differ in these only, called the same way in the same
    world, answer the same, leave the same world and send the same
    requests. *)
Theorem X10_logging_does_not_interfere p p' ctx ctx' planID paymentMethodID
    stripeSubID (w : W) :
  Value_UserIDKey ctx = Value_UserIDKey ctx' →
  (outcome (services.CreateSubscription p ctx planID paymentMethodID) w
     = outcome (services.CreateSubscription p' ctx' planID paymentMethodID) w
   ∧ sent (services.CreateSubscription p ctx planID paymentMethodID) w
     = sent (services.CreateSubscription p' ctx' planID paymentMethodID) w)
  ∧ (outcome (services.CancelSubscription p ctx stripeSubID) w
       = outcome (services.CancelSubscription p' ctx' stripeSubID) w
     ∧ sent (services.CancelSubscription p ctx stripeSubID) w
       = sent (services.CancelSubscription p' ctx' stripeSubID) w)
  ∧ (outcome (services.GetSubscription p ctx stripeSubID) w
       = outcome (services.GetSubscription p' ctx' stripeSubID) w
     ∧ sent (services.GetSubscription p ctx stripeSubID) w
       = sent (services.GetSubscription p' ctx' stripeSubID) w).
Proof.
  intros Huser. unfold outcome, sent.
  unfold services.CreateSubscription, services.getUserFromContext.
  rewrite <- Huser. orch_unfold.
  repeat split;
    repeat (first [ case_decide | orch_answer | case_match ]; simplify_eq;
            cbn [world requests entries fst snd] in * );
    done.
Qed.

(** X11. Canceling and reading do not look at the caller.  Whatever the
    context carries under the user key, and even when it carries nothing,
    [CancelSubscription] and [GetSubscription] answer and act as they do
    for any other caller. *)
Theorem X11_cancel_and_get_ignore_caller p ctx ctx' stripeSubID (w : W) :
  outcome (services.CancelSubscription p ctx stripeSubID) w
    = outcome (services.CancelSubscription p ctx' stripeSubID) w
  ∧ sent (services.CancelSubscription p ctx stripeSubID) w
    = sent (services.CancelSubscription p ctx' stripeSubID) w
  ∧ outcome (services.GetSubscription p ctx stripeSubID) w
    = outcome (services.GetSubscription p ctx' stripeSubID) w
  ∧ sent (services.GetSubscription p ctx stripeSubID) w
    = sent (services.GetSubscription p ctx' stripeSubID) w.
Proof.
  unfold outcome, sent. orch_unfold.
  repeat split;
    repeat (first [ case_decide | orch_answer | case_match ]; simplify_eq;
            cbn [world requests entries fst snd] in * );
    done.
Qed.

End CancelAndGetMore.

(* ===================================================================== *)
(** * Decimal numerals: formatting and parsing *)
(* ===================================================================== *)

Section DecimalRoundTrip.

Lemma byte_pretty_N_char (d : N) :
  (d < 10)%N → strconv.byte (pretty_N_char d) = 48 + Z.of_N d.
Proof.
  intros Hd.
  assert (d = 0 ∨ d = 1 ∨ d = 2 ∨ d = 3 ∨ d = 4 ∨ d = 5 ∨ d = 6 ∨ d = 7
          ∨ d = 8 ∨ d = 9)%N as Hcases by lia.
  repeat (destruct Hcases as [-> | Hcases]; [reflexivity|]). by subst.
Qed.

(** One turn of the loop on a digit that fits. *)
Lemma ParseUint_loop_digit maxVal (d : N) s n :
  (d < 10)%N → 0 ≤ n → n * 10 + Z.of_N d ≤ maxVal → maxVal ≤ strconv.maxUint64 →
  strconv.ParseUint_loop 10 (strconv.maxUint64 / 10 + 1) maxVal
    (String (pretty_N_char d) s) n
  = strconv.ParseUint_loop 10 (strconv.maxUint64 / 10 + 1) maxVal s
      (n * 10 + Z.of_N d).
Proof.
  intros Hd Hn Hfit Hmax. cbn [strconv.ParseUint_loop].
  rewrite (byte_pretty_N_char d Hd).
  assert (strconv.maxUint64 = 18446744073709551615) as Hu by reflexivity.
  rewrite Hu in *.
  change (18446744073709551615 / 10 + 1) with 1844674407370955162.
  replace ((48 <=? 48 + Z.of_N d) && (48 + Z.of_N d <=? 57)) with true
    by (symmetry; apply andb_true_intro; split; apply Z.leb_le; lia).
  replace (48 + Z.of_N d - 48) with (Z.of_N d) by lia.
  replace (10 <=? Z.of_N d) with false by (symmetry; apply Z.leb_gt; lia).
  replace (1844674407370955162 <=? n) with false by (symmetry; apply Z.leb_gt; lia).
  cbv zeta.
  rewrite (Z.mod_small (n * 10 + Z.of_N d) (2 ^ 64)) by lia.
  replace (n * 10 + Z.of_N d <? n * 10) with false by (symmetry; apply Z.ltb_ge; lia).
  replace (maxVal <? n * 10 + Z.of_N d) with false by (symmetry; apply Z.ltb_ge; lia).
  reflexivity.
Qed.

(** The loop reads back the digits [pretty] wrote. *)
Lemma ParseUint_loop_pretty_N_go maxVal (x : N) s :
  (0 < x)%N → Z.of_N x ≤ maxVal → maxVal ≤ strconv.maxUint64 →
  strconv.ParseUint_loop 10 (strconv.maxUint64 / 10 + 1) maxVal (pretty_N_go x s) 0
  = strconv.ParseUint_loop 10 (strconv.maxUint64 / 10 + 1) maxVal s (Z.of_N x).
Proof.
  revert s. induction (N.lt_wf_0 x) as [x _ IH]. intros s Hpos Hfit Hmax.
  rewrite pretty_N_go_step by done.
  pose proof (N.mod_lt x 10 ltac:(done)) as Hmod.
  pose proof (N.div_mod x 10 ltac:(done)) as Hdiv.
  destruct (decide (x `div` 10 = 0)%N) as [Hz|Hnz].
  - rewrite Hz, pretty_N_go_0.
    rewrite ParseUint_loop_digit; [|lia..]. f_equal. lia.
  - assert (x `div` 10 < x)%N as Hlt by (apply N.div_lt; lia).
    apply N.neq_0_lt_0 in Hnz.
    rewrite IH; [|done|done|lia|done].
    rewrite ParseUint_loop_digit; [|lia..]. f_equal. lia.
Qed.

Lemma pretty_N_go_head (x : N) s :
  (0 < x)%N →
  ∃ d rest, (d < 10)%N ∧ pretty_N_go x s = String (pretty_N_char d) rest.
Proof.
  revert s. induction (N.lt_wf_0 x) as [x _ IH]. intros s Hpos.
  rewrite pretty_N_go_step by done.
  destruct (decide (x `div` 10 = 0)%N) as [Hz|Hnz].
  - rewrite Hz, pretty_N_go_0. eexists _, _. split; [|done].
    by apply N.mod_lt.
  - apply N.neq_0_lt_0 in Hnz. apply IH; [apply N.div_lt; lia|done].
Qed.

Lemma pretty_N_char_not_sign (d : N) :
  pretty_N_char d ≠ "+"%char ∧ pretty_N_char d ≠ "-"%char.
Proof. unfold pretty_N_char. repeat case_match; done. Qed.

(** [ParseUint] reads back a natural number that fits. *)
Lemma ParseUint_pretty (x : N) bitSize :
  0 ≤ bitSize ≤ 64 → Z.of_N x ≤ 2 ^ bitSize - 1 →
  strconv.ParseUint (pretty x) 10 bitSize = (Z.of_N x, None).
Proof.
  intros Hbits Hfit.
  assert (2 ^ bitSize - 1 ≤ strconv.maxUint64) as Hmax.
  { unfold strconv.maxUint64.
    pose proof (Z.pow_le_mono_r 2 bitSize 64 ltac:(lia) ltac:(lia)). lia. }
  unfold pretty, pretty_N. case_decide as Hx.
  - subst x. unfold strconv.ParseUint. rewrite decide_False by done.
    change "0" with (String (pretty_N_char 0) "").
    rewrite ParseUint_loop_digit by (cbn; lia). done.
  - destruct (pretty_N_go_head x "" ltac:(lia)) as (d & rest & _ & Hhead).
    unfold strconv.ParseUint. rewrite decide_False by (rewrite Hhead; done).
    rewrite ParseUint_loop_pretty_N_go by lia. done.
Qed.

(** [ParseInt] reads back what [FormatInt] wrote, for every integer of
    the size asked for. *)
Lemma ParseInt_FormatInt (z : Z) bitSize :
  1 ≤ bitSize ≤ 64 → - 2 ^ (bitSize - 1) ≤ z < 2 ^ (bitSize - 1) →
  strconv.ParseInt (strconv.FormatInt z) 10 bitSize = (z, None).
Proof.
  intros Hbits Hz.
  assert (2 ^ bitSize = 2 * 2 ^ (bitSize - 1)) as Hpow.
  { rewrite <- Z.pow_succ_r by lia. f_equal. lia. }
  assert (0 < 2 ^ (bitSize - 1)) as Hpos by (apply Z.pow_pos_nonneg; lia).
  unfold strconv.FormatInt. destruct z as [|q|q].
  - change (pretty 0) with (pretty 0%N).
    change (strconv.ParseInt (pretty 0%N) 10 bitSize) with
      (let '(un, err) := strconv.ParseUint (pretty 0%N) 10 bitSize in
       match err with
       | Some strconv.ErrSyntax => (0, Some strconv.ErrSyntax)
       | _ => if negb false && (2 ^ (bitSize - 1) <=? un)
              then (2 ^ (bitSize - 1) - 1, Some strconv.ErrRange)
              else if false && (2 ^ (bitSize - 1) <? un)
                   then (- 2 ^ (bitSize - 1), Some strconv.ErrRange)
                   else (un, None)
       end).
    rewrite ParseUint_pretty by lia. cbn [negb andb Z.of_N].
    replace (2 ^ (bitSize - 1) <=? 0) with false by (symmetry; apply Z.leb_gt; lia).
    done.
  - change (pretty (Z.pos q)) with (pretty (N.pos q)).
    destruct (pretty_N_go_head (N.pos q) "" ltac:(lia)) as (d & rest & _ & Hhead).
    assert (pretty (N.pos q) = String (pretty_N_char d) rest) as Hp.
    { unfold pretty, pretty_N. by rewrite decide_False. }
    destruct (pretty_N_char_not_sign d) as [Hplus Hminus].
    unfold strconv.ParseInt. rewrite Hp.
    rewrite bool_decide_eq_false_2 by done. rewrite !decide_False by done.
    rewrite <- Hp. rewrite ParseUint_pretty by (cbn [Z.of_N]; lia).
    cbn [negb andb Z.of_N].
    replace (2 ^ (bitSize - 1) <=? Z.pos q) with false
      by (symmetry; apply Z.leb_gt; lia).
    done.
  - change (pretty (Z.neg q)) with (String "-" (pretty (N.pos q))).
    unfold strconv.ParseInt.
    rewrite bool_decide_eq_true_2 by done.
    rewrite decide_False by done. rewrite decide_True by done.
    rewrite ParseUint_pretty by (cbn [Z.of_N]; lia).
    cbn [negb andb Z.of_N].
    replace (2 ^ (bitSize - 1) <? Z.pos q) with false
      by (symmetry; apply Z.ltb_ge; lia).
    done.
Qed.

End DecimalRoundTrip.

(* ===================================================================== *)
(** * Further properties of the transport adapter *)
(* ===================================================================== *)

Section AdapterMore.
Context {S : Type} `{grpc.Payment S}.

(** X12. The create and cancel handlers answer a response or an error,
    never both and never neither.  A response is answered exactly when the
    service reports OK, and it carries OK and the identifier the service
    returned; otherwise the error is a gRPC status: InvalidArgument for
    INVALID_USER, INVALID_PLAN and INVALID_PAYMENT_METHOD, Internal for
    anything else.  The service's state is passed on untouched. *)
Theorem X12_handlers_answer_or_error ctx rc rx (st : S) :
  (fst (grpc.CreateSubscription ctx rc st)
   = match fst (grpc.pay_CreateSubscription ctx (pb.CreateReq_PlanId rc)
                  (pb.CreateReq_PaymentMethodId rc) st) with
     | (id, pb.Status_STATUS_OK) =>
         (Some {| pb.CreateResp_SubStripeId := id;
                  pb.CreateResp_Status := pb.Status_STATUS_OK |}, None)
     | (_, pb.Status_STATUS_INTERNAL_ERROR) =>
         (None, Some (status_Error Internal "internal error!"))
     | (_, pb.Status_STATUS_INVALID_USER) =>
         (None, Some (status_Error InvalidArgument "Invalid user"))
     | (_, pb.Status_STATUS_INVALID_PLAN) =>
         (None, Some (status_Error InvalidArgument "invalid plan"))
     | (_, pb.Status_STATUS_INVALID_PAYMENT_METHOD) =>
         (None, Some (status_Error InvalidArgument "invalid paying method"))
     end
   ∧ snd (grpc.CreateSubscription ctx rc st)
     = snd (grpc.pay_CreateSubscription ctx (pb.CreateReq_PlanId rc)
              (pb.CreateReq_PaymentMethodId rc) st))
  ∧ (fst (grpc.CancelSubscription ctx rx st)
     = match fst (grpc.pay_CancelSubscription ctx (pb.CancelReq_SubStripeId rx) st) with
       | pb.Status_STATUS_OK =>
           (Some {| pb.CancelResp_Status := pb.Status_STATUS_OK |}, None)
       | pb.Status_STATUS_INTERNAL_ERROR =>
           (None, Some (status_Error Internal "internal error!"))
       | pb.Status_STATUS_INVALID_USER =>
           (None, Some (status_Error InvalidArgument "Invalid user"))
       | pb.Status_STATUS_INVALID_PLAN =>
           (None, Some (status_Error InvalidArgument "invalid plan"))
       | pb.Status_STATUS_INVALID_PAYMENT_METHOD =>
           (None, Some (status_Error InvalidArgument "invalid paying method"))
       end
     ∧ snd (grpc.CancelSubscription ctx rx st)
       = snd (grpc.pay_CancelSubscription ctx (pb.CancelReq_SubStripeId rx) st))
  ∧ (∀ resp err,
       fst (grpc.CreateSubscription ctx rc st) = (resp, err) →
       (is_Some resp ∧ err = None)
       ∨ (resp = None
          ∧ ∃ e, err = Some e
                 ∧ (status_Code e = Some InvalidArgument
                    ∨ status_Code e = Some Internal)))
  ∧ (∀ resp err,
       fst (grpc.CancelSubscription ctx rx st) = (resp, err) →
       (is_Some resp ∧ err = None)
       ∨ (resp = None
          ∧ ∃ e, err = Some e
                 ∧ (status_Code e = Some InvalidArgument
                    ∨ status_Code e = Some Internal))).
Proof.
  unfold grpc.CreateSubscription, grpc.CancelSubscription.
  destruct (grpc.pay_CreateSubscription _ _ _ st) as [[id status] st1].
  destruct (grpc.pay_CancelSubscription _ _ st) as [status' st2].
  cbn [fst snd].
  destruct status, status'; cbn;
    (repeat split; try done; intros ? ? [= <- <-]; cbn; eauto 10).
Qed.

(** X13. What the read handler answers once the record's identifier
    parses: the numeric identifier, the subscription identifier of the
    request (echoed from the request, not read from the record), and the
    record's status and period end unchanged.  The decimal numerals are
    read back exactly: a record whose identifier is the numeral of a
    64-bit integer [n] and whose plan identifier is the numeral of a
    32-bit integer [m] gives Id [n] and PlanId [m]. *)
Theorem X13_get_handler_numeric ctx r (st : S) subscription st' n m :
  grpc.pay_GetSubscription ctx (pb.GetReq_SubStripeId r) st = (subscription, st') →
  - 2 ^ 63 ≤ n < 2 ^ 63 →
  - 2 ^ 31 ≤ m < 2 ^ 31 →
  data.ID subscription = strconv.FormatInt n →
  data.PlanID subscription = strconv.FormatInt m →
  grpc.GetSubscription ctx r st
  = ((Some {| pb.GetResp_Subscription :=
                {| pb.Id := n;
                   pb.PlanId := m;
                   pb.StripeSubscriptionId := pb.GetReq_SubStripeId r;
                   pb.Status_ := data.Status subscription;
                   pb.CurrentPeriodEnd := data.CurrentPeriodEnd subscription |} |},
      None), st').
Proof.
  intros Hget Hn Hm Hid Hplan.
  rewrite (GetSubscription_handler _ _ _ _ _ Hget), Hid, Hplan.
  rewrite (ParseInt_FormatInt n 64) by lia.
  rewrite (ParseInt_FormatInt m 32) by lia.
  cbn [fst]. do 5 f_equal.
  unfold int32. rewrite Z.mod_small by lia. lia.
Qed.

End AdapterMore.

Section AdapterOverOrchestrator.
Context {W : Type} `{Env W}.

(** X14. Through the cancel handler every failure of the orchestrator is
    one and the same internal error: it never answers InvalidArgument, not
    even for the empty identifier, which is a fault of the request. *)
Theorem X14_cancel_handler_errors_are_internal p ctx r (st : State W) :
  (fst (@grpc.CancelSubscription _ (grpc.orchestrator p) ctx r st)
     = (Some {| pb.CancelResp_Status := pb.Status_STATUS_OK |}, None)
   ∨ fst (@grpc.CancelSubscription _ (grpc.orchestrator p) ctx r st)
     = (None, Some (status_Error Internal "internal error!")))
  ∧ (pb.CancelReq_SubStripeId r = "" →
     fst (@grpc.CancelSubscription _ (grpc.orchestrator p) ctx r st)
     = (None, Some (status_Error Internal "internal error!"))).
Proof.
  unfold grpc.CancelSubscription.
  cbn [grpc.pay_CancelSubscription grpc.orchestrator].
  orch_unfold.
  split.
  - repeat (first [ case_decide | orch_answer ]; cbn [world requests entries fst snd]);
      first [ done | auto ].
  - intros ->. rewrite decide_True by done. done.
Qed.

(** X15. A call without a caller identity is turned away by the create
    handler with the InvalidArgument error "Invalid user", before any
    request to the processor; and a response of the create handler always
    carries the identifier of a subscription the processor has just
    created. *)
Theorem X15_create_handler_over_orchestrator p ctx r (st : State W) :
  ((∀ n, Value_UserIDKey ctx ≠ any_int64 n) →
   fst (@grpc.CreateSubscription _ (grpc.orchestrator p) ctx r st)
     = (None, Some (status_Error InvalidArgument "Invalid user"))
   ∧ requests (snd (@grpc.CreateSubscription _ (grpc.orchestrator p) ctx r st))
     = requests st)
  ∧ (∀ resp,
       fst (fst (@grpc.CreateSubscription _ (grpc.orchestrator p) ctx r st))
         = Some resp →
       pb.CreateResp_Status resp = pb.Status_STATUS_OK
       ∧ ∃ params,
           last (requests
                   (snd (@grpc.CreateSubscription _ (grpc.orchestrator p) ctx r st)))
           = Some (stripe.Req_subscription_New params)).
Proof.
  unfold grpc.CreateSubscription.
  cbn [grpc.pay_CreateSubscription grpc.orchestrator].
  unfold services.CreateSubscription, services.getUserFromContext.
  destruct (Value_UserIDKey ctx) as [|n| |] eqn:Hv; orch_unfold.
  2: { split; [intros Hno; by destruct (Hno n)|].
       repeat (first [ case_decide | orch_answer ];
               cbn [world requests entries fst snd]);
         intros resp Hresp; simplify_eq;
         (split; [done|eexists; apply last_snoc]). }
  all: (split; [done|intros resp Hresp; simplify_eq]).
Qed.

End AdapterOverOrchestrator.

(* ===================================================================== *)
(** * The webhook entry point and the payment-intent helper *)
(* ===================================================================== *)

Ltac rest_unfold :=
  unfold services_rest.HandleStripeWebhook, services_rest.handlePaymentIntent,
    services_rest.PrintWarnWithContext, services_rest.logging,
    services_rest.intent_call, local,
    services.PrintInfoWithContext, services.PrintErrorWithContext,
    bind, ret in *;
  cbn [world requests entries fst snd intents.orch intents.intent_requests] in *.

Section Webhook.
Context {W : Type} `{Env W} `{webhook.Verifier W}.

(** What [printWithContext] leaves in the log: the earlier entries, and
    at most the one new entry, whose properties are the caller's with the
    request identifier of the context added. *)
Lemma printWithContext_elem l ctx level message properties out e :
  e ∈ jsonlog.printWithContext l ctx level message properties out →
  e ∈ out
  ∨ (jsonlog.Entry_Level e = level
     ∧ jsonlog.Entry_Message e = message
     ∧ ∀ k, k ≠ "request_id" →
            jsonlog.Entry_Properties e !! k = properties !! k).
Proof.
  unfold jsonlog.printWithContext. case_match; [auto|].
  rewrite elem_of_app, list_elem_of_singleton. intros [?| ->]; [auto|right].
  cbn. repeat split. intros k Hk.
  destruct (Value_RequestIDKey ctx); try done. by rewrite lookup_insert_ne.
Qed.

Lemma printWithContext_last l ctx level message properties out :
  jsonlog.minLevel l ≤ level →
  ∃ e, last (jsonlog.printWithContext l ctx level message properties out) = Some e
       ∧ jsonlog.Entry_Level e = level
       ∧ jsonlog.Entry_Message e = message
       ∧ ∀ k, k ≠ "request_id" →
              jsonlog.Entry_Properties e !! k = properties !! k.
Proof.
  intros Hmin. unfold jsonlog.printWithContext.
  replace (level <? jsonlog.minLevel l) with false by (symmetry; apply Z.ltb_ge; lia).
  eexists. rewrite last_snoc. split; [done|]. cbn. repeat split. intros k Hk.
  destruct (Value_RequestIDKey ctx); try done. by rewrite lookup_insert_ne.
Qed.

(** X16. A webhook whose signature does not verify is refused with the
    very error the verification gave, and nothing is dispatched: no entry
    written mentions an event type.  No request goes to the processor and
    the world is the one the verification left. *)
Theorem X16_webhook_bad_signature p ctx payload signature webhookSecret
    (st : State W) err w1 :
  webhook.ConstructEvent payload signature webhookSecret (world st) = (Err err, w1) →
  fst (services_rest.HandleStripeWebhook p ctx payload signature webhookSecret st)
    = Some err
  ∧ world (snd (services_rest.HandleStripeWebhook p ctx payload signature
                  webhookSecret st)) = w1
  ∧ requests (snd (services_rest.HandleStripeWebhook p ctx payload signature
                     webhookSecret st)) = requests st
  ∧ ∀ e,
      e ∈ entries (snd (services_rest.HandleStripeWebhook p ctx payload signature
                          webhookSecret st)) →
      e ∈ entries st ∨ jsonlog.Entry_Properties e !! "eventType" = None.
Proof.
  intros Hverify. rest_unfold. rewrite Hverify. cbn [world requests entries fst snd].
  repeat split. intros e He.
  apply printWithContext_elem in He as [He | (_ & _ & Hprops)].
  - apply printWithContext_elem in He as [He | (_ & _ & Hprops)]; [auto|].
    right. by rewrite Hprops.
  - right. by rewrite Hprops.
Qed.

(** X17. A webhook whose signature verifies is accepted (a nil error)
    whatever the type of its event, known or not.  The dispatch only
    logs: no request goes to the processor and the world stays the one
    the verification left.  At a logger level of INFO or below the last
    entry written names the event (its type and identifier), at level
    WARN for a failed payment and INFO for every other type. *)
Theorem X17_webhook_dispatch_only_logs p ctx payload signature webhookSecret
    (st : State W) event w1 :
  webhook.ConstructEvent payload signature webhookSecret (world st) = (Ok event, w1) →
  fst (services_rest.HandleStripeWebhook p ctx payload signature webhookSecret st)
    = None
  ∧ world (snd (services_rest.HandleStripeWebhook p ctx payload signature
                  webhookSecret st)) = w1
  ∧ requests (snd (services_rest.HandleStripeWebhook p ctx payload signature
                     webhookSecret st)) = requests st
  ∧ (jsonlog.minLevel (services.log p) ≤ jsonlog.LevelInfo →
     ∃ e,
       last (entries (snd (services_rest.HandleStripeWebhook p ctx payload signature
                             webhookSecret st))) = Some e
       ∧ jsonlog.Entry_Properties e !! "eventType" = Some (webhook.Event_Type event)
       ∧ jsonlog.Entry_Properties e !! "eventID" = Some (webhook.Event_ID event)
       ∧ jsonlog.Entry_Level e
         = if decide (webhook.Event_Type event = "payment_intent.payment_failed")
           then jsonlog.LevelWarn else jsonlog.LevelInfo).
Proof.
  intros Hverify. rest_unfold. rewrite Hverify. cbn [world requests entries fst snd].
  unfold jsonlog.LevelInfo.
  repeat case_decide; cbn [world requests entries fst snd];
    (repeat split; try done; intros Hmin;
     match goal with
     | |- context [jsonlog.printWithContext ?l ?c ?lv ?m ?ps ?out] =>
         destruct (printWithContext_last l c lv m ps out) as (e & -> & Hl & _ & Hps);
         [unfold jsonlog.LevelInfo, jsonlog.LevelWarn; lia|]
     end;
     exists e; rewrite !Hps by done; repeat split; try done; congruence).
Qed.

End Webhook.

Section PaymentIntent.
Context {W : Type} `{Env W} `{intents.Gateway W}.

(** X18. The payment-intent helper fetches the intent and asks for its
    confirmation exactly when the fetch succeeded with the status
    requires_confirmation: the requests it sends are the fetch alone, or
    the fetch followed by the confirmation.  It returns a nil error when
    the fetch succeeds and the confirmation, if asked for, succeeds too;
    otherwise it returns the processor's error as it came. *)
Theorem X18_payment_intent_helper p ctx paymentIntentID (st : intents.IntentState W)
    fetched w1 :
  intents.paymentintent_Get paymentIntentID (world (intents.orch st)) = (fetched, w1) →
  match fetched with
  | Err err =>
      fst (services_rest.handlePaymentIntent p ctx paymentIntentID st) = Some err
      ∧ intents.intent_requests
          (snd (services_rest.handlePaymentIntent p ctx paymentIntentID st))
        = intents.intent_requests st
          ++ [intents.Req_paymentintent_Get paymentIntentID]
      ∧ world (intents.orch
                 (snd (services_rest.handlePaymentIntent p ctx paymentIntentID st)))
        = w1
  | Ok pi =>
      if decide (intents.PI_Status pi = intents.PaymentIntentStatusRequiresConfirmation)
      then
        fst (services_rest.handlePaymentIntent p ctx paymentIntentID st)
          = match fst (intents.paymentintent_Confirm paymentIntentID w1) with
            | Ok _ => None
            | Err err => Some err
            end
        ∧ intents.intent_requests
            (snd (services_rest.handlePaymentIntent p ctx paymentIntentID st))
          = intents.intent_requests st
            ++ [ intents.Req_paymentintent_Get paymentIntentID;
                 intents.Req_paymentintent_Confirm paymentIntentID ]
        ∧ world (intents.orch
                   (snd (services_rest.handlePaymentIntent p ctx paymentIntentID st)))
          = snd (intents.paymentintent_Confirm paymentIntentID w1)
      else
        fst (services_rest.handlePaymentIntent p ctx paymentIntentID st) = None
        ∧ intents.intent_requests
            (snd (services_rest.handlePaymentIntent p ctx paymentIntentID st))
          = intents.intent_requests st
            ++ [intents.Req_paymentintent_Get paymentIntentID]
        ∧ world (intents.orch
                   (snd (services_rest.handlePaymentIntent p ctx paymentIntentID st)))
          = w1
  end
  ∧ requests (intents.orch
                (snd (services_rest.handlePaymentIntent p ctx paymentIntentID st)))
    = requests (intents.orch st).
Proof.
  intros Hget. rest_unfold. rewrite Hget.
  cbn [world requests entries fst snd intents.orch intents.intent_requests].
  destruct fetched as [pi|err];
    cbn [world requests entries fst snd intents.orch intents.intent_requests];
    [|done].
  case_decide;
    cbn [world requests entries fst snd intents.orch intents.intent_requests];
    [|done].
  destruct (intents.paymentintent_Confirm paymentIntentID w1) as [[?|?] ?];
    cbn [world requests entries fst snd intents.orch intents.intent_requests];
    rewrite <- app_assoc; done.
Qed.

End PaymentIntent.

(* ===================================================================== *)
(** * What the operations leave in the log *)
(* ===================================================================== *)

Section Logging.
Context {W : Type} `{Env W}.

Lemma log_extends_refl l ctx out : log_extends l ctx out out.
Proof. exists []. by rewrite app_nil_r. Qed.

Lemma log_extends_trans l ctx a b c :
  log_extends l ctx a b → log_extends l ctx b c → log_extends l ctx a c.
Proof.
  intros (e1 & -> & H1) (e2 & -> & H2). exists (e1 ++ e2).
  rewrite app_assoc. split; [done|]. by apply Forall_app.
Qed.

Lemma log_extends_print l ctx level message properties out :
  level = jsonlog.LevelInfo ∨ level = jsonlog.LevelError →
  is_Some (properties !! "operation") →
  log_extends l ctx out
    (jsonlog.printWithContext l ctx level message properties out).
Proof.
  intros Hlevel Hop. unfold jsonlog.printWithContext.
  destruct (level <? jsonlog.minLevel l) eqn:Hmin; [apply log_extends_refl|].
  apply Z.ltb_ge in Hmin.
  eexists [_]. split; [done|]. apply Forall_singleton.
  unfold well_logged. cbn. repeat split; try done.
  - destruct (Value_RequestIDKey ctx); try done. by rewrite lookup_insert_ne.
  - intros requestID ->. by rewrite lookup_insert_eq.
Qed.

Lemma logs_well_ret {A} l ctx (a : A) : logs_well (W:=W) l ctx (ret a).
Proof. intros st. apply log_extends_refl. Qed.

Lemma logs_well_bind {A B} l ctx (m : M W A) (k : A → M W B) :
  logs_well l ctx m → (∀ a, logs_well l ctx (k a)) → logs_well l ctx (bind m k).
Proof.
  intros Hm Hk st. unfold bind. specialize (Hm st).
  destruct (m st) as [a st1]. specialize (Hk a st1).
  by eapply log_extends_trans.
Qed.

Lemma logs_well_call {A} l ctx rq (f : W → result A * W) :
  logs_well l ctx (call rq f).
Proof. intros st. unfold call. destruct (f (world st)). apply log_extends_refl. Qed.

Lemma logs_well_Now l ctx : logs_well (W:=W) l ctx Now.
Proof. intros st. unfold Now. destruct (time_Now (world st)). apply log_extends_refl. Qed.

Lemma logs_well_info p ctx message properties :
  is_Some (properties !! "operation") →
  logs_well (W:=W) (services.log p) ctx
    (services.PrintInfoWithContext p ctx message properties).
Proof. intros Hop st. apply log_extends_print; auto. Qed.

Lemma logs_well_error p ctx err properties :
  is_Some (properties !! "operation") →
  logs_well (W:=W) (services.log p) ctx
    (services.PrintErrorWithContext p ctx err properties).
Proof. intros Hop st. apply log_extends_print; auto. Qed.

Ltac logs_tac :=
  repeat first
    [ apply logs_well_ret
    | apply logs_well_call
    | apply logs_well_Now
    | apply logs_well_info;
      first [ by rewrite lookup_insert_eq | by rewrite lookup_singleton_eq ]
    | apply logs_well_error;
      first [ by rewrite lookup_insert_eq | by rewrite lookup_singleton_eq ]
    | apply logs_well_bind; [|intros ?]
    | case_decide
    | match goal with
      | |- logs_well _ _ (match ?x with _ => _ end) => destruct x
      end ].

Lemma getOrCreateCustomer_logs_well p ctx userID :
  logs_well (W:=W) (services.log p) ctx (services.getOrCreateCustomer p ctx userID).
Proof. unfold services.getOrCreateCustomer. cbv zeta. logs_tac. Qed.

Lemma attachPaymentMethod_logs_well p ctx customerID paymentMethodID :
  logs_well (W:=W) (services.log p) ctx
    (services.attachPaymentMethod p ctx customerID paymentMethodID).
Proof. unfold services.attachPaymentMethod. cbv zeta. logs_tac. Qed.

Lemma setDefaultPaymentMethod_logs_well p ctx customerID paymentMethodID :
  logs_well (W:=W) (services.log p) ctx
    (services.setDefaultPaymentMethod p ctx customerID paymentMethodID).
Proof. unfold services.setDefaultPaymentMethod. cbv zeta. logs_tac. Qed.

Lemma CreateSubscription_logs_well p ctx planID paymentMethodID :
  logs_well (W:=W) (services.log p) ctx
    (services.CreateSubscription p ctx planID paymentMethodID).
Proof.
  unfold services.CreateSubscription. cbv zeta.
  repeat first
    [ apply getOrCreateCustomer_logs_well
    | apply attachPaymentMethod_logs_well
    | apply setDefaultPaymentMethod_logs_well
    | progress logs_tac ].
Qed.

Lemma CancelSubscription_logs_well p ctx stripeSubID :
  logs_well (W:=W) (services.log p) ctx (services.CancelSubscription p ctx stripeSubID).
Proof. unfold services.CancelSubscription. cbv zeta. logs_tac. Qed.

Lemma GetSubscription_logs_well p ctx stripeSubID :
  logs_well (W:=W) (services.log p) ctx (services.GetSubscription p ctx stripeSubID).
Proof. unfold services.GetSubscription. cbv zeta. logs_tac. Qed.

(** Above ERROR nothing is well logged. *)
Lemma log_extends_silent l ctx old new :
  jsonlog.LevelError < jsonlog.minLevel l → log_extends l ctx old new → new = old.
Proof.
  intros Hmin ([|e ext] & -> & Hext); [by rewrite app_nil_r|].
  apply Forall_cons in Hext as [(Hlow & [Hl | Hl] & _) _];
    rewrite Hl in Hlow; unfold jsonlog.LevelInfo, jsonlog.LevelError in *; lia.
Qed.

(** X19. The log is only ever added to, and in one form.  Each of the
    three operations keeps the entries that were there and appends its
    own; each entry it appends is at level INFO or ERROR and not below the
    logger's minimum level, names the operation it belongs to, and
    carries the request identifier of the context when the context has
    one.  A logger set above ERROR therefore gets no entry at all. *)
Theorem X19_log_discipline p ctx planID paymentMethodID stripeSubID (st : State W) :
  log_extends (services.log p) ctx (entries st)
    (entries (snd (services.CreateSubscription p ctx planID paymentMethodID st)))
  ∧ log_extends (services.log p) ctx (entries st)
      (entries (snd (services.CancelSubscription p ctx stripeSubID st)))
  ∧ log_extends (services.log p) ctx (entries st)
      (entries (snd (services.GetSubscription p ctx stripeSubID st)))
  ∧ (jsonlog.LevelError < jsonlog.minLevel (services.log p) →
     entries (snd (services.CreateSubscription p ctx planID paymentMethodID st))
       = entries st
     ∧ entries (snd (services.CancelSubscription p ctx stripeSubID st)) = entries st
     ∧ entries (snd (services.GetSubscription p ctx stripeSubID st)) = entries st).
Proof.
  pose proof (CreateSubscription_logs_well p ctx planID paymentMethodID st) as Hcreate.
  pose proof (CancelSubscription_logs_well p ctx stripeSubID st) as Hcancel.
  pose proof (GetSubscription_logs_well p ctx stripeSubID st) as Hget.
  split; [done|]. split; [done|]. split; [done|].
  intros Hmin. repeat split; by eapply log_extends_silent.
Qed.

End Logging.

(* ===================================================================== *)
(** * The logger's files *)
(* ===================================================================== *)

Section LogFiles.
Import logfiles.
Context {F : Type} `{OS F}.

Lemma wrap64_small (z : Z) : - 2 ^ 63 ≤ z < 2 ^ 63 → wrap64 z = z.
Proof.
  intros Hz. unfold wrap64.
  rewrite Z.mod_small by lia. lia.
Qed.

Lemma rotateLogFileIfNeeded_inert (l : Logger) (n : Z) (fs : F) :
  config l = None ∨ currentFile l = None →
  rotateLogFileIfNeeded l n fs = ((None, l, false), fs).
Proof.
  unfold rotateLogFileIfNeeded.
  intros [-> | ->]; [done|]. by destruct (config l).
Qed.

(** X20. A logger without a configuration or without a current file (one
    made by [New]) never rotates: printing leaves the logger as it was
    and starts no clean-up, whatever the writer answers. *)
Theorem X20_plain_logger_never_rotates (out : Writer) (minLevel : jsonlog.Level)
    (l : Logger) (ctx : Context) (level : jsonlog.Level) (message : string)
    (properties : gmap string string) (fs : F) :
  config (New out minLevel) = None
  ∧ (config l = None ∨ currentFile l = None →
     snd (fst (fst (print l level message properties fs))) = l
     ∧ snd (fst (print l level message properties fs)) = false
     ∧ snd (fst (fst (printWithContext l ctx level message properties fs))) = l
     ∧ snd (fst (printWithContext l ctx level message properties fs)) = false).
Proof.
  split; [done|]. intros Hplain.
  assert (Hprint : ∀ properties,
    snd (fst (fst (print l level message properties fs))) = l
    ∧ snd (fst (print l level message properties fs)) = false).
  { intros props. unfold print.
    destruct (level <? logfiles.minLevel l); [done|].
    destruct (time_Now fs) as [now fs1].
    destruct (if jsonlog.LevelError <=? level then debug_Stack fs1 else ("", fs1))
      as [trace fs2].
    destruct (Writer_Write _ _ fs2) as [[n [err|]] fs3]; [done|].
    destruct (0 <? n); [|done].
    rewrite (rotateLogFileIfNeeded_inert l n fs3 Hplain). done. }
  split; [apply Hprint|]. split; [apply Hprint|].
  unfold printWithContext.
  destruct (level <? logfiles.minLevel l); [done|]. split; apply Hprint.
Qed.

(** X21. When rotation reports no error, a file logger's counted size is
    within the configured limit ([MaxSize] megabytes, for a [MaxSize]
    between 0 and [2^43]): either the size with the new bytes was within
    the limit, or a new file was opened and the count restarted at 0. *)
Theorem X21_size_within_limit (l l' : Logger) (cfg : LogConfig) (n : Z)
    (started : bool) (fs fs' : F) :
  config l = Some cfg →
  is_Some (currentFile l) →
  0 ≤ MaxSize cfg < 2 ^ 43 →
  rotateLogFileIfNeeded l n fs = ((None, l', started), fs') →
  fileSize l' ≤ MaxSize cfg * 1048576
  ∧ (fileSize l' = wrap64 (fileSize l + n) ∧ out l' = out l
       ∧ currentFile l' = currentFile l ∧ started = false
     ∨ fileSize l' = 0 ∧ (∃ file, out l' = Writer_file file ∧ currentFile l' = Some file)
       ∧ started = bool_decide (0 < MaxBackups cfg ∨ 0 < MaxAge cfg)).
Proof.
  intros Hcfg [current Hcur] Hsize. unfold rotateLogFileIfNeeded.
  rewrite Hcfg, Hcur. cbn [fileSize].
  assert (Hlimit : wrap64 (wrap64 (MaxSize cfg * 1024) * 1024)
                   = MaxSize cfg * 1048576).
  { rewrite (wrap64_small (MaxSize cfg * 1024)) by lia.
    rewrite wrap64_small by lia. lia. }
  rewrite Hlimit.
  destruct (Z.ltb_spec (MaxSize cfg * 1048576) (wrap64 (fileSize l + n))) as [Hover|Hin].
  - destruct (File_Close current fs) as [[err|] fs1]; [intros; simplify_eq|].
    destruct (time_Now fs1) as [now fs2].
    destruct (os_OpenFile _ fs2) as [[file|err] fs3]; intros; simplify_eq.
    cbn. split; [lia|]. right. split; [done|]. split; [by eexists|].
    destruct (Z.ltb_spec 0 (MaxBackups cfg)), (Z.ltb_spec 0 (MaxAge cfg)); cbn;
      symmetry; first [apply bool_decide_eq_true; lia | apply bool_decide_eq_false; lia].
  - intros; simplify_eq. cbn. split; [lia|]. by left.
Qed.

(** X22. When rotation fails (the current file does not close, or the
    new one does not open) the logger keeps its writer and its current
    file, even though that file may have been closed; the counted size
    includes the new bytes and stays above the limit; and no clean-up is
    started. *)
Theorem X22_failed_rotation (l l' : Logger) (n : Z) (e : error)
    (started : bool) (fs fs' : F) :
  rotateLogFileIfNeeded l n fs = ((Some e, l', started), fs') →
  ∃ cfg,
    config l = Some cfg
    ∧ out l' = out l ∧ currentFile l' = currentFile l ∧ config l' = config l
    ∧ minLevel l' = minLevel l
    ∧ fileSize l' = wrap64 (fileSize l + n)
    ∧ wrap64 (wrap64 (MaxSize cfg * 1024) * 1024) < fileSize l'
    ∧ started = false
    ∧ ∃ cause, e = fmt_Errorf ("failed to close log file: " +:+ Error cause)
               ∨ e = fmt_Errorf ("failed to open new log file: " +:+ Error cause).
Proof.
  unfold rotateLogFileIfNeeded.
  destruct (config l) as [cfg|] eqn:Hcfg; [|intros; simplify_eq].
  destruct (currentFile l) as [current|] eqn:Hcur; [|intros; simplify_eq].
  cbn [fileSize].
  destruct (Z.ltb_spec (wrap64 (wrap64 (MaxSize cfg * 1024) * 1024))
              (wrap64 (fileSize l + n))) as [Hover|Hin]; [|intros; simplify_eq].
  destruct (File_Close current fs) as [[err|] fs1].
  { intros; simplify_eq. exists cfg. cbn. repeat (split; [done|]). eauto. }
  destruct (time_Now fs1) as [now fs2].
  destruct (os_OpenFile _ fs2) as [[file|err] fs3]; intros; simplify_eq.
  exists cfg. cbn. repeat (split; [done|]). eauto.
Qed.

(** X23. [print] below the logger's level does nothing and returns
    [(0, nil)].  Otherwise it returns what the writer's [Write] returned
    for one line that ends in a newline, whatever rotation did; and when
    the writer reports an error or no byte written, the logger is left
    as it was. *)
Theorem X23_print_returns_the_write (l : Logger) (level : jsonlog.Level)
    (message : string) (properties : gmap string string) (fs : F) :
  (level < minLevel l →
   print l level message properties fs = (((0, None), l, false), fs))
  ∧ (minLevel l ≤ level →
     ∃ line fs1,
       let written := Writer_Write (out l) (line +:+ newline) fs1 in
       fst (fst (fst (print l level message properties fs))) = fst written
       ∧ (is_Some (snd (fst written)) ∨ fst (fst written) ≤ 0 →
          print l level message properties fs = ((fst written, l, false), snd written))).
Proof.
  unfold print. split; intros Hlevel.
  - destruct (Z.ltb_spec level (minLevel l)); [done|lia].
  - destruct (Z.ltb_spec level (minLevel l)); [lia|].
    destruct (time_Now fs) as [now fs1].
    destruct (if jsonlog.LevelError <=? level then debug_Stack fs1 else ("", fs1))
      as [trace fs2].
    match goal with
    | |- context [Writer_Write (out l) (?s +:+ newline) fs2] => exists s, fs2
    end.
    cbn zeta.
    destruct (Writer_Write _ _ fs2) as [[n [err|]] fs3]; cbn [fst snd].
    { done. }
    destruct (Z.ltb_spec 0 n).
    + destruct (rotateLogFileIfNeeded l n fs3) as [[[[rotateErr|] l'] started] fs4];
        cbn [fst snd]; (split; [done|]); intros [[? [=]]|?]; lia.
    + done.
Qed.

Lemma print_file_logger (l : Logger) (level : jsonlog.Level) (message : string)
    (properties : gmap string string) (fs : F) :
  file_logger l →
  file_logger (snd (fst (fst (print l level message properties fs)))).
Proof.
  intros Hl. unfold print.
  destruct (level <? minLevel l); [done|].
  destruct (time_Now fs) as [now fs1].
  destruct (if jsonlog.LevelError <=? level then debug_Stack fs1 else ("", fs1))
    as [trace fs2].
  destruct (Writer_Write _ _ fs2) as [[n [err|]] fs3]; [done|].
  destruct (0 <? n); [|done].
  assert (Hrot : file_logger (snd (fst (fst (rotateLogFileIfNeeded l n fs3))))).
  { destruct Hl as (f & cfg & Hout & Hcur & Hcfg).
    unfold rotateLogFileIfNeeded. rewrite Hcfg, Hcur. cbn [fileSize].
    destruct (_ <? _); [|by exists f, cfg].
    destruct (File_Close f fs3) as [[e|] fs4]; [by exists f, cfg|].
    destruct (time_Now fs4) as [now' fs5].
    destruct (os_OpenFile _ fs5) as [[file|e] fs6]; [|by exists f, cfg].
    by exists file, cfg. }
  destruct (rotateLogFileIfNeeded l n fs3) as [[[[rotateErr|] l'] started] fs4]; done.
Qed.

(** X24. [NewFileLogger] returns a logger or an error.  A logger it
    returns writes to its current file, carries the given configuration
    and level, and starts counting at the size the opened file already
    has; printing, with or without a context, and [Write] keep the writer
    and the current file the same file. *)
Theorem X24_file_logger_invariant :
  (∀ (cfg : LogConfig) (minLevel : jsonlog.Level) (fs fs' : F) (l : Logger),
     NewFileLogger cfg minLevel fs = (Ok l, fs') →
     file_logger l ∧ config l = Some cfg ∧ logfiles.minLevel l = minLevel
     ∧ ∃ file fs1, out l = Writer_file file
                   ∧ fst (File_Stat_Size file fs1) = Ok (fileSize l))
  ∧ (∀ (l : Logger) (ctx : Context) (level : jsonlog.Level) (message : string)
       (properties : gmap string string) (fs : F),
     file_logger l →
     file_logger (snd (fst (fst (print l level message properties fs))))
     ∧ file_logger (snd (fst (fst (printWithContext l ctx level message properties fs))))
     ∧ file_logger (snd (fst (fst (Write l message fs))))).
Proof.
  split.
  - intros cfg lvl fs fs' l. unfold NewFileLogger.
    destruct (os_MkdirAll _ fs) as [[e|] fs1]; [done|].
    destruct (time_Now fs1) as [now fs2].
    destruct (os_OpenFile _ fs2) as [[file|e] fs3]; [|done].
    destruct (File_Stat_Size file fs3) as [[size|e] fs4] eqn:Hstat.
    + intros; simplify_eq. cbn. split; [by exists file, cfg|].
      do 2 (split; [done|]). exists file, fs3. by rewrite Hstat.
    + by destruct (File_Close file fs4).
  - intros l ctx level message properties fs Hl.
    split; [by apply print_file_logger|]. split; [|by apply print_file_logger].
    unfold printWithContext. destruct (level <? minLevel l); [done|].
    by apply print_file_logger.
Qed.

(** X25. When [NewFileLogger] fails, the error names the step that
    failed; and when it is the size of the opened file that cannot be
    read, the file is closed again before returning. *)
Theorem X25_file_logger_errors (cfg : LogConfig) (minLevel : jsonlog.Level)
    (fs fs' : F) (e : error) :
  NewFileLogger cfg minLevel fs = (Err e, fs') →
  ∃ cause,
    e = fmt_Errorf ("failed to create log directory: " +:+ Error cause)
    ∨ e = fmt_Errorf ("failed to open log file: " +:+ Error cause)
    ∨ e = fmt_Errorf ("failed to get file info: " +:+ Error cause)
      ∧ ∃ file fs1, fs' = snd (File_Close file (snd (File_Stat_Size file fs1))).
Proof.
  unfold NewFileLogger.
  destruct (os_MkdirAll _ fs) as [[err|] fs1].
  { intros; simplify_eq. exists err. by left. }
  destruct (time_Now fs1) as [now fs2].
  destruct (os_OpenFile _ fs2) as [[file|err] fs3].
  2: { intros; simplify_eq. exists err. right. by left. }
  destruct (File_Stat_Size file fs3) as [[size|err] fs4] eqn:Hstat; [done|].
  destruct (File_Close file fs4) as [c fs5] eqn:Hclose.
  intros; simplify_eq. exists err. right. right. split; [done|].
  exists file, fs3. rewrite Hstat. cbn [snd]. by rewrite Hclose.
Qed.

Lemma stat_files_paths (matches : list string) (fs : F) :
  path <$> fst (stat_files matches fs) ⊆ matches.
Proof.
  revert fs. induction matches as [|m rest IH]; intros fs; cbn; [done|].
  destruct (os_Stat_ModTime m fs) as [r fs1].
  specialize (IH fs1). destruct (stat_files rest fs1) as [files fs2].
  cbn [fst] in *. intros p Hp. destruct r as [t|e]; cbn in Hp.
  - apply elem_of_cons in Hp as [->|Hp]; [left|right; by apply IH].
  - right. by apply IH.
Qed.

Lemma excess_files_paths (cfg : LogConfig) (files : list fileInfo) :
  excess_files cfg files ⊆ path <$> files.
Proof.
  unfold excess_files. case_match; [|by intros p ?%elem_of_nil].
  intros p (f & -> & Hf)%list_elem_of_fmap.
  apply list_elem_of_fmap. exists f. split; [done|].
  apply elem_of_take in Hf as (i & Hi & _). by eapply list_elem_of_lookup_2.
Qed.

Lemma aged_files_paths (cfg : LogConfig) (now : Z) (files : list fileInfo) :
  aged_files cfg now files ⊆ path <$> files.
Proof.
  unfold aged_files.
  intros p (f & -> & Hf)%list_elem_of_fmap.
  apply list_elem_of_fmap. exists f. split; [done|].
  by apply list_elem_of_filter in Hf as [_ ?].
Qed.

(** X26. Whatever order [sort.Slice] produces, the clean-up removes only
    paths that [filepath.Glob] returned for [app-*.log] in the log
    directory, and only when [MaxBackups] or [MaxAge] is positive; it
    removes nothing when the logger has no configuration or the pattern
    is refused. *)
Theorem X26_cleanup_removes_only_matches (sort_Slice : list fileInfo → list fileInfo)
    (l : Logger) (fs : F) (p : string) :
  (∀ files, sort_Slice files ≡ₚ files) →
  p ∈ fst (cleanupOldLogFiles sort_Slice l fs) →
  ∃ cfg matches,
    config l = Some cfg
    ∧ fst (filepath_Glob (filepath_Join (LogPath cfg) "app-*.log") fs) = Ok matches
    ∧ p ∈ matches
    ∧ (0 < MaxBackups cfg ∨ 0 < MaxAge cfg).
Proof.
  intros Hsort. unfold cleanupOldLogFiles.
  destruct (config l) as [cfg|]; [|by intros ?%elem_of_nil].
  destruct (filepath_Glob _ fs) as [[matches|e] fs1] eqn:Hglob;
    [|by intros ?%elem_of_nil].
  assert (Hmatches : (filepath_Glob (filepath_Join (LogPath cfg) "app-*.log") fs).1
                     = Ok matches) by by rewrite Hglob.
  clear Hglob.
  pose proof (stat_files_paths matches fs1) as Hstat.
  destruct (stat_files matches fs1) as [files fs2]. cbn [fst] in Hstat.
  assert (Hin : ∀ q, q ∈ path <$> sort_Slice files → q ∈ matches).
  { intros q Hq. apply Hstat. by rewrite <- (Hsort files). }
  assert (Hexcess : p ∈ excess_files cfg (sort_Slice files) →
                    p ∈ matches ∧ 0 < MaxBackups cfg).
  { intros Hp. split; [by apply Hin, (excess_files_paths cfg)|].
    unfold excess_files in Hp.
    destruct (Z.ltb_spec 0 (MaxBackups cfg)); [done|].
    by apply elem_of_nil in Hp. }
  destruct (Z.ltb_spec 0 (MaxAge cfg)).
  - destruct (time_Now _) as [now fs3]. cbn [fst].
    intros [Hp|Hp]%elem_of_app; exists cfg, matches.
    + destruct (Hexcess Hp). do 3 (split; [done|]). by left.
    + do 2 (split; [done|]). split; [|by right].
      by apply Hin, (aged_files_paths cfg now).
  - cbn [fst]. intros Hp. destruct (Hexcess Hp). exists cfg, matches.
    do 3 (split; [done|]). by left.
Qed.

(** X27. On a list sorted oldest first, the first loop of the clean-up
    removes a prefix and keeps the rest: it keeps [MaxBackups] files when
    there are more than that and all of them otherwise, and no file it
    removes is newer than a file it keeps. *)
Theorem X27_backups_kept (cfg : LogConfig) (files : list fileInfo) :
  oldest_first files →
  0 < MaxBackups cfg →
  ∃ removed kept,
    files = removed ++ kept
    ∧ excess_files cfg files = path <$> removed
    ∧ Z.of_nat (length kept) = Z.min (Z.of_nat (length files)) (MaxBackups cfg)
    ∧ ∀ r k, r ∈ removed → k ∈ kept → modTime r ≤ modTime k.
Proof.
  intros Hsorted Hpos. unfold excess_files.
  destruct (Z.ltb_spec 0 (MaxBackups cfg)); [|lia]. cbn [andb].
  destruct (Z.ltb_spec (MaxBackups cfg) (Z.of_nat (length files))).
  - set (k := Z.to_nat (Z.of_nat (length files) - MaxBackups cfg)).
    exists (take k files), (drop k files).
    split; [by rewrite take_drop|]. split; [done|].
    split; [rewrite length_drop; lia|].
    intros r f Hr Hf. rewrite <- (take_drop k files) in Hsorted.
    unfold oldest_first in Hsorted.
    by apply (StronglySorted_app_1_elem_of _ _ _ r f Hsorted).
  - exists [], files. split; [done|]. split; [done|]. split; [lia|].
    by intros r k ?%elem_of_nil.
Qed.

(** X28. For a [MaxAge] between 1 and 106751 days the second loop of the
    clean-up removes exactly the files last modified more than [MaxAge]
    times 24 hours before the current time, in the order of the list. *)
Theorem X28_aged_files (cfg : LogConfig) (now : Z) (files : list fileInfo) :
  0 < MaxAge cfg ≤ 106751 →
  age_cutoff cfg now = now - MaxAge cfg * 24 * time_Hour
  ∧ aged_files cfg now files
    = path <$> filter (λ f, modTime f < now - MaxAge cfg * 24 * time_Hour) files.
Proof.
  intros Hage.
  assert (Hcut : age_cutoff cfg now = now - MaxAge cfg * 24 * time_Hour).
  { unfold age_cutoff, time_Hour.
    rewrite (wrap64_small (- MaxAge cfg)) by lia.
    rewrite (wrap64_small (- MaxAge cfg * 24)) by lia.
    rewrite wrap64_small by lia. lia. }
  split; [done|]. unfold aged_files. by rewrite Hcut.
Qed.

End LogFiles.

(* ===================================================================== *)
(** * The further properties at work on concrete runs *)
(* ===================================================================== *)

Lemma X2_plan_checked_before_token_witness :
  snd (fst (services.CreateSubscription pay0 ctx42 3 "pm_test" (start Ledger.empty)))
  = pb.Status_STATUS_INVALID_PLAN.
Proof.
  apply (X2_plan_checked_before_token pay0 ctx42 42 3 "pm_test"
           (start Ledger.empty) eq_refl).
  split; discriminate.
Defined.

Lemma X3_attach_failure_stops_witness :
  outcome (services.CreateSubscription pay0 ctx42 1 "pm_test") script_card_declined
  = (("", pb.Status_STATUS_INVALID_PAYMENT_METHOD), []).
Proof.
  refine (proj1 (X3_attach_failure_stops pay0 ctx42 42 1 "pm_test"
                   script_card_declined "cus_9"
                   [ Scripted.A_method (Err (stripe_Error "Your card was declined.")) ]
                   (stripe_Error "Your card was declined.") []
                   eq_refl (or_introl eq_refl) _ _ _));
    [discriminate | vm_compute; reflexivity | reflexivity].
Defined.

Lemma X4_customer_failure_is_internal_witness :
  outcome (services.CreateSubscription pay0 ctx42 2 "pm_test") script_no_customer
  = (("", pb.Status_STATUS_INTERNAL_ERROR), []).
Proof.
  refine (proj1 (X4_customer_failure_is_internal pay0 ctx42 42 2 "pm_test"
                   script_no_customer
                   (stripe_Error "No such customer: 42")
                   [ Scripted.A_customer (Err (stripe_Error "rate limited")) ]
                   (stripe_Error "rate limited") []
                   eq_refl (or_intror eq_refl) _ _ _));
    [discriminate | reflexivity | reflexivity].
Defined.

Lemma X5_after_attachment_witness :
  outcome (services.CreateSubscription pay0 ctx42 1 "pm_test") script_default_refused
  = (("sub_1", pb.Status_STATUS_OK), []).
Proof.
  refine (proj1 (X5_after_attachment pay0 ctx42 42 1 "pm_test"
                   script_default_refused "cus_9"
                   [ Scripted.A_method (Ok {| stripe.PaymentMethod_ID := "pm_test" |});
                     Scripted.A_customer (Err (stripe_Error "update refused"));
                     Scripted.A_subscription (Ok sub_basic) ]
                   {| stripe.PaymentMethod_ID := "pm_test" |}
                   [ Scripted.A_customer (Err (stripe_Error "update refused"));
                     Scripted.A_subscription (Ok sub_basic) ]
                   (Err (stripe_Error "update refused"))
                   [ Scripted.A_subscription (Ok sub_basic) ]
                   (Ok sub_basic) []
                   eq_refl (or_introl eq_refl) _ _ _ _ _));
    [discriminate | vm_compute; reflexivity | reflexivity | reflexivity | reflexivity].
Defined.

Lemma X8_cancel_outcome_witness :
  fst (outcome (services.CancelSubscription pay0 ctx42 "sub_1") ledger_with_sub)
  = pb.Status_STATUS_OK.
Proof.
  refine (proj2 (proj1 (X8_cancel_outcome pay0 ctx42 "sub_1" ledger_with_sub
                          (Ok sub_basic) ledger_with_sub _ _)) _);
    [discriminate | reflexivity |].
  exists sub_basic. split; [reflexivity|]. right.
  eexists. split; [vm_compute; reflexivity | reflexivity].
Defined.

Lemma X10_logging_does_not_interfere_witness :
  outcome (services.CreateSubscription pay0 ctx42 1 "pm_test") script_default_refused
  = outcome
      (services.CreateSubscription
         {| services.log := {| jsonlog.minLevel := jsonlog.LevelOff |};
            services.tokenTTL := 0 |}
         {| Value_UserIDKey := any_int64 42; Value_RequestIDKey := any_nil |}
         1 "pm_test") script_default_refused.
Proof.
  refine (proj1 (proj1 (X10_logging_does_not_interfere pay0
                          {| services.log := {| jsonlog.minLevel := jsonlog.LevelOff |};
                             services.tokenTTL := 0 |}
                          ctx42
                          {| Value_UserIDKey := any_int64 42;
                             Value_RequestIDKey := any_nil |}
                          1 "pm_test" "sub_1" script_default_refused _)));
    reflexivity.
Defined.

Lemma X13_get_handler_numeric_witness :
  fst (@grpc.GetSubscription _ (grpc.orchestrator pay0) ctx42 (get_request "17")
         (start script_all_numeric))
  = (Some {| pb.GetResp_Subscription :=
               {| pb.Id := 17;
                  pb.PlanId := 2;
                  pb.StripeSubscriptionId := "17";
                  pb.Status_ := pb.SubscriptionStatus_SUBSCRIPTION_STATUS_ACTIVE;
                  pb.CurrentPeriodEnd := 1702592000 |} |}, None).
Proof.
  refine (f_equal fst
            (@X13_get_handler_numeric _ (grpc.orchestrator pay0) ctx42
               (get_request "17") (start script_all_numeric)
               (fst (services.GetSubscription pay0 ctx42 "17" (start script_all_numeric)))
               (snd (services.GetSubscription pay0 ctx42 "17" (start script_all_numeric)))
               17 2 _ _ _ _ _));
    [vm_compute; reflexivity | lia | lia | vm_compute; reflexivity
    | vm_compute; reflexivity].
Defined.

Lemma X16_webhook_bad_signature_witness :
  fst (services_rest.HandleStripeWebhook pay0 ctx42 "payment_intent.succeeded"
         "v1=forged" "whsec_1" (start Ledger.empty))
  = Some (stripe_Error "webhook had no valid signature").
Proof.
  refine (proj1 (X16_webhook_bad_signature pay0 ctx42 "payment_intent.succeeded"
                   "v1=forged" "whsec_1" (start Ledger.empty)
                   (stripe_Error "webhook had no valid signature") Ledger.empty _));
    vm_compute; reflexivity.
Defined.

Lemma X17_webhook_dispatch_only_logs_witness :
  fst (services_rest.HandleStripeWebhook pay0 ctx42 "payment_intent.payment_failed"
         "v1=whsec_1" "whsec_1" (start Ledger.empty))
  = None.
Proof.
  refine (proj1 (X17_webhook_dispatch_only_logs pay0 ctx42
                   "payment_intent.payment_failed" "v1=whsec_1" "whsec_1"
                   (start Ledger.empty)
                   {| webhook.Event_ID := "evt_0";
                      webhook.Event_Type := "payment_intent.payment_failed" |}
                   Ledger.empty _));
    vm_compute; reflexivity.
Defined.

Lemma X18_payment_intent_helper_witness :
  intents.intent_requests
    (snd (services_rest.handlePaymentIntent pay0 ctx42 "pi_1"
            (intents.mkIntentState (start Ledger.empty) [])))
  = [ intents.Req_paymentintent_Get "pi_1";
      intents.Req_paymentintent_Confirm "pi_1" ].
Proof.
  refine (proj1 (proj2 (proj1 (X18_payment_intent_helper pay0 ctx42 "pi_1"
                   (intents.mkIntentState (start Ledger.empty) [])
                   (Ok {| intents.PI_ID := "pi_1";
                          intents.PI_Status :=
                            intents.PaymentIntentStatusRequiresConfirmation |})
                   Ledger.empty _))));
    reflexivity.
Defined.

Lemma X21_size_within_limit_witness :
  logfiles.fileSize
    (snd (fst (fst (logfiles.rotateLogFileIfNeeded logger_full 1
                      (os_three_files false)))))
  ≤ 1 * 1048576.
Proof.
  refine (proj1 (X21_size_within_limit logger_full
                   (snd (fst (fst (logfiles.rotateLogFileIfNeeded logger_full 1
                                     (os_three_files false)))))
                   cfg_small 1 true (os_three_files false)
                   (snd (logfiles.rotateLogFileIfNeeded logger_full 1
                           (os_three_files false)))
                   eq_refl _ _ _));
    [by eexists | cbn; lia | vm_compute; reflexivity].
Defined.

Lemma X22_failed_rotation_witness :
  logfiles.currentFile
    (snd (fst (fst (logfiles.rotateLogFileIfNeeded logger_full 1
                      (os_three_files true)))))
  = Some (logfiles.Handle 1).
Proof.
  destruct (X22_failed_rotation logger_full
              (snd (fst (fst (logfiles.rotateLogFileIfNeeded logger_full 1
                                (os_three_files true)))))
              1
              (fmt_Errorf
                 "failed to open new log file: open logs/app-1000000000000000000.log: read-only file system")
              false (os_three_files true) (os_three_files true))
    as (cfg & _ & _ & Hcurrent & _).
  - vm_compute; reflexivity.
  - exact Hcurrent.
Defined.

Lemma X25_file_logger_errors_witness :
  ∃ cause,
    fmt_Errorf
      "failed to open log file: open logs/app-1000000000000000000.log: read-only file system"
    = fmt_Errorf ("failed to open log file: " +:+ Error cause).
Proof.
  destruct (X25_file_logger_errors cfg_small jsonlog.LevelInfo
              (os_three_files true) (os_three_files true)
              (fmt_Errorf
                 "failed to open log file: open logs/app-1000000000000000000.log: read-only file system"))
    as (cause & [Hdir | [Hopen | [Hinfo _]]]).
  - vm_compute; reflexivity.
  - discriminate Hdir.
  - by exists cause.
  - discriminate Hinfo.
Defined.

Lemma X26_cleanup_removes_only_matches_witness :
  "logs/app-a.log"
  ∈ (MemOS.directory (os_three_files false)).*1.
Proof.
  destruct (X26_cleanup_removes_only_matches MemOS.sort_Slice logger_full
              (os_three_files false) "logs/app-a.log")
    as (cfg & matches & _ & Hglob & Hin & _).
  - intros files. apply merge_sort_Permutation.
  - assert (Hremoved :
      fst (logfiles.cleanupOldLogFiles MemOS.sort_Slice logger_full
             (os_three_files false))
      = ["logs/app-a.log"; "logs/app-a.log"; "logs/app-b.log"; "logs/app-c.log"])
      by (vm_compute; reflexivity).
    rewrite Hremoved. constructor.
  - injection Hglob as <-. exact Hin.
Defined.

Lemma X27_backups_kept_witness :
  ∃ removed kept,
    files_by_age = removed ++ kept
    ∧ logfiles.excess_files cfg_small files_by_age = logfiles.path <$> removed
    ∧ Z.of_nat (length kept) = Z.min 3 2
    ∧ ∀ r k, r ∈ removed → k ∈ kept → logfiles.modTime r ≤ logfiles.modTime k.
Proof.
  apply (X27_backups_kept cfg_small files_by_age).
  - unfold oldest_first, files_by_age.
    repeat first [ apply SSorted_nil | apply SSorted_cons
                 | apply Forall_nil_2 | apply Forall_cons_2 ];
      cbn; unfold logfiles.time_Hour; lia.
  - cbn. lia.
Defined.

Lemma X28_aged_files_witness :
  logfiles.aged_files cfg_small 1000000000000000000 files_by_age
  = logfiles.path
      <$> filter (λ f, logfiles.modTime f
                       < 1000000000000000000 - 7 * 24 * logfiles.time_Hour)
            files_by_age.
Proof.
  refine (proj2 (X28_aged_files cfg_small 1000000000000000000 files_by_age _)).
  cbn. lia.
Defined.

Lemma X24_file_logger_invariant_witness :
  file_logger
    (snd (fst (fst (logfiles.print logger_full jsonlog.LevelError "disk is full" ∅
                      (os_three_files false))))).
Proof.
  refine (proj1 (proj2 X24_file_logger_invariant logger_full ctx42
                   jsonlog.LevelError "disk is full" ∅ (os_three_files false) _)).
  by exists (logfiles.Handle 1), cfg_small.
Defined.
